(** * AI News Agent: a shallow embedding of the workflow and its data model

    The development follows the Python sources of the agent:

    - [src/models/news_article.py]   (module [NewsArticle])
    - [src/models/news_summary.py]   (module [NewsSummary])
    - [src/services/google_news_fetcher.py] (module [GoogleNewsFetcher])
    - [src/services/strands_ai_summarizer.py] (module [StrandsAISummarizer])
    - [src/aws_lambda/handler.py]    (module [LambdaHandler])

    Conventions of the embedding.

    - A Python [str] is a Rocq [string].  Text is read as ASCII: [len] is
      [String.length], a slice [s[:n]] is [PyStr.take n s], and [lower]
      folds the letters A-Z.  The one non-ASCII literal of the sources (the
      bullet of the key-point parser) is kept as its UTF-8 encoding.
    - A Python [float] is an IEEE-754 binary64 value, [spec_float] with
      precision 53 and maximal exponent 1024, computed with the operations
      of [SpecFloat] (round to nearest, ties to even).
    - A call that may raise returns a [result]; code that has effects on
      collaborators or on the clock is a function from a world to a
      [result] and a new world (the monad [M]).  Only subclasses of
      [Exception] are modelled.
    - Logging is not modelled: a logging call does not raise and changes
      nothing that the program reads. *)

From Stdlib Require Import ZArith Lia Ascii String Bool.
From Stdlib Require Import Floats.SpecFloat.
From stdpp Require Import gmap strings list pretty.

Open Scope Z_scope.

(* ================================================================== *)
(** * Part I.  The embedding                                            *)
(* ================================================================== *)

(** ** Python strings *)

Module PyStr.

Definition is_upper (c : ascii) : bool :=
  let n := nat_of_ascii c in (65 <=? n)%nat && (n <=? 90)%nat.

Definition lower_char (c : ascii) : ascii :=
  if is_upper c then ascii_of_nat (nat_of_ascii c + 32) else c.

(** [s.lower()] *)
Fixpoint lower (s : string) : string :=
  match s with
  | EmptyString => EmptyString
  | String c r => String (lower_char c) (lower r)
  end.

(** [s[:n]] *)
Fixpoint take (n : nat) (s : string) : string :=
  match n, s with
  | S k, String c r => String c (take k r)
  | _, _ => EmptyString
  end.

(** [s[n:]] *)
Fixpoint drop (n : nat) (s : string) : string :=
  match n, s with
  | S k, String _ r => drop k r
  | _, _ => s
  end.

(** [s.startswith(p)] *)
Definition startswith (p s : string) : bool := String.prefix p s.

(** [sub in s] *)
Fixpoint contains (sub s : string) : bool :=
  String.prefix sub s ||
  match s with
  | EmptyString => false
  | String _ r => contains sub r
  end.

(** The characters that [str.strip()] removes, within ASCII. *)
Definition is_space (c : ascii) : bool :=
  let n := nat_of_ascii c in
  ((9 <=? n)%nat && (n <=? 13)%nat) || ((28 <=? n)%nat && (n <=? 32)%nat).

Fixpoint lstrip (s : string) : string :=
  match s with
  | String c r => if is_space c then lstrip r else s
  | EmptyString => EmptyString
  end.

Fixpoint rstrip (s : string) : string :=
  match s with
  | EmptyString => EmptyString
  | String c r =>
      match rstrip r with
      | EmptyString => if is_space c then EmptyString else String c EmptyString
      | r' => String c r'
      end
  end.

(** [s.strip()] *)
Definition strip (s : string) : string := rstrip (lstrip s).

(** [not s] for a string: the empty string is falsy. *)
Definition is_empty (s : string) : bool :=
  match s with EmptyString => true | _ => false end.

Definition is_digit (c : ascii) : bool :=
  let n := nat_of_ascii c in (48 <=? n)%nat && (n <=? 57)%nat.

(** The class [\w] of [re], within ASCII: letters, digits, underscore. *)
Definition is_word_char (c : ascii) : bool :=
  let n := nat_of_ascii c in
  is_digit c || ((65 <=? n)%nat && (n <=? 90)%nat)
  || ((97 <=? n)%nat && (n <=? 122)%nat) || (n =? 95)%nat.

(** [s.split(sep)] for a one-character separator; [cur] holds the
    current field, reversed. *)
Fixpoint split_aux (sep : ascii) (s : string) (cur : string) : list string :=
  match s with
  | EmptyString => [cur]
  | String c r =>
      if Ascii.eqb c sep then cur :: split_aux sep r EmptyString
      else split_aux sep r (cur +:+ String c EmptyString)
  end.

Definition split (sep : ascii) (s : string) : list string :=
  split_aux sep s EmptyString.

(** [s.split(sep, 1)[1]]: what follows the first separator, if any. *)
Fixpoint after_first (sep : ascii) (s : string) : option string :=
  match s with
  | EmptyString => None
  | String c r => if Ascii.eqb c sep then Some r else after_first sep r
  end.

(** [re.findall(r'\w+', s)]: the maximal runs of word characters. *)
Fixpoint findall_words_aux (s : string) (cur : string) : list string :=
  match s with
  | EmptyString => if is_empty cur then [] else [cur]
  | String c r =>
      if is_word_char c then findall_words_aux r (cur +:+ String c EmptyString)
      else if is_empty cur then findall_words_aux r EmptyString
      else cur :: findall_words_aux r EmptyString
  end.

Definition findall_words (s : string) : list string :=
  findall_words_aux s EmptyString.

(** [sep.join(parts)] *)
Fixpoint join (sep : string) (parts : list string) : string :=
  match parts with
  | [] => EmptyString
  | [p] => p
  | p :: r => p +:+ sep +:+ join sep r
  end.

(** A string of [n] copies of [c]: ["c" * n]. *)
Fixpoint replicate_char (n : nat) (c : ascii) : string :=
  match n with
  | O => EmptyString
  | S k => String c (replicate_char k c)
  end.

(** Decimal digits of a number, zero-padded to [w] places. *)
Definition zero_pad (w : nat) (z : Z) : string :=
  let d : string := pretty z in
  replicate_char (w - String.length d) "0"%char +:+ d.

End PyStr.

(** ** Python floats: IEEE-754 binary64 *)

Module Float.

Definition prec : Z := 53.
Definition emax : Z := 1024.

Definition float := spec_float.

(** [float(n)] for an integer [n]: the nearest binary64 value. *)
Definition of_int (n : Z) : float := binary_normalize prec emax n 0 false.

Definition add : float -> float -> float := SFadd prec emax.
Definition sub : float -> float -> float := SFsub prec emax.
Definition mul : float -> float -> float := SFmul prec emax.
Definition div : float -> float -> float := SFdiv prec emax.

Definition ltb : float -> float -> bool := SFltb.
Definition leb : float -> float -> bool := SFleb.

(** The literals of the sources. *)
Definition zero : float := S754_zero false.                               (* 0.0 *)
Definition one : float := S754_finite false 4503599627370496 (-52).       (* 1.0 *)
Definition lit_0_1 : float := S754_finite false 7205759403792794 (-56).   (* 0.1 *)
Definition lit_0_3 : float := S754_finite false 5404319552844595 (-54).   (* 0.3 *)
Definition lit_0_8 : float := S754_finite false 7205759403792794 (-53).   (* 0.8 *)

(** [a / b] for two [int]s with [b <> 0].  CPython divides the two
    operands as floats whenever both convert exactly, which is the case
    for all integers of magnitude at most [2^53], the range of every count
    the program divides. *)
Definition truediv (a b : Z) : float := div (of_int a) (of_int b).

(** [min(a, b)]: the builtin keeps its first argument unless the second
    compares strictly smaller. *)
Definition py_min (a b : float) : float := if ltb b a then b else a.

(** [a > b], [a >= b] *)
Definition gtb (a b : float) : bool := ltb b a.
Definition geb (a b : float) : bool := leb b a.

(** [not x] for a float: zero is falsy. *)
Definition is_zero (x : float) : bool :=
  match x with S754_zero _ => true | _ => false end.

End Float.

(** ** Dates and times *)

(** A [datetime] is a wall-clock reading in microseconds since
    1970-01-01T00:00:00, together with its offset from UTC in seconds when
    it is timezone-aware. *)
Record datetime := mk_datetime {
  wall_us : Z;
  utcoffset : option Z
}.

Module DateTime.

Definition us_per_sec : Z := 1000000.
Definition us_per_day : Z := 86400 * us_per_sec.

(** The civil date of a day number counted from 1970-01-01
    (proleptic Gregorian calendar). *)
Definition civil_from_days (days : Z) : Z * Z * Z :=
  let z := days + 719468 in
  let era := z / 146097 in
  let doe := z - era * 146097 in
  let yoe := (doe - doe / 1460 + doe / 36524 - doe / 146096) / 365 in
  let y := yoe + era * 400 in
  let doy := doe - (365 * yoe + yoe / 4 - yoe / 100) in
  let mp := (5 * doy + 2) / 153 in
  let d := doy - (153 * mp + 2) / 5 + 1 in
  let m := if mp <? 10 then mp + 3 else mp - 9 in
  (if m <=? 2 then y + 1 else y, m, d).

Definition year (t : datetime) : Z := fst (fst (civil_from_days (wall_us t / us_per_day))).
Definition month (t : datetime) : Z := snd (fst (civil_from_days (wall_us t / us_per_day))).
Definition day (t : datetime) : Z := snd (civil_from_days (wall_us t / us_per_day)).
Definition hour (t : datetime) : Z := (wall_us t mod us_per_day) / (3600 * us_per_sec).
Definition minute (t : datetime) : Z := (wall_us t mod (3600 * us_per_sec)) / (60 * us_per_sec).
Definition second (t : datetime) : Z := (wall_us t mod (60 * us_per_sec)) / us_per_sec.
Definition microsecond (t : datetime) : Z := wall_us t mod us_per_sec.

Definition month_name (m : Z) : string :=
  match m with
  | 1 => "January" | 2 => "February" | 3 => "March" | 4 => "April"
  | 5 => "May" | 6 => "June" | 7 => "July" | 8 => "August"
  | 9 => "September" | 10 => "October" | 11 => "November" | _ => "December"
  end.

(** [t.strftime(fmt)] for the directives the sources use
    ([%Y %m %d %H %M %S %B], C locale); other characters are copied. *)
Fixpoint strftime (fmt : string) (t : datetime) : string :=
  match fmt with
  | String "%" (String d r) =>
      (if Ascii.eqb d "Y" then PyStr.zero_pad 4 (year t)
       else if Ascii.eqb d "m" then PyStr.zero_pad 2 (month t)
       else if Ascii.eqb d "d" then PyStr.zero_pad 2 (day t)
       else if Ascii.eqb d "H" then PyStr.zero_pad 2 (hour t)
       else if Ascii.eqb d "M" then PyStr.zero_pad 2 (minute t)
       else if Ascii.eqb d "S" then PyStr.zero_pad 2 (second t)
       else if Ascii.eqb d "B" then month_name (month t)
       else String "%" (String d EmptyString)) +:+ strftime r t
  | String c r => String c (strftime r t)
  | EmptyString => EmptyString
  end.

Definition offset_string (off : Z) : string :=
  (if off <? 0 then "-" else "+") +:+
  PyStr.zero_pad 2 (Z.abs off / 3600) +:+ ":" +:+
  PyStr.zero_pad 2 ((Z.abs off mod 3600) / 60).

(** [t.isoformat()] *)
Definition isoformat (t : datetime) : string :=
  strftime "%Y-%m-%dT%H:%M:%S" t +:+
  (if microsecond t =? 0 then "" else "." +:+ PyStr.zero_pad 6 (microsecond t)) +:+
  match utcoffset t with
  | None => ""
  | Some off => offset_string off
  end.

(** The least and the greatest reading of a [datetime]:
    0001-01-01T00:00:00 and 9999-12-31T23:59:59.999999, which are 719162
    days before and 2932897 days less one microsecond after
    1970-01-01T00:00:00. *)
Definition min_wall_us : Z := - 719162 * us_per_day.
Definition max_wall_us : Z := 2932897 * us_per_day - 1.

End DateTime.

(** ** Exceptions, results and effects *)

(** [ErrorType] of [handler.py]. *)
Inductive ErrorType :=
| NEWS_FETCH_ERROR
| SUMMARIZATION_ERROR
| PUBLISHING_ERROR
| CONFIGURATION_ERROR
| TIMEOUT_ERROR
| UNKNOWN_ERROR.

Definition ErrorType_value (t : ErrorType) : string :=
  match t with
  | NEWS_FETCH_ERROR => "news_fetch_error"
  | SUMMARIZATION_ERROR => "summarization_error"
  | PUBLISHING_ERROR => "publishing_error"
  | CONFIGURATION_ERROR => "configuration_error"
  | TIMEOUT_ERROR => "timeout_error"
  | UNKNOWN_ERROR => "unknown_error"
  end.

(** [a == b] on members of the enumeration. *)
Definition ErrorType_eqb (a b : ErrorType) : bool :=
  match a, b with
  | NEWS_FETCH_ERROR, NEWS_FETCH_ERROR
  | SUMMARIZATION_ERROR, SUMMARIZATION_ERROR
  | PUBLISHING_ERROR, PUBLISHING_ERROR
  | CONFIGURATION_ERROR, CONFIGURATION_ERROR
  | TIMEOUT_ERROR, TIMEOUT_ERROR
  | UNKNOWN_ERROR, UNKNOWN_ERROR => true
  | _, _ => false
  end.

(** The exceptions of the program: [WorkflowError] of [handler.py] with its
    attributes, and any other subclass of [Exception], kept as its class
    name and its message [str(e)]. *)
Inductive exn :=
| PyException (cls : string) (message : string)
| WorkflowError (message : string) (error_type : ErrorType) (recoverable : bool)
                (original_error : string) (timestamp : datetime).

(** [str(e)] *)
Definition exn_str (e : exn) : string :=
  match e with
  | PyException _ m => m
  | WorkflowError m _ _ _ _ => m
  end.

Inductive result (A : Type) :=
| Ok (a : A)
| Raise (e : exn).
Arguments Ok {A} a.
Arguments Raise {A} e.

(** Effectful code: a state transformer over the world [W] that returns
    normally or raises.  The world after a raise is kept: what a call did
    before it failed is not undone. *)
Definition M (W A : Type) : Type := W -> result A * W.

Definition ret {W A} (a : A) : M W A := fun w => (Ok a, w).
Definition raise {W A} (e : exn) : M W A := fun w => (Raise e, w).

Definition bind {W A B} (m : M W A) (k : A -> M W B) : M W B :=
  fun w =>
    match m w with
    | (Ok a, w') => k a w'
    | (Raise e, w') => (Raise e, w')
    end.

(** [try: m  except Exception as e: h e] *)
Definition try_except {W A} (m : M W A) (h : exn -> M W A) : M W A :=
  fun w =>
    match m w with
    | (Ok a, w') => (Ok a, w')
    | (Raise e, w') => h e w'
    end.

(** A call that cannot raise. *)
Definition eff {W A} (f : W -> A * W) : M W A :=
  fun w => let (a, w') := f w in (Ok a, w').

(** A pure computation that may raise. *)
Definition of_result {W A} (r : result A) : M W A := fun w => (r, w).

Declare Scope py_scope.
Delimit Scope py_scope with py.
Notation "'let*' x ':=' m 'in' k" := (bind m (fun x => k))
  (at level 10, x name, m at level 100, k at level 200, only parsing) : py_scope.
Open Scope py_scope.

(** Library functions that the sources call and the embedding leaves
    uninterpreted: [urllib.parse.urlparse] (its scheme and netloc, or the
    [ValueError] it raises), [dateutil.parser.parse], and the builtin
    [round(x, 2)]. *)
Class PyLib := {
  urlparse : string -> result (string * string);
  dateutil_parse : string -> result datetime;
  round2 : Float.float -> Float.float
}.

(** What the runtime provides to every component: the system clock, the
    host's offset from UTC, [uuid.uuid4], [time.time] and [asyncio.sleep]. *)
Class Runtime (W : Type) := {
  clock_us : W -> Z * W;
  local_utcoffset : Z;
  uuid4 : W -> string * W;
  time_time : W -> Float.float * W;
  asyncio_sleep : Z -> W -> unit * W
}.

Section RuntimeOps.
Context {W : Type} `{Runtime W}.

(** [datetime.now()]: a naive reading of the local wall clock. *)
Definition datetime_now : M W datetime :=
  eff (fun w => let (t, w') := clock_us w in
                ({| wall_us := t + local_utcoffset * DateTime.us_per_sec;
                    utcoffset := None |}, w')).

(** [datetime.now(timezone.utc)] *)
Definition datetime_now_utc : M W datetime :=
  eff (fun w => let (t, w') := clock_us w in
                ({| wall_us := t; utcoffset := Some 0 |}, w')).

(** [a <= b] on datetimes: comparing a naive with an aware one raises. *)
Definition datetime_le (a b : datetime) : result bool :=
  match utcoffset a, utcoffset b with
  | None, None => Ok (wall_us a <=? wall_us b)
  | Some oa, Some ob =>
      Ok (wall_us a - oa * DateTime.us_per_sec <=? wall_us b - ob * DateTime.us_per_sec)
  | _, _ => Raise (PyException "TypeError"
                     "can't compare offset-naive and offset-aware datetimes")
  end.

(** [t - timedelta(hours=h)] for an integer [h].  The constructor of
    [timedelta] raises [OverflowError] when the days of the interval,
    [h // 24], exceed 999999999 in magnitude (with another message when
    they do not fit a C [int]), and the subtraction raises
    [OverflowError] when the result leaves the years 1 to 9999. *)
Definition datetime_sub_hours (t : datetime) (h : Z) : result datetime :=
  let days := h / 24 in
  if (days <? - 2 ^ 31) || (2 ^ 31 - 1 <? days) then
    Raise (PyException "OverflowError" "Python int too large to convert to C int")
  else if (days <? - 999999999) || (999999999 <? days) then
    Raise (PyException "OverflowError"
             ("days=" +:+ pretty days +:+ "; must have magnitude <= 999999999"))
  else
    let wall := wall_us t - h * 3600 * DateTime.us_per_sec in
    if (wall <? DateTime.min_wall_us) || (DateTime.max_wall_us <? wall) then
      Raise (PyException "OverflowError" "date value out of range")
    else Ok {| wall_us := wall; utcoffset := utcoffset t |}.

End RuntimeOps.

(** ** [models/news_article.py] *)

Module NewsArticle.

Record t := mk {
  title : string;
  content : string;
  url : string;
  published_at : datetime;
  source : string;
  id : option string;
  relevance_score : option Float.float
}.

Definition set_relevance_score (self : t) (s : option Float.float) : t :=
  {| title := title self; content := content self; url := url self;
     published_at := published_at self; source := source self;
     id := id self; relevance_score := s |}.

Definition set_id (self : t) (i : option string) : t :=
  {| title := title self; content := content self; url := url self;
     published_at := published_at self; source := source self;
     id := i; relevance_score := relevance_score self |}.

Definition ValueError (m : string) : exn := PyException "ValueError" m.

Section WithLib.
Context `{PyLib}.

(** [_is_valid_url]: scheme and netloc are both non-empty; an exception
    of [urlparse] counts as invalid. *)
Definition _is_valid_url (u : string) : bool :=
  match urlparse u with
  | Ok (scheme, netloc) => negb (PyStr.is_empty scheme) && negb (PyStr.is_empty netloc)
  | Raise _ => false
  end.

(** [validate].  The checks of the types of [published_at] and of the
    score hold by typing. *)
Definition validate (self : t) : result unit :=
  if PyStr.is_empty (title self) || PyStr.is_empty (PyStr.strip (title self)) then
    Raise (ValueError "Article title cannot be empty")
  else if PyStr.is_empty (content self) || PyStr.is_empty (PyStr.strip (content self)) then
    Raise (ValueError "Article content cannot be empty")
  else if PyStr.is_empty (url self) || PyStr.is_empty (PyStr.strip (url self)) then
    Raise (ValueError "Article URL cannot be empty")
  else if negb (_is_valid_url (url self)) then
    Raise (ValueError ("Invalid URL format: " +:+ url self))
  else if PyStr.is_empty (source self) || PyStr.is_empty (PyStr.strip (source self)) then
    Raise (ValueError "Article source cannot be empty")
  else
    match relevance_score self with
    | Some s =>
        if Float.leb Float.zero s && Float.leb s Float.one then Ok tt
        else Raise (ValueError "Relevance score must be between 0.0 and 1.0")
    | None => Ok tt
    end.

(** The constructor with [__post_init__]: a missing id is drawn from
    [uuid4], then the article is validated. *)
Definition new {W} `{Runtime W} (a : t) : M W t :=
  let* a' := match id a with
             | None => let* i := eff uuid4 in ret (set_id a (Some i))
             | Some _ => ret a
             end in
  let* _ := of_result (validate a') in
  ret a'.

End WithLib.

Definition default_keywords : list string :=
  [ "artificial intelligence"; "ai"; "machine learning"; "ml";
    "generative ai"; "chatgpt"; "gpt"; "llm"; "large language model";
    "neural network"; "deep learning"; "transformer"; "openai";
    "anthropic"; "claude"; "gemini"; "bard"; "copilot" ].

(** The loop [for keyword in keywords: if keyword.lower() in text: matches += 1]. *)
Fixpoint count_matches (keywords : list string) (text : string) : Z :=
  match keywords with
  | [] => 0
  | k :: r =>
      (if PyStr.contains (PyStr.lower k) text then 1 else 0) + count_matches r text
  end.

(** [calculate_relevance_score]: the score, and the article with the score
    stored in [relevance_score]. *)
Definition calculate_relevance_score (self : t) (keywords : option (list string))
  : Float.float * t :=
  let keywords := match keywords with None => default_keywords | Some k => k end in
  let text := PyStr.lower (title self +:+ " " +:+ content self) in
  let matches := count_matches keywords text in
  let total_keywords := Z.of_nat (length keywords) in
  let base_score :=
    if 0 <? total_keywords then Float.truediv matches total_keywords else Float.zero in
  let title_matches := count_matches keywords (PyStr.lower (title self)) in
  let title_boost :=
    if 0 <? total_keywords
    then Float.mul (Float.truediv title_matches total_keywords) Float.lit_0_3
    else Float.zero in
  let final_score := Float.py_min (Float.add base_score title_boost) Float.one in
  (final_score, set_relevance_score self (Some final_score)).

(** [is_relevant]: computes and stores the score when there is none. *)
Definition is_relevant (self : t) (threshold : Float.float) : bool * t :=
  let self' :=
    match relevance_score self with
    | None => snd (calculate_relevance_score self None)
    | Some _ => self
    end in
  match relevance_score self' with
  | Some s => (Float.geb s threshold, self')
  | None => (false, self')
  end.

(** [_calculate_similarity]: Jaccard similarity of the two sets of
    lower-cased words. *)
Definition _calculate_similarity (text1 text2 : string) : Float.float :=
  let words1 : gset string := list_to_set (PyStr.findall_words (PyStr.lower text1)) in
  let words2 : gset string := list_to_set (PyStr.findall_words (PyStr.lower text2)) in
  if bool_decide (words1 = ∅) && bool_decide (words2 = ∅) then Float.one
  else if bool_decide (words1 = ∅) || bool_decide (words2 = ∅) then Float.zero
  else
    let intersection := words1 ∩ words2 in
    let union := words1 ∪ words2 in
    if bool_decide (union = ∅) then Float.zero
    else Float.truediv (Z.of_nat (size intersection)) (Z.of_nat (size union)).

(** [is_duplicate] *)
Definition is_duplicate (self other : t) : bool :=
  if String.eqb (url self) (url other) then true
  else if Float.gtb (_calculate_similarity (title self) (title other)) Float.lit_0_8
  then true
  else false.

End NewsArticle.

(** ** [models/news_summary.py] *)

Module ArticleSource.

Record t := mk {
  title : string;
  url : string;
  source : string;
  published_at : datetime
}.

End ArticleSource.

Module NewsSummary.

Record t := mk {
  summary : string;
  key_points : list string;
  sources : list ArticleSource.t;
  generated_at : datetime;
  article_count : Z;
  id : option string
}.

(** The constructor with [__post_init__]: a missing id is drawn from [uuid4]. *)
Definition new {W} `{Runtime W} (s : t) : M W t :=
  match id s with
  | None =>
      let* i := eff uuid4 in
      ret {| summary := summary s; key_points := key_points s; sources := sources s;
             generated_at := generated_at s; article_count := article_count s;
             id := Some i |}
  | Some _ => ret s
  end.

Definition newline : string := String (ascii_of_nat 10) EmptyString.

(** [for i, point in enumerate(points, 1): out += f"{i}. {point}\n"] *)
Fixpoint format_points (i : Z) (points : list string) : string :=
  match points with
  | [] => EmptyString
  | p :: r => pretty i +:+ ". " +:+ p +:+ newline +:+ format_points (i + 1) r
  end.

Fixpoint format_sources_email (i : Z) (srcs : list ArticleSource.t) : string :=
  match srcs with
  | [] => EmptyString
  | s :: r =>
      pretty i +:+ ". **" +:+ ArticleSource.title s +:+ "** - " +:+ ArticleSource.source s
        +:+ " (" +:+ DateTime.strftime "%Y-%m-%d" (ArticleSource.published_at s) +:+ ")"
        +:+ newline
        +:+ "   " +:+ ArticleSource.url s +:+ newline +:+ newline
        +:+ format_sources_email (i + 1) r
  end.

Fixpoint format_sources_plain (i : Z) (srcs : list ArticleSource.t) : string :=
  match srcs with
  | [] => EmptyString
  | s :: r =>
      pretty i +:+ ". " +:+ ArticleSource.title s +:+ " - " +:+ ArticleSource.source s
        +:+ " (" +:+ DateTime.strftime "%Y-%m-%d" (ArticleSource.published_at s) +:+ ")"
        +:+ newline
        +:+ "   " +:+ ArticleSource.url s +:+ newline +:+ newline
        +:+ format_sources_plain (i + 1) r
  end.

(** [format_for_email] *)
Definition format_for_email (self : t) : string :=
  "# AI News Summary - " +:+ DateTime.strftime "%B %d, %Y" (generated_at self)
    +:+ newline +:+ newline
  +:+ "**Generated at:** " +:+ DateTime.strftime "%Y-%m-%d %H:%M:%S UTC" (generated_at self)
    +:+ newline
  +:+ "**Articles analyzed:** " +:+ pretty (article_count self) +:+ newline +:+ newline
  +:+ "## Summary" +:+ newline +:+ newline
  +:+ summary self +:+ newline +:+ newline
  +:+ match key_points self with
      | [] => EmptyString
      | kp => "## Key Points" +:+ newline +:+ newline +:+ format_points 1 kp +:+ newline
      end
  +:+ match sources self with
      | [] => EmptyString
      | ss => "## Sources" +:+ newline +:+ newline +:+ format_sources_email 1 ss
      end.

(** [format_for_plain_text] *)
Definition format_for_plain_text (self : t) : string :=
  "AI News Summary - " +:+ DateTime.strftime "%B %d, %Y" (generated_at self) +:+ newline
  +:+ PyStr.replicate_char 50 "=" +:+ newline +:+ newline
  +:+ "Generated at: " +:+ DateTime.strftime "%Y-%m-%d %H:%M:%S UTC" (generated_at self)
    +:+ newline
  +:+ "Articles analyzed: " +:+ pretty (article_count self) +:+ newline +:+ newline
  +:+ "SUMMARY" +:+ newline
  +:+ PyStr.replicate_char 20 "-" +:+ newline
  +:+ summary self +:+ newline +:+ newline
  +:+ match key_points self with
      | [] => EmptyString
      | kp => "KEY POINTS" +:+ newline +:+ PyStr.replicate_char 20 "-" +:+ newline
              +:+ format_points 1 kp +:+ newline
      end
  +:+ match sources self with
      | [] => EmptyString
      | ss => "SOURCES" +:+ newline +:+ PyStr.replicate_char 20 "-" +:+ newline
              +:+ format_sources_plain 1 ss
      end.

End NewsSummary.

(** [try: m except Exception as e: ...] with the outcome handed to the code
    that follows, for handlers that go on with the enclosing loop. *)
Definition catch {W A} (m : M W A) : M W (result A) :=
  fun w => let (r, w') := m w in (Ok r, w').

(** Running a computation on the world component of a pair (an object
    and the world it lives in). *)
Definition in_world {S W A} (m : M W A) : M (S * W) A :=
  fun sw => let (r, w') := m (snd sw) in (r, (fst sw, w')).

Definition get_self {S W} : M (S * W) S := fun sw => (Ok (fst sw), sw).
Definition put_self {S W} (s : S) : M (S * W) unit := fun sw => (Ok tt, (s, snd sw)).

(** A computation that leaves the object of the pair as it is. *)
Definition keeps_object {S W A} (m : M (S * W) A) : Prop :=
  forall s w, fst (snd (m (s, w))) = s.

(** A computation that leaves an observation [f] of the world as it is. *)
Definition preserves {W X A} (f : W -> X) (m : M W A) : Prop :=
  forall w, f (snd (m w)) = f w.

(** ** [services/google_news_fetcher.py] *)

Module GoogleNewsFetcher.

(** A raw item of the news client: the keys the fetcher reads, absent
    keys being [None] ([publisher_title] is [raw['publisher']['title']]). *)
Record RawArticle := mk_raw {
  raw_title : option string;
  raw_url : option string;
  raw_description : option string;
  raw_published_date : option string;
  raw_publisher_title : option string
}.

(** The [GNews] client: [get_news(query)] under the period set on the
    client, and [get_full_article(url)], which yields the text of the
    article when it has one. *)
Class GNews (W : Type) := {
  get_news : string -> string -> M W (list RawArticle);
  get_full_article : string -> M W (option string)
}.

(** The fetcher object: the attributes set by [__init__] that the
    methods read or write.  The rate limiter only delays calls and is
    left out. *)
Record t := mk {
  language : string;
  country : string;
  max_results : Z;
  period : string;
  _processed_urls : gset string
}.

(** [__init__] *)
Definition init (language country : string) (max_results : Z) : t :=
  {| language := language; country := country; max_results := max_results;
     period := ""; _processed_urls := ∅ |}.

Definition set_period (self : t) (p : string) : t :=
  {| language := language self; country := country self;
     max_results := max_results self; period := p;
     _processed_urls := _processed_urls self |}.

Definition add_processed_url (self : t) (u : string) : t :=
  {| language := language self; country := country self;
     max_results := max_results self; period := period self;
     _processed_urls := {[ u ]} ∪ _processed_urls self |}.

(** [_remove_duplicates]: the loop over [articles], with the list of
    accepted articles and the set of their URLs. *)
Fixpoint _remove_duplicates_loop (articles unique_articles : list NewsArticle.t)
         (seen_urls : gset string) : list NewsArticle.t :=
  match articles with
  | [] => unique_articles
  | article :: rest =>
      if bool_decide (NewsArticle.url article ∈ seen_urls) then
        _remove_duplicates_loop rest unique_articles seen_urls
      else if existsb (fun existing => NewsArticle.is_duplicate article existing)
                      unique_articles then
        _remove_duplicates_loop rest unique_articles seen_urls
      else
        _remove_duplicates_loop rest (unique_articles ++ [article])
                                ({[ NewsArticle.url article ]} ∪ seen_urls)
  end.

Definition _remove_duplicates (articles : list NewsArticle.t) : list NewsArticle.t :=
  _remove_duplicates_loop articles [] ∅.

(** The key of the sort in [filter_articles]: [x.relevance_score or 0]. *)
Definition sort_key (a : NewsArticle.t) : Float.float :=
  match NewsArticle.relevance_score a with
  | Some s => if Float.is_zero s then Float.zero else s
  | None => Float.zero
  end.

(** [list.sort(key=..., reverse=True)]: a stable sort, highest key first. *)
Fixpoint insert_desc (a : NewsArticle.t) (l : list NewsArticle.t) : list NewsArticle.t :=
  match l with
  | [] => [a]
  | b :: r =>
      if Float.ltb (sort_key a) (sort_key b) then b :: insert_desc a r
      else a :: b :: r
  end.

Definition sort_by_score_desc (l : list NewsArticle.t) : list NewsArticle.t :=
  foldr insert_desc [] l.

(** [filter_articles].  Scoring an article cannot raise, so the handler
    of the loop body is never entered. *)
Definition filter_articles_pure (articles : list NewsArticle.t) : list NewsArticle.t :=
  match articles with
  | [] => []
  | _ =>
      let unique_articles := _remove_duplicates articles in
      let relevant_articles :=
        omap (fun article =>
                let article1 := snd (NewsArticle.calculate_relevance_score article None) in
                let (relevant, article2) := NewsArticle.is_relevant article1 Float.lit_0_1 in
                if relevant then Some article2 else None)
             unique_articles in
      sort_by_score_desc relevant_articles
  end.

Section Methods.
Context {W : Type} `{Runtime W} `{GNews W} `{PyLib}.

(** [_set_time_period] *)
Definition _set_time_period (hours : Z) : M (t * W) unit :=
  let* self := get_self in
  put_self (set_period self
              (if hours <=? 24 then "1d" else if hours <=? 168 then "7d" else "30d")).

(** [_fetch_with_retry]: the loop [for attempt in range(max_retries)],
    with [remaining] iterations left. *)
Fixpoint _fetch_with_retry_loop (query : string) (max_retries attempt : Z)
         (remaining : nat) : M (t * W) (list RawArticle) :=
  match remaining with
  | O => ret []
  | S remaining' =>
      let* self := get_self in
      let* outcome := catch (in_world (get_news query (period self))) in
      match outcome with
      | Ok ((_ :: _) as articles) => ret articles
      | Ok [] => _fetch_with_retry_loop query max_retries (attempt + 1) remaining'
      | Raise e =>
          if attempt =? max_retries - 1 then raise e
          else
            let* _ := in_world (eff (asyncio_sleep (2 ^ attempt))) in
            _fetch_with_retry_loop query max_retries (attempt + 1) remaining'
      end
  end.

Definition _fetch_with_retry (query : string) (max_retries : nat)
  : M (t * W) (list RawArticle) :=
  _fetch_with_retry_loop query (Z.of_nat max_retries) 0 max_retries.

(** [raw_article.get(key, '').strip()] *)
Definition get_stripped (field : option string) : string :=
  PyStr.strip (default "" field).

(** [_get_article_content] *)
Definition _get_article_content (raw_article : RawArticle) : M W string :=
  let* outcome := catch (get_full_article (default "" (raw_url raw_article))) in
  match outcome with
  | Ok (Some text) => ret (PyStr.strip text)
  | _ =>
      let d := get_stripped (raw_description raw_article) in
      ret (if PyStr.is_empty d then "Content not available" else d)
  end.

(** [_parse_published_date] *)
Definition _parse_published_date (raw_article : RawArticle) : M W datetime :=
  let published_str := default "" (raw_published_date raw_article) in
  if PyStr.is_empty published_str then datetime_now
  else
    match dateutil_parse published_str with
    | Ok d => ret d
    | Raise _ => datetime_now
    end.

(** [_create_news_article]: [None] when the item lacks a title or a URL
    or when anything raises. *)
Definition _create_news_article (raw_article : RawArticle)
  : M W (option NewsArticle.t) :=
  let title := get_stripped (raw_title raw_article) in
  let url := get_stripped (raw_url raw_article) in
  if PyStr.is_empty title || PyStr.is_empty url then ret None
  else
    let* outcome :=
      catch (let* content := _get_article_content raw_article in
             let* published_at := _parse_published_date raw_article in
             let source := default "Unknown" (raw_publisher_title raw_article) in
             NewsArticle.new
               (NewsArticle.mk title content url published_at source None None)) in
    match outcome with
    | Ok article => ret (Some article)
    | Raise _ => ret None
    end.

(** The body of the loop of [_convert_to_news_articles] for one raw
    item: the article to append, if any. *)
Definition convert_one (cutoff_time : datetime) (raw_article : RawArticle)
  : M (t * W) (option NewsArticle.t) :=
  let* outcome :=
    catch (let* created := in_world (_create_news_article raw_article) in
           match created with
           | None => ret None
           | Some article =>
               let* old := of_result (datetime_le (NewsArticle.published_at article)
                                                  cutoff_time) in
               if (old : bool) then ret None
               else
                 let* self := get_self in
                 if bool_decide (NewsArticle.url article ∈ _processed_urls self)
                 then ret None
                 else
                   let* _ := put_self (add_processed_url self (NewsArticle.url article)) in
                   ret (Some article)
           end) in
  match outcome with
  | Ok r => ret r
  | Raise _ => ret None
  end.

Fixpoint convert_loop (cutoff_time : datetime) (raw_articles : list RawArticle)
  : M (t * W) (list NewsArticle.t) :=
  match raw_articles with
  | [] => ret []
  | raw_article :: rest =>
      let* r := convert_one cutoff_time raw_article in
      let* articles := convert_loop cutoff_time rest in
      ret (match r with Some a => a :: articles | None => articles end)
  end.

(** [_convert_to_news_articles] *)
Definition _convert_to_news_articles (raw_articles : list RawArticle)
           (time_range_hours : Z) : M (t * W) (list NewsArticle.t) :=
  let* now := in_world datetime_now in
  let* cutoff_time := of_result (datetime_sub_hours now time_range_hours) in
  convert_loop cutoff_time raw_articles.

(** [fetch_news]: the handler of its [try] logs and re-raises. *)
Definition fetch_news (query : string) (time_range_hours : Z)
  : M (t * W) (list NewsArticle.t) :=
  let* _ := _set_time_period time_range_hours in
  let* raw_articles := _fetch_with_retry query 3 in
  match raw_articles with
  | [] => ret []
  | _ => _convert_to_news_articles raw_articles time_range_hours
  end.

(** [filter_articles] *)
Definition filter_articles (articles : list NewsArticle.t)
  : M (t * W) (list NewsArticle.t) :=
  ret (filter_articles_pure articles).

End Methods.

End GoogleNewsFetcher.

(** ** [models/agent_config.py]: the validated settings *)

Module AgentConfig.

Record t := mk {
  search_query : string;
  time_range_hours : Z;
  sns_topic_arn : string;
  max_articles : Z;
  summary_length : string;
  model_name : string;
  model_provider : string
}.

End AgentConfig.

(** ** [services/strands_ai_summarizer.py] *)

Module StrandsAISummarizer.

(** The Strands agent: [invoke_async(prompt=...)] returns a response,
    given here by its [content] when it has one. *)
Class Agent (W : Type) := {
  invoke_async : string -> M W (option string)
}.

(** The summarizer object: its configuration and whether [self.agent]
    is set. *)
Record t := mk {
  config : AgentConfig.t;
  agent : bool
}.

Definition Exception (m : string) : exn := PyException "Exception" m.

Definition newline : string := NewsSummary.newline.

(** The bullet U+2022, as its UTF-8 encoding. *)
Definition bullet : string :=
  String (ascii_of_nat 226) (String (ascii_of_nat 128) (String (ascii_of_nat 162) EmptyString)).

(** [_prepare_articles_for_summarization] *)
Definition _prepare_articles_for_summarization (articles : list NewsArticle.t)
  : list string :=
  map (fun article =>
         "Title: " +:+ NewsArticle.title article +:+ newline
         +:+ "Source: " +:+ NewsArticle.source article +:+ newline
         +:+ "Published: "
         +:+ DateTime.strftime "%Y-%m-%d" (NewsArticle.published_at article) +:+ newline
         +:+ "Content: " +:+ PyStr.take 2000 (NewsArticle.content article) +:+ "...")
      articles.

(** [_create_article_sources] *)
Definition _create_article_sources (articles : list NewsArticle.t)
  : list ArticleSource.t :=
  map (fun article =>
         ArticleSource.mk (NewsArticle.title article) (NewsArticle.url article)
                          (NewsArticle.source article) (NewsArticle.published_at article))
      articles.

Definition length_instruction (summary_length : string) : string :=
  if String.eqb summary_length "short" then "Keep the summary concise (2-3 paragraphs)."
  else if String.eqb summary_length "long" then "Create a detailed summary (6-8 paragraphs)."
  else "Provide a comprehensive summary (4-5 paragraphs).".

(** [_create_summarization_prompt] *)
Definition _create_summarization_prompt (self : t) (article_texts : list string) : string :=
  let combined_articles :=
    PyStr.join (newline +:+ newline +:+ "---" +:+ newline +:+ newline) article_texts in
  "You are an AI news analyst specializing in Generative AI developments. " +:+ newline
  +:+ "Please analyze the following news articles and create a coherent summary focusing on the most important developments in Generative AI."
  +:+ newline +:+ newline
  +:+ length_instruction (AgentConfig.summary_length (config self)) +:+ newline +:+ newline
  +:+ "Focus on:" +:+ newline
  +:+ "- Major announcements and product launches" +:+ newline
  +:+ "- Technical breakthroughs and research developments" +:+ newline
  +:+ "- Industry trends and market movements" +:+ newline
  +:+ "- Regulatory and policy changes" +:+ newline
  +:+ "- Notable partnerships and acquisitions" +:+ newline +:+ newline
  +:+ "Articles to summarize:" +:+ newline +:+ newline
  +:+ combined_articles +:+ newline +:+ newline
  +:+ "Please provide a well-structured summary that synthesizes the key information from these articles into a coherent narrative about recent Generative AI developments.".

(** The loop of [_create_key_points_prompt] over
    [enumerate(zip(article_texts, articles), 1)]. *)
Fixpoint combine_for_key_points (i : Z) (article_texts : list string)
         (articles : list NewsArticle.t) : string :=
  match article_texts, articles with
  | text :: texts, article :: rest =>
      "Article " +:+ pretty i +:+ " (" +:+ NewsArticle.source article +:+ "):" +:+ newline
      +:+ text +:+ newline +:+ newline +:+ "---" +:+ newline +:+ newline
      +:+ combine_for_key_points (i + 1) texts rest
  | _, _ => EmptyString
  end.

(** [_create_key_points_prompt] *)
Definition _create_key_points_prompt (article_texts : list string)
           (articles : list NewsArticle.t) : string :=
  "You are an AI news analyst. Please extract the most important key points from the following Generative AI news articles."
  +:+ newline +:+ newline
  +:+ "For each key point:" +:+ newline
  +:+ "1. Make it concise but informative (1-2 sentences)" +:+ newline
  +:+ "2. Focus on actionable insights or significant developments" +:+ newline
  +:+ "3. Include the source article number in parentheses at the end" +:+ newline +:+ newline
  +:+ "Extract 5-8 key points maximum. Format each point as a bullet point."
  +:+ newline +:+ newline
  +:+ "Articles:" +:+ newline +:+ newline
  +:+ combine_for_key_points 1 article_texts articles +:+ newline +:+ newline
  +:+ "Please provide the key points in this format:" +:+ newline
  +:+ bullet +:+ " [Key point text] (Article X)" +:+ newline
  +:+ bullet +:+ " [Key point text] (Article Y)" +:+ newline.

(** One line of [_parse_key_points_response]: the key point it holds, if any. *)
Definition parse_key_point_line (line : string) : option string :=
  let line := PyStr.strip line in
  let keep (key_point : string) :=
    if PyStr.is_empty key_point then None else Some key_point in
  if PyStr.startswith bullet line then keep (PyStr.strip (PyStr.drop 3 line))
  else if PyStr.startswith "-" line || PyStr.startswith "*" line
  then keep (PyStr.strip (PyStr.drop 1 line))
  else
    match line with
    | String c _ =>
        if PyStr.is_digit c then
          match PyStr.after_first "." line with
          | Some r => keep (PyStr.strip r)
          | None => None
          end
        else None
    | EmptyString => None
    end.

(** [_parse_key_points_response] *)
Definition _parse_key_points_response (response_content : string) : list string :=
  take 8 (omap parse_key_point_line
               (PyStr.split (ascii_of_nat 10) (PyStr.strip response_content))).

(** [_generate_fallback_key_points] *)
Definition _generate_fallback_key_points (articles : list NewsArticle.t) : list string :=
  map (fun article => NewsArticle.title article +:+ " - " +:+ NewsArticle.source article)
      (take 5 articles).

Section Methods.
Context {W : Type} `{Runtime W} `{Agent W}.

(** [_execute_with_retry] around [agent.invoke_async(prompt=prompt)]:
    the loop [for attempt in range(max_retries)] with the last
    exception seen so far. *)
Fixpoint _execute_with_retry_loop (prompt : string) (max_retries attempt : Z)
         (remaining : nat) (last_exception : option exn) : M W (option string) :=
  let exhausted (last : option exn) : M W (option string) :=
    raise (Exception ("Failed after " +:+ pretty max_retries +:+ " attempts: "
                      +:+ match last with Some e => exn_str e | None => "None" end)) in
  match remaining with
  | O => exhausted last_exception
  | S remaining' =>
      let* outcome := catch (invoke_async prompt) in
      match outcome with
      | Ok response => ret response
      | Raise e =>
          let error_msg := PyStr.lower (exn_str e) in
          if PyStr.contains "rate limit" error_msg || PyStr.contains "throttl" error_msg
          then
            let* _ := (if attempt <? max_retries - 1
                       then eff (asyncio_sleep (2 ^ attempt)) else ret tt) in
            _execute_with_retry_loop prompt max_retries (attempt + 1) remaining' (Some e)
          else if PyStr.contains "model" error_msg || PyStr.contains "bedrock" error_msg
          then
            let* _ := (if attempt <? max_retries - 1
                       then eff (asyncio_sleep 1) else ret tt) in
            _execute_with_retry_loop prompt max_retries (attempt + 1) remaining' (Some e)
          else exhausted (Some e)
      end
  end.

Definition _execute_with_retry (prompt : string) (max_retries : nat)
  : M W (option string) :=
  _execute_with_retry_loop prompt (Z.of_nat max_retries) 0 max_retries None.

(** [response.content]: a response without content has no such attribute. *)
Definition response_content (response : option string) : M W string :=
  match response with
  | Some c => ret c
  | None => raise (PyException "AttributeError" "response has no attribute 'content'")
  end.

(** [_generate_summary_text] *)
Definition _generate_summary_text (self : t) (article_texts : list string) : M W string :=
  try_except
    (let prompt := _create_summarization_prompt self article_texts in
     let* response := _execute_with_retry prompt 3 in
     let* content := response_content response in
     ret (PyStr.strip content))
    (fun e => raise (Exception ("Failed to generate summary text: " +:+ exn_str e))).

(** [extract_key_points] *)
Definition extract_key_points (self : t) (articles : list NewsArticle.t)
  : M W (list string) :=
  match articles with
  | [] => ret []
  | _ =>
      if negb (agent self) then raise (Exception "Strands agent not initialized")
      else
        try_except
          (let article_texts := _prepare_articles_for_summarization articles in
           let prompt := _create_key_points_prompt article_texts articles in
           let* response := _execute_with_retry prompt 3 in
           let* content := response_content response in
           ret (_parse_key_points_response content))
          (fun _ => ret (_generate_fallback_key_points articles))
  end.

(** [_fallback_summary_generation] *)
Definition _fallback_summary_generation (self : t) (articles : list NewsArticle.t)
  : M W NewsSummary.t :=
  let first5 := take 5 articles in
  let summary_parts :=
    map (fun article =>
           NewsArticle.title article +:+ " (" +:+ NewsArticle.source article +:+ ")")
        first5 in
  let key_points :=
    map (fun article =>
           PyStr.take 100 (NewsArticle.title article) +:+ "... ("
           +:+ NewsArticle.source article +:+ ")")
        first5 in
  let fallback_summary :=
    "Recent Generative AI developments include: " +:+ PyStr.join "; " summary_parts in
  let sources := _create_article_sources articles in
  let* now := datetime_now_utc in
  NewsSummary.new
    (NewsSummary.mk fallback_summary key_points sources now
                    (Z.of_nat (length articles)) None).

(** The [try] block of [generate_summary]: the summary text, the key
    points, and the summary built from them. *)
Definition primary_summary (self : t) (articles : list NewsArticle.t)
  : M W NewsSummary.t :=
  let article_texts := _prepare_articles_for_summarization articles in
  let* summary_text := _generate_summary_text self article_texts in
  let* key_points := extract_key_points self articles in
  let sources := _create_article_sources articles in
  let* now := datetime_now_utc in
  NewsSummary.new
    (NewsSummary.mk summary_text key_points sources now
                    (Z.of_nat (length articles)) None).

(** [generate_summary], with the method that its handler calls as
    [self._fallback_summary_generation] given by [fallback]. *)
Definition generate_summary_with
           (fallback : t -> list NewsArticle.t -> M W NewsSummary.t)
           (self : t) (articles : list NewsArticle.t) : M W NewsSummary.t :=
  match articles with
  | [] => raise (PyException "ValueError" "Cannot generate summary from empty article list")
  | _ =>
      if negb (agent self) then raise (Exception "Strands agent not initialized")
      else try_except (primary_summary self articles) (fun _ => fallback self articles)
  end.

(** [generate_summary] *)
Definition generate_summary : t -> list NewsArticle.t -> M W NewsSummary.t :=
  generate_summary_with _fallback_summary_generation.

End Methods.

End StrandsAISummarizer.

(** ** Python values and [json.dumps] *)

Module PyVal.

#[local] Unset Elimination Schemes.

(** The values that reach [json.dumps] in the handler: JSON-like data,
    and the two dataclasses of the models, which the encoder cannot
    serialize. *)
Inductive t :=
| VNone
| VBool (b : bool)
| VInt (z : Z)
| VFloat (f : Float.float)
| VStr (s : string)
| VList (l : list t)
| VDict (d : list (string * t))
| VArticle (a : NewsArticle.t)
| VSummary (s : NewsSummary.t).

(** A JSON document.  The text that [json.dumps] returns is kept as the
    document it denotes. *)
Inductive json :=
| JNull
| JBool (b : bool)
| JInt (z : Z)
| JFloat (f : Float.float)
| JStr (s : string)
| JArr (l : list json)
| JObj (d : list (string * json)).

#[local] Set Elimination Schemes.

Definition TypeError (cls : string) : exn :=
  PyException "TypeError" ("Object of type " +:+ cls +:+ " is not JSON serializable").

(** [json.dumps(v)] with the default encoder: elements are encoded in
    order, and the first object without an encoding raises [TypeError]. *)
Fixpoint dumps (v : t) : result json :=
  match v with
  | VNone => Ok JNull
  | VBool b => Ok (JBool b)
  | VInt z => Ok (JInt z)
  | VFloat f => Ok (JFloat f)
  | VStr s => Ok (JStr s)
  | VList l =>
      match (fix go (l : list t) : result (list json) :=
               match l with
               | [] => Ok []
               | x :: r =>
                   match dumps x with
                   | Raise e => Raise e
                   | Ok j => match go r with
                             | Raise e => Raise e
                             | Ok js => Ok (j :: js)
                             end
                   end
               end) l with
      | Ok js => Ok (JArr js)
      | Raise e => Raise e
      end
  | VDict d =>
      match (fix go (d : list (string * t)) : result (list (string * json)) :=
               match d with
               | [] => Ok []
               | (k, x) :: r =>
                   match dumps x with
                   | Raise e => Raise e
                   | Ok j => match go r with
                             | Raise e => Raise e
                             | Ok js => Ok ((k, j) :: js)
                             end
                   end
               end) d with
      | Ok js => Ok (JObj js)
      | Raise e => Raise e
      end
  | VArticle _ => Raise (TypeError "NewsArticle")
  | VSummary _ => Raise (TypeError "NewsSummary")
  end.

(** The encoding of the elements of a list and of the items of a
    dictionary, as [dumps] performs it. *)
Fixpoint dumps_list (l : list t) : result (list json) :=
  match l with
  | [] => Ok []
  | x :: r =>
      match dumps x with
      | Raise e => Raise e
      | Ok j => match dumps_list r with
                | Raise e => Raise e
                | Ok js => Ok (j :: js)
                end
      end
  end.

Fixpoint dumps_items (d : list (string * t)) : result (list (string * json)) :=
  match d with
  | [] => Ok []
  | (k, x) :: r =>
      match dumps x with
      | Raise e => Raise e
      | Ok j => match dumps_items r with
                | Raise e => Raise e
                | Ok js => Ok ((k, j) :: js)
                end
      end
  end.

(** [d[key]] on a JSON object. *)
Fixpoint obj_get (key : string) (d : list (string * json)) : option json :=
  match d with
  | [] => None
  | (k, v) :: r => if String.eqb k key then Some v else obj_get key r
  end.

Definition get (key : string) (j : json) : option json :=
  match j with
  | JObj d => obj_get key d
  | _ => None
  end.

End PyVal.

(** ** [aws_lambda/handler.py] *)

Module LambdaHandler.

(** The collaborators of the handler, as the abstract base classes
    [NewsFetcher], [AISummarizer] and [SNSPublisher] declare them. *)
Class Services (W : Type) := {
  fetch_news : string -> Z -> M W (list NewsArticle.t);
  filter_articles : list NewsArticle.t -> M W (list NewsArticle.t);
  generate_summary : list NewsArticle.t -> M W NewsSummary.t;
  publish_summary : NewsSummary.t -> M W bool;
  send_no_news_notification : M W bool
}.

(** The handler object after [__init__]. *)
Record t := mk {
  config : AgentConfig.t;
  execution_id : string
}.

(** An entry of [workflow_state['errors']]. *)
Record ErrorEntry := mk_error {
  err_type : string;
  err_message : string;
  err_recoverable : bool;
  err_timestamp : string
}.

(** The dictionary [workflow_state]. *)
Record WorkflowState := mk_state {
  articles_fetched : bool;
  summary_generated : bool;
  summary_published : bool;
  articles : list NewsArticle.t;
  summary : option NewsSummary.t;
  errors : list ErrorEntry
}.

Definition initial_workflow_state : WorkflowState :=
  {| articles_fetched := false; summary_generated := false; summary_published := false;
     articles := []; summary := None; errors := [] |}.

(** The assignments to the keys of [workflow_state]. *)
Definition set_articles (v : list NewsArticle.t) (ws : WorkflowState) : WorkflowState :=
  {| articles_fetched := articles_fetched ws; summary_generated := summary_generated ws;
     summary_published := summary_published ws; articles := v;
     summary := summary ws; errors := errors ws |}.

Definition set_articles_fetched (v : bool) (ws : WorkflowState) : WorkflowState :=
  {| articles_fetched := v; summary_generated := summary_generated ws;
     summary_published := summary_published ws; articles := articles ws;
     summary := summary ws; errors := errors ws |}.

Definition set_summary (v : option NewsSummary.t) (ws : WorkflowState) : WorkflowState :=
  {| articles_fetched := articles_fetched ws; summary_generated := summary_generated ws;
     summary_published := summary_published ws; articles := articles ws;
     summary := v; errors := errors ws |}.

Definition set_summary_generated (v : bool) (ws : WorkflowState) : WorkflowState :=
  {| articles_fetched := articles_fetched ws; summary_generated := v;
     summary_published := summary_published ws; articles := articles ws;
     summary := summary ws; errors := errors ws |}.

Definition set_summary_published (v : bool) (ws : WorkflowState) : WorkflowState :=
  {| articles_fetched := articles_fetched ws; summary_generated := summary_generated ws;
     summary_published := v; articles := articles ws;
     summary := summary ws; errors := errors ws |}.

(** [workflow_state['errors'].append(entry)] *)
Definition append_error (entry : ErrorEntry) (ws : WorkflowState) : WorkflowState :=
  {| articles_fetched := articles_fetched ws; summary_generated := summary_generated ws;
     summary_published := summary_published ws; articles := articles ws;
     summary := summary ws; errors := errors ws ++ [entry] |}.

(** The local variables of one invocation that outlive an exception:
    the dictionary [workflow_state], and, for the statements about its
    evolution, the values it held before each assignment (latest first). *)
Record Frame := mk_frame {
  workflow_state : WorkflowState;
  history : list WorkflowState
}.

Definition update_ws {W} (f : WorkflowState -> WorkflowState) : M (Frame * W) unit :=
  let* fr := get_self in
  put_self {| workflow_state := f (workflow_state fr);
              history := workflow_state fr :: history fr |}.

Definition get_ws {W} : M (Frame * W) WorkflowState :=
  let* fr := get_self in ret (workflow_state fr).

(** The values that [workflow_state] has held, the current one first. *)
Definition states (fr : Frame) : list WorkflowState :=
  workflow_state fr :: history fr.

Definition error_to_py (e : ErrorEntry) : PyVal.t :=
  PyVal.VDict [ ("type", PyVal.VStr (err_type e));
                ("message", PyVal.VStr (err_message e));
                ("recoverable", PyVal.VBool (err_recoverable e));
                ("timestamp", PyVal.VStr (err_timestamp e)) ].

(** [workflow_state] as the Python value handed to [json.dumps]. *)
Definition state_to_py (ws : WorkflowState) : PyVal.t :=
  PyVal.VDict [ ("articles_fetched", PyVal.VBool (articles_fetched ws));
                ("summary_generated", PyVal.VBool (summary_generated ws));
                ("summary_published", PyVal.VBool (summary_published ws));
                ("articles", PyVal.VList (map PyVal.VArticle (articles ws)));
                ("summary", match summary ws with
                            | Some s => PyVal.VSummary s
                            | None => PyVal.VNone
                            end);
                ("errors", PyVal.VList (map error_to_py (errors ws))) ].

(** The value the handler returns: [statusCode] and the JSON [body]. *)
Record Response := mk_response {
  statusCode : Z;
  body : PyVal.json
}.

(** The invocation event: a dictionary. *)
Definition Event := gmap string PyVal.t.

Section Methods.
Context {W : Type} `{Runtime W} `{Services W} `{PyLib}.

(** [round(execution_time, 2)] *)
Definition rounded (execution_time : Float.float) : PyVal.t :=
  PyVal.VFloat (round2 execution_time).

(** [_create_success_response] *)
Definition _create_success_response (self : t) (message : string)
           (correlation_id : PyVal.t) (execution_time : Float.float)
           (summary_id : option string) (article_count : option Z)
           (workflow_state : option WorkflowState) : M W Response :=
  let* now := datetime_now_utc in
  let response_body :=
    [ ("message", PyVal.VStr message);
      ("timestamp", PyVal.VStr (DateTime.isoformat now));
      ("correlation_id", correlation_id);
      ("execution_time_seconds", rounded execution_time);
      ("config", PyVal.VDict
         [ ("search_query", PyVal.VStr (AgentConfig.search_query (config self)));
           ("time_range_hours", PyVal.VInt (AgentConfig.time_range_hours (config self)));
           ("max_articles", PyVal.VInt (AgentConfig.max_articles (config self)));
           ("summary_length", PyVal.VStr (AgentConfig.summary_length (config self))) ]) ]
    ++ match summary_id with
       | Some i => if PyStr.is_empty i then [] else [("summary_id", PyVal.VStr i)]
       | None => []
       end
    ++ match article_count with
       | Some n => [("article_count", PyVal.VInt n)]
       | None => []
       end
    ++ match workflow_state with
       | Some ws => [("workflow_state", state_to_py ws)]
       | None => []
       end in
  let* body := of_result (PyVal.dumps (PyVal.VDict response_body)) in
  ret {| statusCode := 200; body := body |}.

(** [_create_partial_success_response] *)
Definition _create_partial_success_response (message : string)
           (correlation_id : PyVal.t) (execution_time : Float.float)
           (workflow_state : WorkflowState) : M W Response :=
  let* now := datetime_now_utc in
  let* body :=
    of_result (PyVal.dumps (PyVal.VDict
      [ ("message", PyVal.VStr message);
        ("timestamp", PyVal.VStr (DateTime.isoformat now));
        ("correlation_id", correlation_id);
        ("execution_time_seconds", rounded execution_time);
        ("workflow_state", state_to_py workflow_state);
        ("status", PyVal.VStr "partial_success") ])) in
  ret {| statusCode := 206; body := body |}.

(** [_create_error_response] *)
Definition _create_error_response (error_message : string)
           (correlation_id : PyVal.t) (execution_time : Float.float)
           (error_type : option string) (workflow_state : option WorkflowState)
  : M W Response :=
  let* now := datetime_now_utc in
  let response_body :=
    [ ("error", PyVal.VStr "Internal server error");
      ("message", PyVal.VStr error_message);
      ("timestamp", PyVal.VStr (DateTime.isoformat now));
      ("correlation_id", correlation_id);
      ("execution_time_seconds", rounded execution_time) ]
    ++ match error_type with
       | Some ty => if PyStr.is_empty ty then [] else [("error_type", PyVal.VStr ty)]
       | None => []
       end
    ++ match workflow_state with
       | Some ws => [("workflow_state", state_to_py ws)]
       | None => []
       end in
  let* body := of_result (PyVal.dumps (PyVal.VDict response_body)) in
  ret {| statusCode := 500; body := body |}.

(** [WorkflowError(message, error_type, recoverable, original_error)]:
    the constructor reads the clock. *)
Definition new_WorkflowError (message : string) (error_type : ErrorType)
           (recoverable : bool) (original_error : exn) : M W exn :=
  let* now := datetime_now_utc in
  ret (WorkflowError message error_type recoverable (exn_str original_error) now).

(** [_fetch_news_articles_with_recovery]: the loop
    [for attempt in range(max_retries)]. *)
Fixpoint _fetch_news_articles_loop (self : t) (max_retries attempt : Z)
         (remaining : nat) : M W (list NewsArticle.t) :=
  match remaining with
  | O => ret []
  | S remaining' =>
      let* outcome :=
        catch (let* raw_articles :=
                 fetch_news (AgentConfig.search_query (config self))
                            (AgentConfig.time_range_hours (config self)) in
               match raw_articles with
               | [] => ret []
               | _ =>
                   let* filtered_articles := filter_articles raw_articles in
                   let max_articles := AgentConfig.max_articles (config self) in
                   ret (if max_articles <? Z.of_nat (length filtered_articles)
                        then take (Z.to_nat max_articles) filtered_articles
                        else filtered_articles)
               end) in
      match outcome with
      | Ok articles => ret articles
      | Raise e =>
          if attempt =? max_retries - 1 then
            let* we := new_WorkflowError
                         ("News fetching failed after " +:+ pretty max_retries
                          +:+ " attempts: " +:+ exn_str e)
                         NEWS_FETCH_ERROR false e in
            raise we
          else
            let* _ := eff (asyncio_sleep (2 ^ attempt)) in
            _fetch_news_articles_loop self max_retries (attempt + 1) remaining'
      end
  end.

Definition _fetch_news_articles_with_recovery (self : t) (correlation_id : PyVal.t)
  : M W (list NewsArticle.t) :=
  _fetch_news_articles_loop self 3 0 3.

(** [_generate_fallback_summary] *)
Definition _generate_fallback_summary (articles : list NewsArticle.t)
  : M W NewsSummary.t :=
  let first10 := take 10 articles in
  let summary_parts :=
    map (fun a => NewsArticle.title a +:+ " (" +:+ NewsArticle.source a +:+ ")") first10 in
  let key_points :=
    map (fun a => PyStr.take 100 (NewsArticle.title a)
                  +:+ (if (100 <? String.length (NewsArticle.title a))%nat
                       then "..." else ""))
        first10 in
  let sources :=
    map (fun a => ArticleSource.mk (NewsArticle.title a) (NewsArticle.url a)
                                   (NewsArticle.source a) (NewsArticle.published_at a))
        first10 in
  let n := Z.of_nat (length articles) in
  let fallback_summary_text :=
    "Recent Generative AI developments from " +:+ pretty n +:+ " sources include: "
    +:+ PyStr.join "; " (take 5 summary_parts)
    +:+ (if 5 <? n then " and " +:+ pretty (n - 5) +:+ " more articles." else "") in
  let* now := datetime_now_utc in
  NewsSummary.new (NewsSummary.mk fallback_summary_text (take 8 key_points) sources
                                  now n None).

(** [_generate_summary_with_recovery] *)
Definition _generate_summary_with_recovery (articles : list NewsArticle.t)
           (correlation_id : PyVal.t) : M W NewsSummary.t :=
  try_except
    (generate_summary articles)
    (fun e =>
       try_except
         (_generate_fallback_summary articles)
         (fun fallback_error =>
            let* we := new_WorkflowError
                         ("Summary generation failed: Primary error: " +:+ exn_str e
                          +:+ ", Fallback error: " +:+ exn_str fallback_error)
                         SUMMARIZATION_ERROR false e in
            raise we)).

(** [_publish_summary_with_recovery] *)
Definition _publish_summary_with_recovery (summary : NewsSummary.t)
           (correlation_id : PyVal.t) : M W bool :=
  try_except
    (let* success := publish_summary summary in
     if (success : bool) then ret true else ret false)
    (fun _ => ret false).

(** [_log_no_news_event], [_log_notification_success] and
    [_log_notification_failure] build a record with the current time
    and log it; whatever they raise is caught inside. *)
Definition _log_no_news_event (correlation_id : PyVal.t) : M W unit :=
  let* _ := datetime_now_utc in ret tt.

Definition _log_notification_success (correlation_id : PyVal.t)
           (notification_type : string) : M W unit :=
  let* _ := datetime_now_utc in ret tt.

Definition _log_notification_failure (correlation_id : PyVal.t)
           (notification_type : string) : M W unit :=
  let* _ := datetime_now_utc in ret tt.

(** [_handle_no_news_scenario_with_recovery]: the loop
    [for attempt in range(max_retries)], then the code after it. *)
Fixpoint _no_news_loop (correlation_id : PyVal.t) (max_retries attempt : Z)
         (remaining : nat) : M W unit :=
  match remaining with
  | O => _log_notification_failure correlation_id "no_news"
  | S remaining' =>
      let* outcome :=
        catch (let* success := send_no_news_notification in
               if (success : bool) then
                 let* _ := _log_notification_success correlation_id "no_news" in
                 ret true
               else ret false) in
      match outcome with
      | Ok true => ret tt
      | Ok false => _no_news_loop correlation_id max_retries (attempt + 1) remaining'
      | Raise _ =>
          let* _ := (if attempt <? max_retries - 1
                     then eff (asyncio_sleep 2) else ret tt) in
          _no_news_loop correlation_id max_retries (attempt + 1) remaining'
      end
  end.

Definition _handle_no_news_scenario_with_recovery (correlation_id : PyVal.t)
  : M W unit :=
  let* _ := _log_no_news_event correlation_id in
  _no_news_loop correlation_id 2 0 2.

(** The fields of the summary that [_create_simplified_summary] builds. *)
Definition simplified_fields (summary : NewsSummary.t) : NewsSummary.t :=
  let simplified_text :=
    if (1000 <? String.length (NewsSummary.summary summary))%nat
    then PyStr.take 1000 (NewsSummary.summary summary) +:+ "..."
    else NewsSummary.summary summary in
  let limited_key_points := take 5 (NewsSummary.key_points summary) in
  let limited_sources := take 10 (NewsSummary.sources summary) in
  NewsSummary.mk simplified_text limited_key_points limited_sources
                 (NewsSummary.generated_at summary)
                 (NewsSummary.article_count summary)
                 (NewsSummary.id summary).

(** [_create_simplified_summary] *)
Definition _create_simplified_summary (summary : NewsSummary.t) : M W NewsSummary.t :=
  NewsSummary.new (simplified_fields summary).

(** The fields of the minimal summary of the second fallback of
    [_attempt_fallback_publishing]. *)
Definition minimal_fields (summary : NewsSummary.t) : NewsSummary.t :=
  let plain_text := NewsSummary.format_for_plain_text summary in
  NewsSummary.mk
    (if (500 <? String.length plain_text)%nat
     then PyStr.take 500 plain_text +:+ "..." else plain_text)
    (take 3 (NewsSummary.key_points summary))
    (take 5 (NewsSummary.sources summary))
    (NewsSummary.generated_at summary)
    (NewsSummary.article_count summary)
    None.

(** [_attempt_fallback_publishing] *)
Definition _attempt_fallback_publishing (summary : NewsSummary.t)
           (correlation_id : PyVal.t) : M W bool :=
  let* first :=
    try_except
      (let* simplified_summary := _create_simplified_summary summary in
       publish_summary simplified_summary)
      (fun _ => ret false) in
  if (first : bool) then ret true
  else
    let* second :=
      try_except
        (let* minimal_summary := NewsSummary.new (minimal_fields summary) in
         publish_summary minimal_summary)
        (fun _ => ret false) in
    if (second : bool) then ret true else ret false.

(** [time.time() - start_time] *)
Definition elapsed (start_time : Float.float) : M W Float.float :=
  let* now := eff time_time in ret (Float.sub now start_time).

(** [_handle_workflow_error], for a [WorkflowError] with the given
    attributes. *)
Definition _handle_workflow_error (message : string) (error_type : ErrorType)
           (recoverable : bool) (timestamp : datetime)
           (correlation_id : PyVal.t) (start_time : Float.float)
  : M (Frame * W) Response :=
  let* execution_time := in_world (elapsed start_time) in
  let* _ := update_ws (append_error
              {| err_type := ErrorType_value error_type;
                 err_message := message;
                 err_recoverable := recoverable;
                 err_timestamp := DateTime.isoformat timestamp |}) in
  let error_response :=
    let* ws := get_ws in
    in_world (_create_error_response message correlation_id execution_time
                (Some (ErrorType_value error_type)) (Some ws)) in
  if ErrorType_eqb error_type NEWS_FETCH_ERROR && negb recoverable then
    try_except
      (let* _ := in_world (_handle_no_news_scenario_with_recovery correlation_id) in
       let* ws := get_ws in
       in_world (_create_partial_success_response
                   "News fetching failed, sent no-news notification"
                   correlation_id execution_time ws))
      (fun _ => error_response)
  else error_response.

(** [_handle_unexpected_error] *)
Definition _handle_unexpected_error (error : exn) (correlation_id : PyVal.t)
           (start_time : Float.float) : M (Frame * W) Response :=
  let* execution_time := in_world (elapsed start_time) in
  let* now := in_world datetime_now_utc in
  let* _ := update_ws (append_error
              {| err_type := ErrorType_value UNKNOWN_ERROR;
                 err_message := exn_str error;
                 err_recoverable := false;
                 err_timestamp := DateTime.isoformat now |}) in
  let* ws := get_ws in
  in_world (_create_error_response ("Unexpected error: " +:+ exn_str error)
              correlation_id execution_time
              (Some (ErrorType_value UNKNOWN_ERROR)) (Some ws)).

(** The [try] block of [handler]. *)
Definition handler_body (self : t) (correlation_id : PyVal.t)
           (start_time : Float.float) : M (Frame * W) Response :=
  let* articles := in_world (_fetch_news_articles_with_recovery self correlation_id) in
  let* _ := update_ws (set_articles articles) in
  let* _ := update_ws (set_articles_fetched true) in
  match articles with
  | [] =>
      let* _ := in_world (_handle_no_news_scenario_with_recovery correlation_id) in
      let* execution_time := in_world (elapsed start_time) in
      let* ws := get_ws in
      in_world (_create_success_response self
                  "No relevant news found - notification sent"
                  correlation_id execution_time None None (Some ws))
  | _ =>
      let* summary := in_world (_generate_summary_with_recovery articles correlation_id) in
      let* _ := update_ws (set_summary (Some summary)) in
      let* _ := update_ws (set_summary_generated true) in
      let* publish_success :=
        in_world (_publish_summary_with_recovery summary correlation_id) in
      let* _ := update_ws (set_summary_published publish_success) in
      let complete_success : M (Frame * W) Response :=
        let* execution_time := in_world (elapsed start_time) in
        let* ws := get_ws in
        in_world (_create_success_response self
                    "AI News Agent executed successfully"
                    correlation_id execution_time
                    (NewsSummary.id summary)
                    (Some (Z.of_nat (length articles))) (Some ws)) in
      if negb publish_success then
        let* fallback_success :=
          in_world (_attempt_fallback_publishing summary correlation_id) in
        let* _ := update_ws (set_summary_published fallback_success) in
        if negb fallback_success then
          let* execution_time := in_world (elapsed start_time) in
          let* ws := get_ws in
          in_world (_create_partial_success_response
                      "Summary generated but publishing failed"
                      correlation_id execution_time ws)
        else complete_success
      else complete_success
  end.

(** [handler]: a fresh [workflow_state], the [try] block, and its two
    [except] clauses. *)
Definition handler (self : t) (event : Event) : M (Frame * W) Response :=
  let* start_time := in_world (eff time_time) in
  let correlation_id :=
    default (PyVal.VStr (execution_id self)) (event !! "correlation_id") in
  let* _ := put_self {| workflow_state := initial_workflow_state; history := [] |} in
  try_except
    (handler_body self correlation_id start_time)
    (fun e =>
       match e with
       | WorkflowError message error_type recoverable _ timestamp =>
           _handle_workflow_error message error_type recoverable timestamp
                                  correlation_id start_time
       | PyException _ _ =>
           _handle_unexpected_error e correlation_id start_time
       end).

(** One invocation, from an empty frame. *)
Definition invoke (self : t) (event : Event) (w : W) : result Response * (Frame * W) :=
  handler self event ({| workflow_state := initial_workflow_state; history := [] |}, w).

End Methods.

End LambdaHandler.

(** ** The services of [_initialize_services] *)

Module Production.

(** The notification publisher, kept at its interface [SNSPublisher]. *)
Class Publisher (W : Type) := {
  sns_publish_summary : NewsSummary.t -> M W bool;
  sns_send_no_news_notification : M W bool
}.

(** The runtime seen from a world that also holds an object. *)
#[export] Instance runtime_with_object {S W} `{Runtime W} : Runtime (S * W) := {|
  clock_us := fun sw => let (t, w') := clock_us (snd sw) in (t, (fst sw, w'));
  local_utcoffset := local_utcoffset;
  uuid4 := fun sw => let (i, w') := uuid4 (snd sw) in (i, (fst sw, w'));
  time_time := fun sw => let (t, w') := time_time (snd sw) in (t, (fst sw, w'));
  asyncio_sleep := fun n sw => let (u, w') := asyncio_sleep n (snd sw) in (u, (fst sw, w'))
|}.

(** The handler's collaborators as [LambdaHandler.__init__] creates
    them: a [GoogleNewsFetcher], which lives in the world next to its
    clients, a [StrandsAISummarizer] and the publisher. *)
#[export] Instance services {W} `{Runtime W} `{GoogleNewsFetcher.GNews W}
          `{StrandsAISummarizer.Agent W} `{Publisher W} `{PyLib}
          (summarizer : StrandsAISummarizer.t)
  : LambdaHandler.Services (GoogleNewsFetcher.t * W) := {|
  LambdaHandler.fetch_news := GoogleNewsFetcher.fetch_news;
  LambdaHandler.filter_articles := GoogleNewsFetcher.filter_articles;
  LambdaHandler.generate_summary :=
    fun articles => in_world (StrandsAISummarizer.generate_summary summarizer articles);
  LambdaHandler.publish_summary := fun s => in_world (sns_publish_summary s);
  LambdaHandler.send_no_news_notification := in_world sns_send_no_news_notification
|}.

End Production.

(** ** Scripted collaborators

    A world for running the code on concrete inputs, in the manner of the
    mocks of the test suite: every collaborator answers its [n]-th call as
    a script says, and the world counts the calls and records the sleeps.
    The clock advances by one second at each reading. *)

Module Mock.

Record World := mk_world {
  clock : Z;
  uuids : nat;
  fetch_calls : nat;
  filter_calls : nat;
  summary_calls : nat;
  publish_calls : nat;
  no_news_calls : nat;
  get_news_calls : nat;
  invoke_calls : nat;
  sleeps : list Z
}.

Definition world0 : World :=
  {| clock := 1793786400000000; uuids := 0; fetch_calls := 0; filter_calls := 0;
     summary_calls := 0; publish_calls := 0; no_news_calls := 0;
     get_news_calls := 0; invoke_calls := 0; sleeps := [] |}.

Record Script := mk_script {
  on_fetch : nat -> result (list NewsArticle.t);
  on_filter : nat -> list NewsArticle.t -> result (list NewsArticle.t);
  on_summary : nat -> list NewsArticle.t -> result NewsSummary.t;
  on_publish : nat -> NewsSummary.t -> result bool;
  on_no_news : nat -> result bool;
  on_get_news : nat -> result (list GoogleNewsFetcher.RawArticle);
  on_full_article : string -> result (option string);
  on_invoke : nat -> string -> result (option string)
}.

(** The calls of the fetch stage and of the summarizer so far. *)
Definition stage_calls (w : World) : nat * nat * nat :=
  (fetch_calls w, filter_calls w, summary_calls w).

Definition tick (w : World) : World :=
  {| clock := clock w + 1000000; uuids := uuids w; fetch_calls := fetch_calls w;
     filter_calls := filter_calls w; summary_calls := summary_calls w;
     publish_calls := publish_calls w; no_news_calls := no_news_calls w;
     get_news_calls := get_news_calls w; invoke_calls := invoke_calls w;
     sleeps := sleeps w |}.

Definition runtime : Runtime World := {|
  clock_us := fun w => (clock w, tick w);
  local_utcoffset := 0;
  uuid4 := fun w =>
    ("uuid-" +:+ pretty (uuids w),
     {| clock := clock w; uuids := S (uuids w); fetch_calls := fetch_calls w;
        filter_calls := filter_calls w; summary_calls := summary_calls w;
        publish_calls := publish_calls w; no_news_calls := no_news_calls w;
        get_news_calls := get_news_calls w; invoke_calls := invoke_calls w;
        sleeps := sleeps w |});
  time_time := fun w => (Float.of_int (clock w / 1000000), tick w);
  asyncio_sleep := fun n w =>
    (tt, {| clock := clock w + n * 1000000; uuids := uuids w;
            fetch_calls := fetch_calls w; filter_calls := filter_calls w;
            summary_calls := summary_calls w; publish_calls := publish_calls w;
            no_news_calls := no_news_calls w; get_news_calls := get_news_calls w;
            invoke_calls := invoke_calls w; sleeps := sleeps w ++ [n] |})
|}.

(** A stand-in for the library functions: a URL is valid when it has
    the form [scheme://netloc...], no date string parses, and rounding
    is left out. *)
Fixpoint split_scheme (u acc : string) : string * string :=
  match u with
  | String ":" (String "/" (String "/" r)) => (acc, r)
  | String c r => split_scheme r (acc +:+ String c EmptyString)
  | EmptyString => (EmptyString, EmptyString)
  end.

Definition pylib : PyLib := {|
  urlparse := fun u => Ok (split_scheme u EmptyString);
  dateutil_parse := fun _ => Raise (PyException "ParserError" "Unknown string format");
  round2 := fun x => x
|}.

Section Scripted.
Variable sc : Script.

Definition services : LambdaHandler.Services World := {|
  LambdaHandler.fetch_news := fun _ _ w =>
    (on_fetch sc (fetch_calls w),
     {| clock := clock w; uuids := uuids w; fetch_calls := S (fetch_calls w);
        filter_calls := filter_calls w; summary_calls := summary_calls w;
        publish_calls := publish_calls w; no_news_calls := no_news_calls w;
        get_news_calls := get_news_calls w; invoke_calls := invoke_calls w;
        sleeps := sleeps w |});
  LambdaHandler.filter_articles := fun l w =>
    (on_filter sc (filter_calls w) l,
     {| clock := clock w; uuids := uuids w; fetch_calls := fetch_calls w;
        filter_calls := S (filter_calls w); summary_calls := summary_calls w;
        publish_calls := publish_calls w; no_news_calls := no_news_calls w;
        get_news_calls := get_news_calls w; invoke_calls := invoke_calls w;
        sleeps := sleeps w |});
  LambdaHandler.generate_summary := fun l w =>
    (on_summary sc (summary_calls w) l,
     {| clock := clock w; uuids := uuids w; fetch_calls := fetch_calls w;
        filter_calls := filter_calls w; summary_calls := S (summary_calls w);
        publish_calls := publish_calls w; no_news_calls := no_news_calls w;
        get_news_calls := get_news_calls w; invoke_calls := invoke_calls w;
        sleeps := sleeps w |});
  LambdaHandler.publish_summary := fun s w =>
    (on_publish sc (publish_calls w) s,
     {| clock := clock w; uuids := uuids w; fetch_calls := fetch_calls w;
        filter_calls := filter_calls w; summary_calls := summary_calls w;
        publish_calls := S (publish_calls w); no_news_calls := no_news_calls w;
        get_news_calls := get_news_calls w; invoke_calls := invoke_calls w;
        sleeps := sleeps w |});
  LambdaHandler.send_no_news_notification := fun w =>
    (on_no_news sc (no_news_calls w),
     {| clock := clock w; uuids := uuids w; fetch_calls := fetch_calls w;
        filter_calls := filter_calls w; summary_calls := summary_calls w;
        publish_calls := publish_calls w; no_news_calls := S (no_news_calls w);
        get_news_calls := get_news_calls w; invoke_calls := invoke_calls w;
        sleeps := sleeps w |})
|}.

Definition gnews : GoogleNewsFetcher.GNews World := {|
  GoogleNewsFetcher.get_news := fun _ _ w =>
    (on_get_news sc (get_news_calls w),
     {| clock := clock w; uuids := uuids w; fetch_calls := fetch_calls w;
        filter_calls := filter_calls w; summary_calls := summary_calls w;
        publish_calls := publish_calls w; no_news_calls := no_news_calls w;
        get_news_calls := S (get_news_calls w); invoke_calls := invoke_calls w;
        sleeps := sleeps w |});
  GoogleNewsFetcher.get_full_article := fun u w => (on_full_article sc u, w)
|}.

Definition agent : StrandsAISummarizer.Agent World := {|
  StrandsAISummarizer.invoke_async := fun prompt w =>
    (on_invoke sc (invoke_calls w) prompt,
     {| clock := clock w; uuids := uuids w; fetch_calls := fetch_calls w;
        filter_calls := filter_calls w; summary_calls := summary_calls w;
        publish_calls := publish_calls w; no_news_calls := no_news_calls w;
        get_news_calls := get_news_calls w; invoke_calls := S (invoke_calls w);
        sleeps := sleeps w |})
|}.

Definition publisher : Production.Publisher World := {|
  Production.sns_publish_summary := @LambdaHandler.publish_summary _ services;
  Production.sns_send_no_news_notification :=
    @LambdaHandler.send_no_news_notification _ services
|}.

End Scripted.

(** A script in which every collaborator fails; the examples override
    the entries they need. *)
Definition failing : Script :=
  {| on_fetch := fun _ => Raise (PyException "Exception" "fetch failed");
     on_filter := fun _ _ => Raise (PyException "Exception" "filter failed");
     on_summary := fun _ _ => Raise (PyException "Exception" "AI service unavailable");
     on_publish := fun _ _ => Raise (PyException "Exception" "SNS service unavailable");
     on_no_news := fun _ => Raise (PyException "Exception" "SNS error");
     on_get_news := fun _ => Raise (PyException "Exception" "Network timeout");
     on_full_article := fun _ => Raise (PyException "Exception" "no article");
     on_invoke := fun _ _ => Raise (PyException "Exception" "model unavailable") |}.

Definition test_config : AgentConfig.t :=
  AgentConfig.mk "Generative AI" 72 "arn:aws:sns:us-east-1:123456789012:test-topic"
                 50 "medium" "amazon.nova-pro-v1:0" "bedrock".

Definition test_handler : LambdaHandler.t :=
  LambdaHandler.mk test_config "execution-0".

Definition test_event : LambdaHandler.Event :=
  {[ "correlation_id" := PyVal.VStr "test-correlation-123" ]}.

(** One invocation of [test_handler] with scripted collaborators. *)
Definition run (sc : Script) (event : LambdaHandler.Event)
  : result LambdaHandler.Response * (LambdaHandler.Frame * World) :=
  @LambdaHandler.invoke World runtime (services sc) pylib test_handler event world0.

(** One invocation with the services of [_initialize_services] over a
    scripted news client, agent and publisher. *)
Definition run_production (sc : Script) (event : LambdaHandler.Event)
  : result LambdaHandler.Response
    * (LambdaHandler.Frame * (GoogleNewsFetcher.t * World)) :=
  @LambdaHandler.invoke (GoogleNewsFetcher.t * World)
    (@Production.runtime_with_object _ _ runtime)
    (@Production.services World runtime (gnews sc) (agent sc) (publisher sc) pylib
                          (StrandsAISummarizer.mk test_config true))
    pylib test_handler event
    (GoogleNewsFetcher.init "en" "US" (AgentConfig.max_articles test_config), world0).

Definition test_time : datetime :=
  {| wall_us := 1793779200000000; utcoffset := Some 0 |}.

Definition article1 : NewsArticle.t :=
  NewsArticle.mk "OpenAI Releases Revolutionary GPT-5 Model"
                 "OpenAI has announced the release of GPT-5."
                 "https://example.com/openai-gpt5-release" test_time "TechCrunch"
                 (Some "article-1") None.

Definition summary1 : NewsSummary.t :=
  NewsSummary.mk "Major developments in generative AI this week."
                 ["OpenAI releases GPT-5"]
                 [ArticleSource.mk (NewsArticle.title article1) (NewsArticle.url article1)
                                   (NewsArticle.source article1) test_time]
                 test_time 1 (Some "summary-1").

End Mock.

(** ** Inputs of the examples *)

Module Examples.

(** A summary whose narrative has 1001 characters. *)
Definition summary_1001 : NewsSummary.t :=
  NewsSummary.mk (PyStr.replicate_char 1001 "a") [] [] Mock.test_time 0 (Some "summary-1").

(** A raw item of the news client, without a publication date. *)
Definition raw1 : GoogleNewsFetcher.RawArticle :=
  GoogleNewsFetcher.mk_raw (Some "AI News 1") (Some "https://example.com/same-url")
                           (Some "First article") None (Some "News 1").

(** A news client that returns [raw1] at every search. *)
Definition same_item_script : Mock.Script :=
  {| Mock.on_fetch := Mock.on_fetch Mock.failing;
     Mock.on_filter := Mock.on_filter Mock.failing;
     Mock.on_summary := Mock.on_summary Mock.failing;
     Mock.on_publish := Mock.on_publish Mock.failing;
     Mock.on_no_news := Mock.on_no_news Mock.failing;
     Mock.on_get_news := fun _ => Ok [raw1];
     Mock.on_full_article := Mock.on_full_article Mock.failing;
     Mock.on_invoke := Mock.on_invoke Mock.failing |}.

Definition fresh_fetcher : GoogleNewsFetcher.t := GoogleNewsFetcher.init "en" "US" 50.

(** [fetch_news("Generative AI", 72)] against a scripted news client. *)
Definition fetch_with (sc : Mock.Script)
  : M (GoogleNewsFetcher.t * Mock.World) (list NewsArticle.t) :=
  @GoogleNewsFetcher.fetch_news Mock.World Mock.runtime (Mock.gnews sc) Mock.pylib
                                "Generative AI" 72.

(** Every stage succeeds: one article, its summary, a successful publish. *)
Definition success_script : Mock.Script :=
  {| Mock.on_fetch := fun _ => Ok [Mock.article1];
     Mock.on_filter := fun _ articles => Ok articles;
     Mock.on_summary := fun _ _ => Ok Mock.summary1;
     Mock.on_publish := fun _ _ => Ok true;
     Mock.on_no_news := Mock.on_no_news Mock.failing;
     Mock.on_get_news := Mock.on_get_news Mock.failing;
     Mock.on_full_article := Mock.on_full_article Mock.failing;
     Mock.on_invoke := Mock.on_invoke Mock.failing |}.

(** The summary is generated and the publisher fails at every attempt. *)
Definition publish_fails_script : Mock.Script :=
  {| Mock.on_fetch := fun _ => Ok [Mock.article1];
     Mock.on_filter := fun _ articles => Ok articles;
     Mock.on_summary := fun _ _ => Ok Mock.summary1;
     Mock.on_publish := fun _ _ => Ok false;
     Mock.on_no_news := Mock.on_no_news Mock.failing;
     Mock.on_get_news := Mock.on_get_news Mock.failing;
     Mock.on_full_article := Mock.on_full_article Mock.failing;
     Mock.on_invoke := Mock.on_invoke Mock.failing |}.

(** The fetch fails at every attempt and the no-news notification is
    not delivered. *)
Definition fetch_fails_script : Mock.Script :=
  {| Mock.on_fetch := fun _ => Raise (PyException "Exception" "Network timeout");
     Mock.on_filter := Mock.on_filter Mock.failing;
     Mock.on_summary := Mock.on_summary Mock.failing;
     Mock.on_publish := Mock.on_publish Mock.failing;
     Mock.on_no_news := fun _ => Ok false;
     Mock.on_get_news := Mock.on_get_news Mock.failing;
     Mock.on_full_article := Mock.on_full_article Mock.failing;
     Mock.on_invoke := Mock.on_invoke Mock.failing |}.

(** The search of the news client raises at its first call and returns
    an empty list afterwards; the notification is delivered. *)
Definition search_raises_then_empty : Mock.Script :=
  {| Mock.on_fetch := Mock.on_fetch Mock.failing;
     Mock.on_filter := Mock.on_filter Mock.failing;
     Mock.on_summary := Mock.on_summary Mock.failing;
     Mock.on_publish := Mock.on_publish Mock.failing;
     Mock.on_no_news := fun _ => Ok true;
     Mock.on_get_news := fun n =>
       match n with
       | O => Raise (PyException "Exception" "Network timeout")
       | _ => Ok []
       end;
     Mock.on_full_article := Mock.on_full_article Mock.failing;
     Mock.on_invoke := Mock.on_invoke Mock.failing |}.

(** The search of the news client returns an empty list at every call. *)
Definition search_empty : Mock.Script :=
  {| Mock.on_fetch := Mock.on_fetch Mock.failing;
     Mock.on_filter := Mock.on_filter Mock.failing;
     Mock.on_summary := Mock.on_summary Mock.failing;
     Mock.on_publish := Mock.on_publish Mock.failing;
     Mock.on_no_news := fun _ => Ok true;
     Mock.on_get_news := fun _ => Ok [];
     Mock.on_full_article := Mock.on_full_article Mock.failing;
     Mock.on_invoke := Mock.on_invoke Mock.failing |}.

(** [fetch_news] raises at its first call and returns an empty list
    afterwards; the notification is delivered. *)
Definition fetch_raises_then_empty : Mock.Script :=
  {| Mock.on_fetch := fun n =>
       match n with
       | O => Raise (PyException "Exception" "Network timeout")
       | _ => Ok []
       end;
     Mock.on_filter := Mock.on_filter Mock.failing;
     Mock.on_summary := Mock.on_summary Mock.failing;
     Mock.on_publish := Mock.on_publish Mock.failing;
     Mock.on_no_news := fun _ => Ok true;
     Mock.on_get_news := Mock.on_get_news Mock.failing;
     Mock.on_full_article := Mock.on_full_article Mock.failing;
     Mock.on_invoke := Mock.on_invoke Mock.failing |}.

End Examples.

(** ** Vocabulary of the statements *)

Module Spec.

(** An article duplicates one of the articles kept so far. *)
Definition duplicates (kept : list NewsArticle.t) (a : NewsArticle.t) : bool :=
  existsb (fun existing => NewsArticle.is_duplicate a existing) kept.

(** Scanning one more article: it is kept unless it duplicates an
    article kept before it. *)
Definition dedupe_step (kept : list NewsArticle.t) (a : NewsArticle.t)
  : list NewsArticle.t :=
  if duplicates kept a then kept else kept ++ [a].

(** No article of the list duplicates an article that stands before it. *)
Definition pairwise_distinct (l : list NewsArticle.t) : Prop :=
  forall l1 a l2, l = l1 ++ a :: l2 -> duplicates l1 a = false.

(** The URLs of a list of articles, as a set. *)
Definition urls_of (l : list NewsArticle.t) : gset string :=
  list_to_set (map NewsArticle.url l).

(** A vocabulary term occurs in a text, case-insensitively. *)
Definition occurs_in (text keyword : string) : bool :=
  PyStr.contains (PyStr.lower keyword) (PyStr.lower text).

(** The number of vocabulary terms that occur anywhere in the title and
    body of an article, joined by a space as the source joins them. *)
Definition matches (V : list string) (a : NewsArticle.t) : Z :=
  Z.of_nat (length (List.filter
                      (occurs_in (NewsArticle.title a +:+ " " +:+ NewsArticle.content a))
                      V)).

(** The number of vocabulary terms that occur in the title. *)
Definition title_matches (V : list string) (a : NewsArticle.t) : Z :=
  Z.of_nat (length (List.filter (occurs_in (NewsArticle.title a)) V)).

(** [min(matches/|V| + (titleMatches/|V|) * 0.3, 1.0)] in binary64. *)
Definition score_formula (V : list string) (a : NewsArticle.t) : Float.float :=
  let n := Z.of_nat (length V) in
  Float.py_min
    (Float.add (Float.truediv (matches V a) n)
               (Float.mul (Float.truediv (title_matches V a) n) Float.lit_0_3))
    Float.one.

(** Non-negative floats: [+0.0], the positive finite numbers, [+inf]. *)
Definition nonneg (x : Float.float) : bool :=
  match x with
  | S754_zero false | S754_infinity false | S754_finite false _ _ => true
  | _ => false
  end.

(** One value of [workflow_state] and a later one: a completion flag
    that is set stays set, and the error log only grows at its end. *)
Definition evolves (before after : LambdaHandler.WorkflowState) : Prop :=
  (LambdaHandler.articles_fetched before = true ->
   LambdaHandler.articles_fetched after = true)
  /\ (LambdaHandler.summary_generated before = true ->
      LambdaHandler.summary_generated after = true)
  /\ (LambdaHandler.summary_published before = true ->
      LambdaHandler.summary_published after = true)
  /\ LambdaHandler.errors before `prefix_of` LambdaHandler.errors after.

(** A list of successive values, latest first, in which every value
    evolves from the one before it. *)
Fixpoint evolving (states : list LambdaHandler.WorkflowState) : Prop :=
  match states with
  | after :: ((before :: _) as earlier) => evolves before after /\ evolving earlier
  | _ => True
  end.

(** The JSON of an entry of the error log. *)
Definition error_to_json (e : LambdaHandler.ErrorEntry) : PyVal.json :=
  PyVal.JObj [ ("type", PyVal.JStr (LambdaHandler.err_type e));
               ("message", PyVal.JStr (LambdaHandler.err_message e));
               ("recoverable", PyVal.JBool (LambdaHandler.err_recoverable e));
               ("timestamp", PyVal.JStr (LambdaHandler.err_timestamp e)) ].

(** The JSON of a workflow state that holds no article and no summary. *)
Definition state_to_json (ws : LambdaHandler.WorkflowState) : PyVal.json :=
  PyVal.JObj
    [ ("articles_fetched", PyVal.JBool (LambdaHandler.articles_fetched ws));
      ("summary_generated", PyVal.JBool (LambdaHandler.summary_generated ws));
      ("summary_published", PyVal.JBool (LambdaHandler.summary_published ws));
      ("articles", PyVal.JArr []);
      ("summary", PyVal.JNull);
      ("errors", PyVal.JArr (map error_to_json (LambdaHandler.errors ws))) ].

End Spec.

(** ** [services/aws_sns_publisher.py]: publishing with retries *)

Module AWSNSPublisher.

(** What a call of the SNS client does: it returns, it raises a
    [ClientError] or a [BotoCoreError], or it raises another exception.
    Of a client error the publisher reads the code
    [e.response['Error']['Code']], ['Unknown'] when the exception carries
    none, and the message [str(e)]. *)
Inductive outcome (A : Type) :=
| Returned (a : A)
| BotoError (error_code : string) (message : string)
| OtherError (e : exn).
Arguments Returned {A} a.
Arguments BotoError {A} error_code message.
Arguments OtherError {A} e.

(** The value of a topic under [Attributes]['DeliveryStatusLogging']: a
    dictionary, read by its keys [http], [email] and [sms], or a value
    that has no [get]. *)
Inductive logging_attribute :=
| LoggingDict (http email sms : option string)
| LoggingOther.

(** An entry of [Subscriptions] in the answer of
    [list_subscriptions_by_topic]. *)
Record Subscription := mk_subscription {
  SubscriptionArn : option string;
  Protocol : option string;
  Endpoint : option string
}.

(** The SNS client and the two library calls of the module:
    [publish] answers with the [MessageId] of its response, if it has one;
    [get_topic_attributes] with the logging attribute of the topic, if it
    has one; [list_subscriptions_by_topic] with the subscriptions;
    [random.uniform(a, b)]; and [asyncio.sleep] of a float. *)
Class Env (W : Type) := {
  sns_publish : string -> string -> W -> outcome (option string) * W;
  get_topic_attributes : W -> outcome (option logging_attribute) * W;
  list_subscriptions_by_topic : W -> outcome (list Subscription) * W;
  random_uniform : Float.float -> Float.float -> W -> Float.float * W;
  sleep_seconds : Float.float -> W -> unit * W
}.

(** The publisher object: of the retry configuration that [__init__]
    sets, the attributes that the tests change; the base delay 1.0, the
    maximal delay 60.0 and the multiplier 2.0 are the constants below. *)
Record t := mk {
  topic_arn : string;
  max_retries : Z;
  jitter : bool
}.

Definition init (topic_arn : string) : t :=
  {| topic_arn := topic_arn; max_retries := 3; jitter := true |}.

Definition base_delay : Float.float := Float.one.
Definition max_delay : Float.float := Float.of_int 60.
Definition backoff_multiplier : Float.float := Float.of_int 2.

(** [backoff_multiplier ** attempt] for [0 <= attempt < 1024]: the power
    of two, which is exact. *)
Definition backoff_power (attempt : Z) : Float.float := Float.of_int (2 ^ attempt).

(** [max(0, delay)]: the builtin keeps its first argument, the integer 0,
    unless the second compares strictly greater. *)
Definition py_max_0 (delay : Float.float) : Float.float :=
  if Float.ltb Float.zero delay then delay else Float.zero.

(** What [track_delivery_status] returns: the three logging flags, or the
    message of a client error. *)
Inductive delivery_status :=
| Tracked (http email sms : bool)
| TrackingFailed (error : string).

(** What [get_subscription_status] returns. *)
Record SubscriptionInfo := mk_info {
  subscription_arn : option string;
  protocol : option string;
  endpoint : option string;
  confirmed : bool
}.

Inductive subscription_status :=
| Status (total_subscriptions confirmed_subscriptions pending_subscriptions : Z)
         (subscriptions : list SubscriptionInfo)
| StatusFailed (error : string).

(** The loop of [get_subscription_status] over the subscriptions, with
    the two counters and the list so far. *)
Fixpoint count_subscriptions (subs : list Subscription) (confirmed_count pending_count : Z)
         (infos : list SubscriptionInfo) : Z * Z * list SubscriptionInfo :=
  match subs with
  | [] => (confirmed_count, pending_count, infos)
  | sub :: rest =>
      let sub_info :=
        {| subscription_arn := SubscriptionArn sub;
           protocol := Protocol sub;
           endpoint := Endpoint sub;
           confirmed := negb (bool_decide (SubscriptionArn sub = Some "PendingConfirmation")) |} in
      if confirmed sub_info
      then count_subscriptions rest (confirmed_count + 1) pending_count (infos ++ [sub_info])
      else count_subscriptions rest confirmed_count (pending_count + 1) (infos ++ [sub_info])
  end.

Section Methods.
Context {W : Type} `{Runtime W} `{Env W}.

(** [_calculate_retry_delay] *)
Definition _calculate_retry_delay (self : t) (attempt : Z) : M W Float.float :=
  let delay := Float.mul base_delay (backoff_power attempt) in
  let delay := Float.py_min delay max_delay in
  let* delay :=
    (if jitter self then
       let jitter_range := Float.mul delay Float.lit_0_1 in
       let* u := eff (random_uniform (SFopp jitter_range) jitter_range) in
       ret (Float.add delay u)
     else ret delay) in
  ret (py_max_0 delay).

(** [track_delivery_status]: errors of the client are answered inside;
    anything else propagates. *)
Definition track_delivery_status (self : t) (message_id : option string)
  : M W delivery_status :=
  fun w =>
    match get_topic_attributes w with
    | (Returned attributes, w1) =>
        (let* _ := datetime_now_utc in
         match attributes with
         | None => ret (Tracked false false false)
         | Some (LoggingDict http email sms) =>
             let enabled (v : option string) := String.eqb (default "false" v) "true" in
             ret (Tracked (enabled http) (enabled email) (enabled sms))
         | Some LoggingOther =>
             raise (PyException "AttributeError" "object has no attribute 'get'")
         end) w1
    | (BotoError _ message, w1) => (Ok (TrackingFailed message), w1)
    | (OtherError e, w1) => (Raise e, w1)
    end.

(** [log_delivery_attempt] builds a record with the current time and logs
    it; whatever it raises is caught inside. *)
Definition log_delivery_attempt (self : t) : M W unit :=
  let* _ := datetime_now_utc in ret tt.

(** [_publish_with_retry]: the loop [for attempt in range(max_retries + 1)],
    with [remaining] iterations left; leaving the loop returns [False]. *)
Fixpoint _publish_loop (self : t) (message subject : string) (attempt : Z)
         (remaining : nat) : M W bool :=
  match remaining with
  | O => ret false
  | S remaining' =>
      fun w =>
        match sns_publish message subject w with
        | (Returned message_id, w1) =>
            (let* tracked := catch (track_delivery_status self message_id) in
             match tracked with
             | Ok _ => let* _ := log_delivery_attempt self in ret true
             | Raise _ => let* _ := log_delivery_attempt self in ret false
             end) w1
        | (BotoError error_code _, w1) =>
            (let* _ := log_delivery_attempt self in
             if String.eqb error_code "InvalidParameter"
                || String.eqb error_code "AuthorizationError"
                || String.eqb error_code "NotFound"
             then ret false
             else
               let* _ := (if attempt <? max_retries self
                          then let* delay := _calculate_retry_delay self attempt in
                               eff (sleep_seconds delay)
                          else ret tt) in
               _publish_loop self message subject (attempt + 1) remaining') w1
        | (OtherError _, w1) =>
            (let* _ := log_delivery_attempt self in ret false) w1
        end
  end.

Definition _publish_with_retry (self : t) (message subject : string) : M W bool :=
  _publish_loop self message subject 0 (Z.to_nat (max_retries self + 1)).

(** [get_subscription_status] *)
Definition get_subscription_status (self : t) : M W subscription_status :=
  fun w =>
    match list_subscriptions_by_topic w with
    | (Returned subscriptions, w1) =>
        let '(confirmed_count, pending_count, infos) :=
          count_subscriptions subscriptions 0 0 [] in
        (Ok (Status (Z.of_nat (length subscriptions)) confirmed_count pending_count infos), w1)
    | (BotoError _ message, w1) => (Ok (StatusFailed message), w1)
    | (OtherError e, w1) => (Raise e, w1)
    end.

End Methods.

End AWSNSPublisher.

(** ** A scripted SNS client

    The SNS client answers its [n]-th call of [publish] and of
    [get_topic_attributes] as a script says, and [random.uniform] returns
    what the script says; the world counts the calls and records the
    sleeps. *)

Module SNSMock.

Record World := mk_world {
  clock : Z;
  publish_calls : nat;
  attribute_calls : nat;
  uniform_calls : nat;
  sleeps : list Float.float
}.

Record Script := mk_script {
  on_publish : nat -> AWSNSPublisher.outcome (option string);
  on_attributes : nat -> AWSNSPublisher.outcome (option AWSNSPublisher.logging_attribute);
  on_subscriptions : AWSNSPublisher.outcome (list AWSNSPublisher.Subscription);
  on_uniform : nat -> Float.float -> Float.float -> Float.float
}.

Definition runtime : Runtime World := {|
  clock_us := fun w =>
    (clock w, {| clock := clock w + 1000000; publish_calls := publish_calls w;
                 attribute_calls := attribute_calls w; uniform_calls := uniform_calls w;
                 sleeps := sleeps w |});
  local_utcoffset := 0;
  uuid4 := fun w => ("uuid", w);
  time_time := fun w => (Float.of_int (clock w / 1000000), w);
  asyncio_sleep := fun n w => (tt, w)
|}.

Definition env (sc : Script) : AWSNSPublisher.Env World := {|
  AWSNSPublisher.sns_publish := fun _ _ w =>
    (on_publish sc (publish_calls w),
     {| clock := clock w; publish_calls := S (publish_calls w);
        attribute_calls := attribute_calls w; uniform_calls := uniform_calls w;
        sleeps := sleeps w |});
  AWSNSPublisher.get_topic_attributes := fun w =>
    (on_attributes sc (attribute_calls w),
     {| clock := clock w; publish_calls := publish_calls w;
        attribute_calls := S (attribute_calls w); uniform_calls := uniform_calls w;
        sleeps := sleeps w |});
  AWSNSPublisher.list_subscriptions_by_topic := fun w => (on_subscriptions sc, w);
  AWSNSPublisher.random_uniform := fun a b w =>
    (on_uniform sc (uniform_calls w) a b,
     {| clock := clock w; publish_calls := publish_calls w;
        attribute_calls := attribute_calls w; uniform_calls := S (uniform_calls w);
        sleeps := sleeps w |});
  AWSNSPublisher.sleep_seconds := fun d w =>
    (tt, {| clock := clock w; publish_calls := publish_calls w;
            attribute_calls := attribute_calls w; uniform_calls := uniform_calls w;
            sleeps := sleeps w ++ [d] |})
|}.

Definition world0 : World :=
  {| clock := 1793786400000000; publish_calls := 0; attribute_calls := 0;
     uniform_calls := 0; sleeps := [] |}.

(** The client refuses the first two calls of [publish] with a
    throttling error and accepts the third; the topic has no logging
    attribute; [random.uniform] returns its lower bound. *)
Definition throttled_twice : Script :=
  {| on_publish := fun n =>
       match n with
       | 0%nat | 1%nat => AWSNSPublisher.BotoError "Throttling" "Rate exceeded"
       | _ => AWSNSPublisher.Returned (Some "message-1")
       end;
     on_attributes := fun _ => AWSNSPublisher.Returned None;
     on_subscriptions := AWSNSPublisher.Returned [];
     on_uniform := fun _ a _ => a |}.

(** [_publish_with_retry] of the publisher of [__init__] against a script. *)
Definition publish (sc : Script) (w : World) : result bool * World :=
  @AWSNSPublisher._publish_with_retry World runtime (env sc)
    (AWSNSPublisher.init "arn:aws:sns:us-east-1:123456789012:test-topic")
    "message" "subject" w.

End SNSMock.

(** ** Vocabulary of the further statements *)

(** ** [aws_lambda/handler.py]: the methods that [handler] does not call *)

Module LambdaHandlerLegacy.

Import LambdaHandler.

(** [l[:n]] *)
Definition slice_to {A} (n : Z) (l : list A) : list A :=
  if 0 <=? n then take (Z.to_nat n) l
  else take (length l - Z.to_nat (- n)) l.

(** [_is_no_news_scenario]: a score that is zero is falsy. *)
Definition _is_no_news_scenario (articles : list NewsArticle.t) : bool :=
  match articles with
  | [] => true
  | _ =>
      let relevant_articles :=
        List.filter
          (fun article =>
             match NewsArticle.relevance_score article with
             | Some score => negb (Float.is_zero score) && Float.gtb score Float.lit_0_1
             | None => false
             end)
          articles in
      (length relevant_articles =? 0)%nat
  end.

Section Methods.
Context {W : Type} `{Runtime W} `{Services W}.

(** [_should_send_no_news_notification] *)
Definition _should_send_no_news_notification (correlation_id : PyVal.t) : M W bool :=
  ret true.

(** [_fetch_news_articles] *)
Definition _fetch_news_articles (self : t) : M W (list NewsArticle.t) :=
  try_except
    (let* raw_articles :=
       fetch_news (AgentConfig.search_query (config self))
                  (AgentConfig.time_range_hours (config self)) in
     match raw_articles with
     | [] => ret []
     | _ =>
         let* filtered_articles := filter_articles raw_articles in
         let max_articles := AgentConfig.max_articles (config self) in
         ret (if max_articles <? Z.of_nat (length filtered_articles)
              then slice_to max_articles filtered_articles
              else filtered_articles)
     end)
    (fun e => raise (PyException "Exception" ("News fetching failed: " +:+ exn_str e))).

(** [_generate_summary] *)
Definition _generate_summary (articles : list NewsArticle.t) : M W NewsSummary.t :=
  try_except
    (generate_summary articles)
    (fun e => raise (PyException "Exception" ("Summary generation failed: " +:+ exn_str e))).

(** [_publish_summary] *)
Definition _publish_summary (summary : NewsSummary.t) : M W bool :=
  try_except
    (let* success := publish_summary summary in ret success)
    (fun _ => ret false).

(** [_handle_no_news_scenario] *)
Definition _handle_no_news_scenario : M W unit :=
  try_except
    (let* success := send_no_news_notification in ret tt)
    (fun _ => ret tt).

End Methods.

End LambdaHandlerLegacy.

Module Props.

(** No article of the list is followed by one with a strictly higher
    sort key. *)
Fixpoint descending (l : list NewsArticle.t) : Prop :=
  match l with
  | a :: ((b :: _) as r) =>
      Float.ltb (GoogleNewsFetcher.sort_key a) (GoogleNewsFetcher.sort_key b) = false
      /\ descending r
  | _ => True
  end.

(** The article as [filter_articles] scores it, when it passes the
    threshold 0.1. *)
Definition scored_if_relevant (article : NewsArticle.t) : option NewsArticle.t :=
  let article1 := snd (NewsArticle.calculate_relevance_score article None) in
  let (relevant, article2) := NewsArticle.is_relevant article1 Float.lit_0_1 in
  if relevant then Some article2 else None.

(** The errors that [_execute_with_retry] retries: the message names a
    rate limit, throttling, the model or Bedrock. *)
Definition transient (e : exn) : bool :=
  let error_msg := PyStr.lower (exn_str e) in
  PyStr.contains "rate limit" error_msg || PyStr.contains "throttl" error_msg
  || PyStr.contains "model" error_msg || PyStr.contains "bedrock" error_msg.

(** A string without white space at either end. *)
Definition stripped (s : string) : Prop := PyStr.strip s = s.

(** An answer of [publish] after which [_publish_with_retry] goes on to
    the next attempt: a client error whose code is none of the three that
    are not retried. *)
Definition retryable_failure (o : AWSNSPublisher.outcome (option string)) : bool :=
  match o with
  | AWSNSPublisher.BotoError error_code _ =>
      negb (String.eqb error_code "InvalidParameter"
            || String.eqb error_code "AuthorizationError"
            || String.eqb error_code "NotFound")
  | _ => false
  end.

(** An answer of [get_topic_attributes] at which [track_delivery_status]
    raises: an exception that is no client error, or a logging attribute
    that is no dictionary. *)
Definition tracking_raises
           (o : AWSNSPublisher.outcome (option AWSNSPublisher.logging_attribute)) : bool :=
  match o with
  | AWSNSPublisher.OtherError _ => true
  | AWSNSPublisher.Returned (Some AWSNSPublisher.LoggingOther) => true
  | _ => false
  end.

(** A workflow state that [json.dumps] can encode: it holds no article
    and no summary. *)
Definition state_serializable (ws : LambdaHandler.WorkflowState) : bool :=
  match LambdaHandler.articles ws, LambdaHandler.summary ws with
  | [], None => true
  | _, _ => false
  end.

(** What [json.dumps] raises at a workflow state that it cannot encode:
    the articles come before the summary. *)
Definition state_type_error (ws : LambdaHandler.WorkflowState) : exn :=
  match LambdaHandler.articles ws with
  | _ :: _ => PyVal.TypeError "NewsArticle"
  | [] => PyVal.TypeError "NewsSummary"
  end.

End Props.

(** ** Further inputs of the examples *)

Module MoreExamples.

(** The fetcher finds no article and the no-news notification is not
    delivered. *)
Definition no_articles_script : Mock.Script :=
  {| Mock.on_fetch := fun _ => Ok [];
     Mock.on_filter := Mock.on_filter Mock.failing;
     Mock.on_summary := Mock.on_summary Mock.failing;
     Mock.on_publish := Mock.on_publish Mock.failing;
     Mock.on_no_news := fun _ => Ok false;
     Mock.on_get_news := Mock.on_get_news Mock.failing;
     Mock.on_full_article := Mock.on_full_article Mock.failing;
     Mock.on_invoke := Mock.on_invoke Mock.failing |}.

End MoreExamples.

(* ================================================================== *)
(** * Part II.  Properties                                              *)
(* ================================================================== *)

(** ** Strings *)

Section StringFacts.

Lemma str_length_append (a b : string) :
  String.length (a +:+ b) = (String.length a + String.length b)%nat.
Proof. induction a as [|c a IH]; simpl; [reflexivity | now rewrite IH]. Qed.

Lemma str_length_take (n : nat) (s : string) :
  String.length (PyStr.take n s) = Nat.min n (String.length s).
Proof.
  revert s; induction n as [|n IH]; intros [|c s]; simpl; try reflexivity.
  now rewrite IH.
Qed.

Lemma length_replicate_char (n : nat) (c : ascii) :
  String.length (PyStr.replicate_char n c) = n.
Proof. induction n; simpl; congruence. Qed.

End StringFacts.

(** ** The simplified summary of the publishing fallback *)

Section Simplify.
Context {W : Type} `{Runtime W}.

(** The constructor of [NewsSummary] returns normally and changes at
    most the identifier. *)
Lemma NewsSummary_new_fields (s : NewsSummary.t) (w : W) :
  exists s' w',
    NewsSummary.new s w = (Ok s', w')
    /\ NewsSummary.summary s' = NewsSummary.summary s
    /\ NewsSummary.key_points s' = NewsSummary.key_points s
    /\ NewsSummary.sources s' = NewsSummary.sources s
    /\ NewsSummary.generated_at s' = NewsSummary.generated_at s
    /\ NewsSummary.article_count s' = NewsSummary.article_count s
    /\ (forall i, NewsSummary.id s = Some i -> s' = s).
Proof.
  unfold NewsSummary.new. destruct s as [sm kp ss g n [i|]]; simpl.
  - eexists _, _. repeat split; intros; reflexivity.
  - unfold bind, eff, ret. destruct (uuid4 w) as [i w'].
    eexists _, _. repeat split; intros; try reflexivity. discriminate.
Qed.

Lemma simplified_text_length (s : NewsSummary.t) :
  String.length (NewsSummary.summary (LambdaHandler.simplified_fields s)) =
  if (1000 <? String.length (NewsSummary.summary s))%nat then 1003%nat
  else String.length (NewsSummary.summary s).
Proof.
  unfold LambdaHandler.simplified_fields; cbn [NewsSummary.summary].
  destruct (1000 <? _)%nat eqn:E; [|reflexivity].
  apply Nat.ltb_lt in E. rewrite str_length_append, str_length_take.
  change (String.length "...") with 3%nat. lia.
Qed.

(** C5, as amended.  [_create_simplified_summary] returns a summary
    whose key points and sources are the first 5 and the first 10 of the
    input, so never more than the input has; whose narrative is the
    input's when that has at most 1000 characters and otherwise its
    first 1000 characters followed by three dots, so that it is never
    longer than the input unless the input has 1001 or 1002 characters;
    and which keeps the identifier of the input. *)
Theorem simplified_summary_bounds (summary : NewsSummary.t) (w : W) :
  exists s' w',
    LambdaHandler._create_simplified_summary summary w = (Ok s', w')
    /\ NewsSummary.key_points s' = take 5 (NewsSummary.key_points summary)
    /\ NewsSummary.sources s' = take 10 (NewsSummary.sources summary)
    /\ (length (NewsSummary.key_points s') <= length (NewsSummary.key_points summary))%nat
    /\ (length (NewsSummary.sources s') <= length (NewsSummary.sources summary))%nat
    /\ NewsSummary.summary s' =
         (if (1000 <? String.length (NewsSummary.summary summary))%nat
          then PyStr.take 1000 (NewsSummary.summary summary) +:+ "..."
          else NewsSummary.summary summary)
    /\ (String.length (NewsSummary.summary s') <= 1003)%nat
    /\ (String.length (NewsSummary.summary summary) <> 1001%nat ->
        String.length (NewsSummary.summary summary) <> 1002%nat ->
        (String.length (NewsSummary.summary s')
         <= String.length (NewsSummary.summary summary))%nat)
    /\ (forall i, NewsSummary.id summary = Some i -> NewsSummary.id s' = Some i).
Proof.
  unfold LambdaHandler._create_simplified_summary.
  destruct (NewsSummary_new_fields (LambdaHandler.simplified_fields summary) w)
    as (s' & w' & Hrun & Hs & Hk & Hsrc & _ & _ & Hid).
  exists s', w'. split; [exact Hrun|].
  pose proof (simplified_text_length summary) as Hlen.
  rewrite Hk, Hsrc, Hs. simpl.
  repeat split.
  - rewrite length_take. lia.
  - rewrite length_take. lia.
  - simpl in Hlen. rewrite Hlen. destruct (1000 <? _)%nat eqn:E; [lia|].
    apply Nat.ltb_ge in E. lia.
  - intros H1 H2. simpl in Hlen. rewrite Hlen. destruct (1000 <? _)%nat eqn:E; [|lia].
    apply Nat.ltb_lt in E. lia.
  - intros i Hi. rewrite (Hid i); [exact Hi|]. exact Hi.
Qed.

End Simplify.

(** C5, counterexample: the narrative of the simplified summary is longer
    than the narrative of the input. *)
Lemma simplified_summary_longer :
  match fst (@LambdaHandler._create_simplified_summary Mock.World Mock.runtime
               Examples.summary_1001 Mock.world0) with
  | Ok s' =>
      String.length (NewsSummary.summary Examples.summary_1001) = 1001%nat
      /\ String.length (NewsSummary.summary s') = 1003%nat
  | Raise _ => False
  end.
Proof. vm_compute. split; reflexivity. Qed.

(** ** Removing duplicates *)

Section Dedupe.

Lemma is_duplicate_same_url (a e : NewsArticle.t) :
  NewsArticle.url a = NewsArticle.url e -> NewsArticle.is_duplicate a e = true.
Proof.
  intros E. unfold NewsArticle.is_duplicate. rewrite E, String.eqb_refl. reflexivity.
Qed.

Lemma seen_url_duplicates (kept : list NewsArticle.t) (a : NewsArticle.t) :
  NewsArticle.url a ∈ Spec.urls_of kept -> Spec.duplicates kept a = true.
Proof.
  unfold Spec.urls_of, Spec.duplicates. rewrite elem_of_list_to_set, list_elem_of_fmap.
  intros (e & Hu & He). apply existsb_exists. exists e. split.
  - now apply list_elem_of_In.
  - now apply is_duplicate_same_url.
Qed.

Lemma urls_of_snoc (kept : list NewsArticle.t) (a : NewsArticle.t) :
  Spec.urls_of (kept ++ [a]) = {[ NewsArticle.url a ]} ∪ Spec.urls_of kept.
Proof.
  unfold Spec.urls_of. rewrite map_app, list_to_set_app_L. simpl.
  rewrite (right_id_L ∅ (∪)). apply (comm_L (∪)).
Qed.

(** The loop of the source, with its set of seen URLs, scans the input
    with [Spec.dedupe_step]. *)
Lemma remove_duplicates_loop_fold (l kept : list NewsArticle.t) :
  GoogleNewsFetcher._remove_duplicates_loop l kept (Spec.urls_of kept)
  = foldl Spec.dedupe_step kept l.
Proof.
  revert kept. induction l as [|a l IH]; intros kept; simpl; [reflexivity|].
  unfold Spec.dedupe_step at 2.
  case_bool_decide as Hseen.
  - rewrite (seen_url_duplicates _ _ Hseen). apply IH.
  - fold (Spec.duplicates kept a). destruct (Spec.duplicates kept a).
    + apply IH.
    + rewrite <- urls_of_snoc. apply IH.
Qed.

Lemma remove_duplicates_fold (l : list NewsArticle.t) :
  GoogleNewsFetcher._remove_duplicates l = foldl Spec.dedupe_step [] l.
Proof. apply (remove_duplicates_loop_fold l []). Qed.

Lemma fold_dedupe_app (l1 l2 kept : list NewsArticle.t) :
  foldl Spec.dedupe_step kept (l1 ++ l2)
  = foldl Spec.dedupe_step (foldl Spec.dedupe_step kept l1) l2.
Proof. apply foldl_app. Qed.

Lemma fold_dedupe_extends (l kept : list NewsArticle.t) :
  exists r, foldl Spec.dedupe_step kept l = kept ++ r /\ r `sublist_of` l.
Proof.
  revert kept. induction l as [|a l IH]; intros kept; simpl.
  - exists []. rewrite app_nil_r. split; [reflexivity | constructor].
  - unfold Spec.dedupe_step at 2. destruct (Spec.duplicates kept a).
    + destruct (IH kept) as (r & -> & Hr). exists r. split; [reflexivity|].
      now apply sublist_cons.
    + destruct (IH (kept ++ [a])) as (r & -> & Hr). exists (a :: r).
      rewrite <- app_assoc. split; [reflexivity|]. now apply sublist_skip.
Qed.

Lemma dedupe_step_distinct (kept : list NewsArticle.t) (a : NewsArticle.t) :
  Spec.pairwise_distinct kept -> Spec.pairwise_distinct (Spec.dedupe_step kept a).
Proof.
  intros Hk. unfold Spec.dedupe_step. destruct (Spec.duplicates kept a) eqn:Hd; [exact Hk|].
  intros l1 x l2. destruct l2 as [|y l2 _] using rev_ind; intros E.
  - apply app_inj_tail in E as [-> ->]. exact Hd.
  - change (l1 ++ x :: l2 ++ [y]) with (l1 ++ (x :: l2) ++ [y]) in E.
    rewrite app_assoc in E. apply app_inj_tail in E as [E _].
    apply (Hk l1 x l2 E).
Qed.

Lemma fold_dedupe_distinct (l kept : list NewsArticle.t) :
  Spec.pairwise_distinct kept -> Spec.pairwise_distinct (foldl Spec.dedupe_step kept l).
Proof.
  revert kept. induction l as [|a l IH]; intros kept Hk; simpl; [exact Hk|].
  apply IH. now apply dedupe_step_distinct.
Qed.

Lemma fold_dedupe_fixed (l kept : list NewsArticle.t) :
  Spec.pairwise_distinct (kept ++ l) -> foldl Spec.dedupe_step kept l = kept ++ l.
Proof.
  revert kept. induction l as [|a l IH]; intros kept Hd; simpl.
  - now rewrite app_nil_r.
  - unfold Spec.dedupe_step at 2. rewrite (Hd kept a l eq_refl).
    rewrite IH; rewrite <- app_assoc; [reflexivity | exact Hd].
Qed.

Lemma pairwise_distinct_nil : Spec.pairwise_distinct [].
Proof. intros l1 a l2 E. destruct l1; discriminate. Qed.

(** C7.  [_remove_duplicates] is idempotent, never lengthens the list,
    and keeps the input order with the first occurrence winning: its
    result is a sublist of the input, and, scanning the input from the
    left, an article is kept exactly when it duplicates none of the
    articles kept before it, which all stay in the result. *)
Theorem remove_duplicates_idempotent_ordered (L : list NewsArticle.t) :
  let dedupe := GoogleNewsFetcher._remove_duplicates in
  dedupe (dedupe L) = dedupe L
  /\ (length (dedupe L) <= length L)%nat
  /\ dedupe L `sublist_of` L
  /\ (forall l1 a l2, L = l1 ++ a :: l2 ->
        dedupe (l1 ++ [a]) =
          (if Spec.duplicates (dedupe l1) a then dedupe l1 else dedupe l1 ++ [a])
        /\ dedupe (l1 ++ [a]) `prefix_of` dedupe L).
Proof.
  cbv zeta. rewrite !remove_duplicates_fold.
  destruct (fold_dedupe_extends L []) as (r & Hr & Hsub). simpl in Hr.
  repeat split.
  - apply (fold_dedupe_fixed _ []). simpl.
    apply fold_dedupe_distinct, pairwise_distinct_nil.
  - rewrite Hr. now apply sublist_length.
  - rewrite Hr. exact Hsub.
  - rewrite !remove_duplicates_fold, fold_dedupe_app. reflexivity.
  - subst L. rewrite !remove_duplicates_fold.
    change (l1 ++ a :: l2) with (l1 ++ [a] ++ l2). rewrite app_assoc.
    rewrite (fold_dedupe_app (l1 ++ [a]) l2).
    destruct (fold_dedupe_extends l2 (foldl Spec.dedupe_step [] (l1 ++ [a])))
      as (r' & -> & _).
    now apply prefix_app_r.
Qed.

End Dedupe.

(** ** Binary64 arithmetic on counts *)

Section FloatFacts.

Lemma iter_pos_invariant {A} (P : A -> Prop) (f : A -> A) :
  (forall x, P x -> P (f x)) -> forall n x, P x -> P (SpecFloat.iter_pos f n x).
Proof.
  intros Hf. induction n as [n IH|n IH|]; intros x Hx; simpl; auto.
Qed.

Lemma shr_1_nonneg mrs : 0 <= shr_m mrs -> 0 <= shr_m (shr_1 mrs).
Proof.
  destruct mrs as [m r s]. simpl. destruct m as [|[p|p|]|[p|p|]]; simpl; lia.
Qed.

Lemma shr_nonneg mrs e n : 0 <= shr_m mrs -> 0 <= shr_m (fst (shr mrs e n)).
Proof.
  intros Hm. unfold shr. destruct n; simpl; auto.
  apply (iter_pos_invariant (fun r => 0 <= shr_m r)); auto using shr_1_nonneg.
Qed.

Lemma shr_record_of_loc_m m l : shr_m (shr_record_of_loc m l) = m.
Proof. destruct l as [|[]]; reflexivity. Qed.

Lemma round_nearest_even_nonneg m l : 0 <= m -> 0 <= round_nearest_even m l.
Proof.
  intros Hm. unfold round_nearest_even. destruct l as [|[]]; try lia.
  destruct (Z.even m); lia.
Qed.

(** Rounding a non-negative mantissa with the positive sign gives a
    non-negative value. *)
Lemma binary_round_aux_nonneg m e l :
  0 <= m -> Spec.nonneg (binary_round_aux Float.prec Float.emax false m e l) = true.
Proof.
  intros Hm. unfold binary_round_aux, shr_fexp.
  pose proof (shr_nonneg (shr_record_of_loc m l) e
                (fexp Float.prec Float.emax (Zdigits2 m + e) - e)) as H1.
  rewrite shr_record_of_loc_m in H1. specialize (H1 Hm).
  destruct (shr (shr_record_of_loc m l) e _) as [mrs' e']. simpl in H1.
  set (m1 := round_nearest_even (shr_m mrs') (loc_of_shr_record mrs')).
  assert (0 <= m1) as Hm1 by (apply round_nearest_even_nonneg; exact H1).
  pose proof (shr_nonneg (shr_record_of_loc m1 loc_Exact) e'
                (fexp Float.prec Float.emax (Zdigits2 m1 + e') - e')) as H2.
  rewrite shr_record_of_loc_m in H2. specialize (H2 Hm1).
  destruct (shr (shr_record_of_loc m1 loc_Exact) e' _) as [mrs'' e'']. simpl in H2.
  destruct (shr_m mrs'') as [|p|p]; try reflexivity; [|lia].
  destruct (e'' <=? Float.emax - Float.prec); reflexivity.
Qed.

Lemma digits2_pos_size p : digits2_pos p = Pos.size p.
Proof. induction p; simpl; congruence. Qed.

Lemma digits2_pos_shift p d :
  digits2_pos (Pos.iter xO p d) = (digits2_pos p + d)%positive.
Proof.
  induction d as [|d IH] using Pos.peano_ind.
  - simpl. now rewrite Pos.add_1_r.
  - rewrite Pos.iter_succ. simpl. rewrite IH. now rewrite Pos.add_succ_r.
Qed.

Lemma digits2_pos_bound p : Z.pos p < 2 ^ 53 -> Z.pos (digits2_pos p) <= 53.
Proof.
  intros Hp. rewrite digits2_pos_size.
  pose proof (Pos.size_le p) as Hle.
  assert (2 ^ Z.pos (Pos.size p) <= 2 * Z.pos p) as H2.
  { rewrite <- Pos2Z.inj_pow. change (2 * Z.pos p) with (Z.pos p~0).
    apply Pos2Z.pos_le_pos. exact Hle. }
  assert (2 ^ Z.pos (Pos.size p) < 2 ^ 54) as H3 by (change (2 ^ 54) with (2 * 2 ^ 53); lia).
  apply Z.pow_lt_mono_r_iff in H3; lia.
Qed.

(** A mantissa of 53 bits with an exponent in range is its own rounding. *)
Lemma binary_round_aux_exact m e :
  digits2_pos m = 53%positive -> -1074 <= e <= 971 ->
  binary_round_aux Float.prec Float.emax false (Z.pos m) e loc_Exact
  = S754_finite false m e.
Proof.
  intros Hd He. unfold binary_round_aux, shr_fexp. cbn [Zdigits2 shr_record_of_loc].
  rewrite Hd.
  assert (fexp Float.prec Float.emax (53 + e) - e = 0) as ->.
  { unfold fexp, emin, Float.prec, Float.emax. lia. }
  cbn [shr loc_of_shr_record shr_m round_nearest_even Zdigits2 shr_record_of_loc].
  rewrite Hd.
  assert (fexp Float.prec Float.emax (53 + e) - e = 0) as ->.
  { unfold fexp, emin, Float.prec, Float.emax. lia. }
  cbn [shr shr_m].
  assert ((e <=? Float.emax - Float.prec) = true) as ->.
  { apply Z.leb_le. unfold Float.prec, Float.emax. lia. }
  reflexivity.
Qed.

(** The conversion of a positive integer below [2^53] is finite and
    positive. *)
Lemma of_int_pos_finite n :
  0 < n < 2 ^ 53 -> exists m e, Float.of_int n = S754_finite false m e.
Proof.
  intros [Hpos Hlt]. destruct n as [|p|p]; try lia.
  pose proof (digits2_pos_bound p Hlt) as Hd.
  unfold Float.of_int, binary_normalize, binary_round.
  assert (fexp Float.prec Float.emax (Z.pos (digits2_pos p) + 0)
          = Z.pos (digits2_pos p) - 53) as ->.
  { unfold fexp, emin, Float.prec, Float.emax. lia. }
  unfold shl_align.
  destruct (Z.pos (digits2_pos p) - 53 - 0) as [|d|d] eqn:Ed; try lia.
  - eexists _, _. apply binary_round_aux_exact; [|lia].
    apply Pos2Z.inj. lia.
  - eexists _, _. apply binary_round_aux_exact; [|lia].
    rewrite digits2_pos_shift. apply Pos2Z.inj. rewrite Pos2Z.inj_add. lia.
Qed.

Lemma of_int_nonneg_shape n :
  0 <= n < 2 ^ 53 ->
  Float.of_int n = S754_zero false \/ exists m e, Float.of_int n = S754_finite false m e.
Proof.
  intros [H0 Hlt]. destruct (Z.eq_dec n 0) as [->|Hn].
  - left. reflexivity.
  - right. apply of_int_pos_finite. lia.
Qed.

Lemma div_finite_nonneg mx ex my ey :
  Spec.nonneg (Float.div (S754_finite false mx ex) (S754_finite false my ey)) = true.
Proof.
  unfold Float.div, SFdiv, SFdiv_core_binary. cbn [xorb].
  set (s := ex - ey - _).
  set (m' := match s with Z.pos _ => Z.shiftl (Z.pos mx) s | 0 => Z.pos mx | Z.neg _ => 0 end).
  assert (0 <= m') as Hm'.
  { subst m'. destruct s; try lia. apply Z.shiftl_nonneg. lia. }
  pose proof (Z.div_pos m' (Z.pos my) Hm' ltac:(lia)) as Hq.
  unfold Z.div in Hq. destruct (Z.div_eucl m' (Z.pos my)) as [q r].
  apply binary_round_aux_nonneg. exact Hq.
Qed.

(** The quotient of two counts, the divisor positive, is non-negative. *)
Lemma truediv_nonneg a b :
  0 <= a < 2 ^ 53 -> 0 < b < 2 ^ 53 -> Spec.nonneg (Float.truediv a b) = true.
Proof.
  intros Ha Hb. unfold Float.truediv.
  destruct (of_int_pos_finite b Hb) as (my & ey & ->).
  destruct (of_int_nonneg_shape a Ha) as [-> | (mx & ex & ->)].
  - reflexivity.
  - apply div_finite_nonneg.
Qed.

Lemma mul_lit_nonneg x :
  Spec.nonneg x = true -> Spec.nonneg (Float.mul x Float.lit_0_3) = true.
Proof.
  destruct x as [[]|[]| |[] m e]; simpl; intros Hx; try discriminate; try reflexivity.
  apply binary_round_aux_nonneg. lia.
Qed.

Lemma add_nonneg x y :
  Spec.nonneg x = true -> Spec.nonneg y = true -> Spec.nonneg (Float.add x y) = true.
Proof.
  destruct x as [[]|[]| |[] mx ex]; destruct y as [[]|[]| |[] my ey];
    simpl; intros Hx Hy; try discriminate; try reflexivity.
  unfold binary_normalize. cbn [cond_Zopp].
  destruct (shl_align mx ex (Z.min ex ey)) as [ax ?].
  destruct (shl_align my ey (Z.min ex ey)) as [ay ?]. simpl.
  unfold binary_round.
  destruct (shl_align _ _ _) as [mz ez].
  apply binary_round_aux_nonneg. lia.
Qed.

Lemma leb_zero_nonneg x : Spec.nonneg x = true -> Float.leb Float.zero x = true.
Proof. destruct x as [[]|[]| |[] m e]; simpl; intros Hx; try discriminate; reflexivity. Qed.

Lemma compare_finite_antisym m1 e1 m2 e2 :
  SFcompare (S754_finite false m1 e1) (S754_finite false m2 e2)
  = Some (CompOpp (match SFcompare (S754_finite false m2 e2) (S754_finite false m1 e1) with
                   | Some c => c
                   | None => Eq
                   end)).
Proof.
  simpl. rewrite (Z.compare_antisym e2 e1).
  destruct (e2 ?= e1); simpl; try reflexivity.
  f_equal. symmetry. apply (Pos.compare_cont_antisym m2 m1 Eq).
Qed.

(** [min(s, 1.0)] of a non-negative [s] lies in [[0.0, 1.0]]. *)
Lemma py_min_one_range s :
  Spec.nonneg s = true ->
  Float.leb Float.zero (Float.py_min s Float.one) = true
  /\ Float.leb (Float.py_min s Float.one) Float.one = true.
Proof.
  intros Hs. unfold Float.py_min.
  destruct (Float.ltb Float.one s) eqn:Hlt.
  - split; reflexivity.
  - split; [now apply leb_zero_nonneg|].
    destruct s as [[]|[]| |[] m e]; try discriminate; try reflexivity.
    unfold Float.ltb, SFltb, Float.one in Hlt.
    unfold Float.leb, SFleb, Float.one.
    rewrite compare_finite_antisym.
    destruct (SFcompare (S754_finite false 4503599627370496 (-52)) (S754_finite false m e))
      as [[]|]; simpl in *; try reflexivity; try discriminate.
Qed.

End FloatFacts.

(** ** The relevance score *)

Section Relevance.

Lemma count_matches_filter (V : list string) (text : string) :
  NewsArticle.count_matches V text
  = Z.of_nat (length (List.filter (fun k => PyStr.contains (PyStr.lower k) text) V)).
Proof.
  induction V as [|k V IH]; simpl; [reflexivity|].
  rewrite IH. destruct (PyStr.contains (PyStr.lower k) text); simpl length; lia.
Qed.

Lemma filter_length_le {A} (f : A -> bool) (l : list A) :
  (length (List.filter f l) <= length l)%nat.
Proof. induction l as [|x l IH]; simpl; [lia|]. destruct (f x); simpl; lia. Qed.

(** The score is computed from the title and the content alone: the
    score stored by an earlier call does not enter it. *)
Lemma score_ignores_stored_score (a : NewsArticle.t) (s : option Float.float)
      (keywords : option (list string)) :
  NewsArticle.calculate_relevance_score (NewsArticle.set_relevance_score a s) keywords
  = (fst (NewsArticle.calculate_relevance_score a keywords),
     NewsArticle.set_relevance_score a
       (Some (fst (NewsArticle.calculate_relevance_score a keywords)))).
Proof. destruct a. reflexivity. Qed.

(** C6.  For a non-empty vocabulary [V] (of a length that a list can
    have), [calculate_relevance_score] returns
    [min(matches/|V| + (titleMatches/|V|) * 0.3, 1.0)], where [matches]
    counts the terms of [V] that occur case-insensitively in the title
    and body and [titleMatches] those that occur in the title; the
    result lies between 0.0 and 1.0; and a second call with the same
    vocabulary returns the same value. *)
Theorem relevance_score_formula_range (a : NewsArticle.t) (V : list string) :
  V <> [] -> Z.of_nat (length V) < 2 ^ 53 ->
  let score := fst (NewsArticle.calculate_relevance_score a (Some V)) in
  let a' := snd (NewsArticle.calculate_relevance_score a (Some V)) in
  score = Spec.score_formula V a
  /\ Float.leb Float.zero score = true
  /\ Float.leb score Float.one = true
  /\ NewsArticle.relevance_score a' = Some score
  /\ NewsArticle.calculate_relevance_score a' (Some V) = (score, a').
Proof.
  intros Hne Hlen. cbv zeta.
  assert (0 < Z.of_nat (length V)) as Hpos by (destruct V; [congruence | simpl; lia]).
  assert (NewsArticle.calculate_relevance_score a (Some V)
          = (Spec.score_formula V a,
             NewsArticle.set_relevance_score a (Some (Spec.score_formula V a)))) as Hrun.
  { unfold NewsArticle.calculate_relevance_score, Spec.score_formula,
      Spec.matches, Spec.title_matches, Spec.occurs_in.
    rewrite !count_matches_filter.
    apply Z.ltb_lt in Hpos. rewrite Hpos. reflexivity. }
  rewrite Hrun. cbn [fst snd].
  split; [reflexivity|].
  assert (Spec.nonneg (Float.add
            (Float.truediv (Spec.matches V a) (Z.of_nat (length V)))
            (Float.mul (Float.truediv (Spec.title_matches V a) (Z.of_nat (length V)))
                       Float.lit_0_3)) = true) as Hnn.
  { pose proof (filter_length_le
                  (Spec.occurs_in (NewsArticle.title a +:+ " " +:+ NewsArticle.content a)) V).
    pose proof (filter_length_le (Spec.occurs_in (NewsArticle.title a)) V).
    apply add_nonneg; [|apply mul_lit_nonneg];
      apply truediv_nonneg; unfold Spec.matches, Spec.title_matches; lia. }
  destruct (py_min_one_range _ Hnn) as [Hlo Hhi].
  split; [exact Hlo|]. split; [exact Hhi|]. split; [reflexivity|].
  rewrite score_ignores_stored_score, Hrun. reflexivity.
Qed.

End Relevance.

(** ** The summarizer *)

Section Summarizer.
Context {W : Type} `{Runtime W} `{StrandsAISummarizer.Agent W}.

(** The built-in fallback works on the articles alone and returns. *)
Lemma fallback_summary_returns (self : StrandsAISummarizer.t)
      (articles : list NewsArticle.t) (w : W) :
  exists s w', StrandsAISummarizer._fallback_summary_generation self articles w = (Ok s, w').
Proof.
  unfold StrandsAISummarizer._fallback_summary_generation, datetime_now_utc, bind, eff.
  destruct (clock_us w) as [t w1].
  match goal with |- context [NewsSummary.new ?x w1] =>
    destruct (NewsSummary_new_fields x w1) as (s & w' & Hrun & _) end.
  exists s, w'. exact Hrun.
Qed.

(** C10.  With the agent initialized and a non-empty list of articles,
    [generate_summary] returns a summary and does not raise: whatever
    the [try] block raises (from the summarization or from the
    extraction of key points) is answered by the fallback method, so
    that [generate_summary] can only raise what that fallback raises,
    and the built-in fallback raises nothing.  A handler that uses this
    summarizer then gets its summary from it and never reaches the
    [SUMMARIZATION_ERROR] of [_generate_summary_with_recovery]. *)
Theorem generate_summary_returns (self : StrandsAISummarizer.t)
        (articles : list NewsArticle.t) (w : W) :
  StrandsAISummarizer.agent self = true -> articles <> [] ->
  (forall fallback,
      StrandsAISummarizer.generate_summary_with fallback self articles w =
      match StrandsAISummarizer.primary_summary self articles w with
      | (Ok s, w') => (Ok s, w')
      | (Raise _, w') => fallback self articles w'
      end)
  /\ (forall fallback e w',
        StrandsAISummarizer.generate_summary_with fallback self articles w = (Raise e, w') ->
        exists w1, fallback self articles w1 = (Raise e, w'))
  /\ (exists s w', StrandsAISummarizer.generate_summary self articles w = (Ok s, w'))
  /\ (forall (svc : LambdaHandler.Services W) (correlation_id : PyVal.t),
        @LambdaHandler.generate_summary W svc
          = StrandsAISummarizer.generate_summary self ->
        LambdaHandler._generate_summary_with_recovery articles correlation_id w
          = StrandsAISummarizer.generate_summary self articles w).
Proof.
  intros Hagent Hne.
  assert (forall fallback,
      StrandsAISummarizer.generate_summary_with fallback self articles w =
      match StrandsAISummarizer.primary_summary self articles w with
      | (Ok s, w') => (Ok s, w')
      | (Raise _, w') => fallback self articles w'
      end) as Hgen.
  { intros fallback. unfold StrandsAISummarizer.generate_summary_with.
    destruct articles as [|a l]; [congruence|]. rewrite Hagent. reflexivity. }
  assert (exists s w', StrandsAISummarizer.generate_summary self articles w = (Ok s, w'))
    as Hret.
  { unfold StrandsAISummarizer.generate_summary. rewrite Hgen.
    destruct (StrandsAISummarizer.primary_summary self articles w) as [[s|e] w'].
    - now exists s, w'.
    - apply fallback_summary_returns. }
  split; [exact Hgen|]. split; [|split; [exact Hret|]].
  - intros fallback e w' Hraise. rewrite Hgen in Hraise.
    destruct (StrandsAISummarizer.primary_summary self articles w) as [[s|e1] w1].
    + discriminate.
    + now exists w1.
  - intros svc cid Hsvc. destruct Hret as (s & w' & Hs).
    unfold LambdaHandler._generate_summary_with_recovery, try_except.
    rewrite Hsvc, Hs. reflexivity.
Qed.

End Summarizer.

(** ** The fetcher's record of processed URLs *)

(** Unfolding of the monad's operations at a given world. *)
Ltac run_step :=
  unfold bind, catch, try_except, in_world, get_self, put_self, ret, raise, eff, of_result;
  cbn [fst snd].

Ltac run_step_in H :=
  unfold bind, catch, try_except, in_world, get_self, put_self, ret, raise, eff, of_result in H;
  cbn [fst snd] in H.

Section Fetcher.
Context {W : Type} `{Runtime W} `{GoogleNewsFetcher.GNews W} `{PyLib}.

Import GoogleNewsFetcher.

Lemma set_time_period_frame (hours : Z) (self : t) (w : W) :
  exists self', _set_time_period hours (self, w) = (Ok tt, (self', w))
                /\ _processed_urls self' = _processed_urls self.
Proof. unfold _set_time_period. run_step. eexists. split; reflexivity. Qed.

(** The retry loop over the search reads the fetcher and leaves it as
    it is. *)
Lemma fetch_with_retry_loop_frame (query : string) (max_retries : Z) (remaining : nat) :
  forall (attempt : Z) (self : t) (w : W),
    fst (snd (_fetch_with_retry_loop query max_retries attempt remaining (self, w))) = self.
Proof.
  induction remaining as [|n IH]; intros attempt self w; simpl; [reflexivity|].
  run_step. destruct (get_news query (period self) w) as [[[|x l]|e] w1]; run_step.
  - apply IH.
  - reflexivity.
  - destruct (attempt =? max_retries - 1); run_step; [reflexivity|].
    destruct (asyncio_sleep (2 ^ attempt) w1) as [u w2]. apply IH.
Qed.

(** One raw item: it adds at most the URL of the article it yields,
    and it yields an article only for a URL not processed before. *)
Lemma convert_one_urls (cutoff : datetime) (raw : RawArticle) (self : t) (w : W) :
  exists r self' w',
    convert_one cutoff raw (self, w) = (Ok r, (self', w'))
    /\ match r with
       | Some a => (NewsArticle.url a ∉ _processed_urls self)
                   /\ _processed_urls self' = {[ NewsArticle.url a ]} ∪ _processed_urls self
       | None => self' = self
       end.
Proof.
  unfold convert_one. run_step.
  destruct (_create_news_article raw w) as [[[a|]|e] w1]; run_step;
    try (eexists None, _, _; split; reflexivity).
  destruct (datetime_le (NewsArticle.published_at a) cutoff) as [[|]|e]; run_step;
    try (eexists None, _, _; split; reflexivity).
  case_bool_decide as Hin; [eexists None, _, _; split; reflexivity|].
  eexists (Some a), _, _. split; [reflexivity|]. split; [exact Hin | reflexivity].
Qed.

(** The decision on an article inside the time window: it is dropped
    exactly when its URL is among the processed URLs of the fetcher. *)
Lemma convert_one_decision (cutoff : datetime) (raw : RawArticle) (self : t) (w w1 : W)
      (a : NewsArticle.t) :
  _create_news_article raw w = (Ok (Some a), w1) ->
  datetime_le (NewsArticle.published_at a) cutoff = Ok false ->
  convert_one cutoff raw (self, w) =
    if bool_decide (NewsArticle.url a ∈ _processed_urls self)
    then (Ok None, (self, w1))
    else (Ok (Some a), (add_processed_url self (NewsArticle.url a), w1)).
Proof.
  intros Hc Hle. unfold convert_one. run_step. rewrite Hc. run_step. rewrite Hle. run_step.
  case_bool_decide; reflexivity.
Qed.

Lemma convert_loop_urls (cutoff : datetime) (raws : list RawArticle) :
  forall (self : t) (w : W),
  exists articles self' w',
    convert_loop cutoff raws (self, w) = (Ok articles, (self', w'))
    /\ _processed_urls self' = Spec.urls_of articles ∪ _processed_urls self
    /\ (forall a, a ∈ articles -> NewsArticle.url a ∉ _processed_urls self).
Proof.
  induction raws as [|raw raws IH]; intros self w; simpl.
  - exists [], self, w. run_step. unfold Spec.urls_of. simpl.
    split; [reflexivity|]. split; [now rewrite (left_id_L ∅ (∪)) | intros a Ha; inversion Ha].
  - destruct (convert_one_urls cutoff raw self w) as (r & self1 & w1 & Hone & Hr).
    destruct (IH self1 w1) as (articles & self2 & w2 & Hloop & Hurls & Hfresh).
    unfold bind at 1. rewrite Hone. unfold bind at 1. rewrite Hloop. unfold ret.
    destruct r as [a|].
    + destruct Hr as [Hnew Hadd].
      exists (a :: articles), self2, w2. split; [reflexivity|]. split.
      * rewrite Hurls, Hadd. unfold Spec.urls_of. simpl.
        rewrite (assoc_L (∪)). f_equal. apply (comm_L (∪)).
      * intros b Hb. apply elem_of_cons in Hb as [->|Hb]; [exact Hnew|].
        specialize (Hfresh b Hb). rewrite Hadd in Hfresh.
        intros Hin. apply Hfresh. apply elem_of_union_r. exact Hin.
    + subst self1. exists articles, self2, w2. split; [reflexivity|]. split; assumption.
Qed.

(** C8, as amended.  A raw item that yields an article inside the time
    window is discarded as a URL-duplicate exactly when its URL is in
    the fetcher's set of processed URLs.  That set is empty when the
    fetcher is created, [fetch_news] only ever adds to it, and it holds
    the URL of every article a call returns: it is kept from one call to
    the next on the same instance, and a call returns no article whose
    URL was processed by an earlier call. *)
Theorem processed_urls_persist :
  (forall language country max_results,
      _processed_urls (init language country max_results) = ∅)
  /\ (forall cutoff raw self w w1 a,
        _create_news_article raw w = (Ok (Some a), w1) ->
        datetime_le (NewsArticle.published_at a) cutoff = Ok false ->
        convert_one cutoff raw (self, w) =
          if bool_decide (NewsArticle.url a ∈ _processed_urls self)
          then (Ok None, (self, w1))
          else (Ok (Some a), (add_processed_url self (NewsArticle.url a), w1)))
  /\ (forall query hours self (w : W) r self' w',
        fetch_news query hours (self, w) = (r, (self', w')) ->
        _processed_urls self ⊆ _processed_urls self'
        /\ (forall articles a, r = Ok articles -> a ∈ articles ->
              (NewsArticle.url a ∉ _processed_urls self)
              /\ NewsArticle.url a ∈ _processed_urls self')).
Proof.
  split; [reflexivity|]. split; [apply convert_one_decision|].
  intros query hours self w r self' w' Hrun.
  unfold fetch_news in Hrun.
  destruct (set_time_period_frame hours self w) as (self1 & Hset & Hurls1).
  unfold bind at 1 in Hrun. rewrite Hset in Hrun. unfold bind at 1 in Hrun.
  pose proof (fetch_with_retry_loop_frame query 3 3 0 self1 w) as Hframe.
  unfold _fetch_with_retry in Hrun. change (Z.of_nat 3) with 3 in Hrun.
  destruct (_fetch_with_retry_loop query 3 0 3 (self1, w)) as [[raws|e] [self2 w2]].
  - cbn [fst snd] in Hframe. subst self2.
    destruct raws as [|raw raws].
    + run_step_in Hrun. injection Hrun as <- <- <-. rewrite Hurls1. split; [reflexivity|].
      intros articles a [= <-] Ha. inversion Ha.
    + unfold _convert_to_news_articles, datetime_now, in_world, eff, of_result, bind in Hrun.
      cbn [fst snd] in Hrun. destruct (clock_us w2) as [now w3].
      destruct (datetime_sub_hours _ hours) as [cutoff|overflow].
      * destruct (convert_loop_urls cutoff (raw :: raws) self1 w3)
          as (articles & self3 & w4 & Hloop & Hurls & Hfresh).
        rewrite Hloop in Hrun.
        injection Hrun as <- <- <-. rewrite Hurls, Hurls1. split.
        -- apply union_subseteq_r.
        -- intros articles' a [= <-] Ha. split.
           ++ rewrite <- Hurls1. now apply Hfresh.
           ++ apply elem_of_union_l. unfold Spec.urls_of.
              apply elem_of_list_to_set, list_elem_of_fmap. now exists a.
      * injection Hrun as <- <- <-. rewrite Hurls1. split; [reflexivity|].
        intros articles a Hr. discriminate.
  - cbn [fst snd] in Hframe. subst self2. run_step_in Hrun. injection Hrun as <- <- <-.
    rewrite Hurls1. split; [reflexivity|]. intros articles a Hr. discriminate.
Qed.

End Fetcher.

(** C8, counterexample: two calls of [fetch_news] on one fetcher, the
    news client returning the same item both times.  The first call
    returns the article; the second call discards the item for its URL,
    seen in the first call, and returns nothing, while a fresh fetcher
    returns the article at that point. *)
Lemma processed_urls_discard_across_calls :
  match Examples.fetch_with Examples.same_item_script (Examples.fresh_fetcher, Mock.world0) with
  | (Ok [a], (fetcher1, w1)) =>
      NewsArticle.url a = "https://example.com/same-url"
      /\ fst (Examples.fetch_with Examples.same_item_script (fetcher1, w1)) = Ok []
      /\ (exists b, fst (Examples.fetch_with Examples.same_item_script
                           (Examples.fresh_fetcher, w1)) = Ok [b]
                    /\ NewsArticle.url b = NewsArticle.url a)
  | _ => False
  end.
Proof.
  vm_compute. split; [reflexivity|]. split; [reflexivity|].
  eexists. split; reflexivity.
Qed.

(** ** Empty results of the news source *)

Section EmptyResults.
Context {W : Type} `{Runtime W}.

(** The orchestrator: an empty answer of [fetch_news] ends the fetch at
    once, with the world as that one call left it. *)
Lemma fetch_recovery_empty_immediate `{LambdaHandler.Services W}
      (self : LambdaHandler.t) (correlation_id : PyVal.t) (w w1 : W) :
  LambdaHandler.fetch_news (AgentConfig.search_query (LambdaHandler.config self))
                           (AgentConfig.time_range_hours (LambdaHandler.config self)) w
    = (Ok [], w1) ->
  LambdaHandler._fetch_news_articles_with_recovery self correlation_id w = (Ok [], w1).
Proof.
  intros Hf. unfold LambdaHandler._fetch_news_articles_with_recovery. simpl.
  run_step. rewrite Hf. reflexivity.
Qed.

(** The fetcher: after an empty answer of the search, [_fetch_with_retry]
    searches again. *)
Lemma fetch_with_retry_after_empty `{GoogleNewsFetcher.GNews W}
      (query : string) (self : GoogleNewsFetcher.t) (w w1 : W) :
  GoogleNewsFetcher.get_news query (GoogleNewsFetcher.period self) w = (Ok [], w1) ->
  GoogleNewsFetcher._fetch_with_retry query 3 (self, w)
  = GoogleNewsFetcher._fetch_with_retry_loop query 3 1 2 (self, w1).
Proof.
  intros Hg. unfold GoogleNewsFetcher._fetch_with_retry. simpl.
  run_step. rewrite Hg. reflexivity.
Qed.

(** The three iterations of [_fetch_with_retry] written out.  A search
    that raised is followed by a sleep of [2 ** attempt] seconds, at the
    first two attempts; the third search decides: its items, its empty
    list or its exception is the outcome. *)
Lemma fetch_with_retry_unrolled `{GoogleNewsFetcher.GNews W}
      (query : string) (self : GoogleNewsFetcher.t) (w : W) :
  let search := GoogleNewsFetcher.get_news query (GoogleNewsFetcher.period self) in
  let next (attempt : Z) (r : result (list GoogleNewsFetcher.RawArticle) * W) : W :=
    match fst r with
    | Raise _ => snd (asyncio_sleep (2 ^ attempt) (snd r))
    | Ok _ => snd r
    end in
  let r1 := search w in
  let r2 := search (next 0 r1) in
  let r3 := search (next 1 r2) in
  GoogleNewsFetcher._fetch_with_retry query 3 (self, w)
  = match fst r1 with
    | Ok (item :: items) => (Ok (item :: items), (self, snd r1))
    | _ =>
        match fst r2 with
        | Ok (item :: items) => (Ok (item :: items), (self, snd r2))
        | _ => (fst r3, (self, snd r3))
        end
    end.
Proof.
  cbv zeta. unfold GoogleNewsFetcher._fetch_with_retry.
  change (Z.of_nat 3) with 3. cbn [GoogleNewsFetcher._fetch_with_retry_loop].
  change (0 =? 3 - 1) with false. change (0 + 1 =? 3 - 1) with false.
  change (0 + 1 + 1 =? 3 - 1) with true.
  change (2 ^ (0 + 1)) with 2. change (2 ^ 1) with 2. change (2 ^ 0) with 1.
  run_step.
  repeat match goal with
         | |- context [GoogleNewsFetcher.get_news ?q ?p ?w0] =>
             is_var w0;
             destruct (GoogleNewsFetcher.get_news q p w0) as [[[|? ?]|?] ?];
             cbn [fst snd]; try reflexivity
         | |- context [asyncio_sleep ?n ?w0] =>
             is_var w0; destruct (asyncio_sleep n w0) as [? ?]; cbn [fst snd]
         end.
Qed.

(** The outcome of three searches of which the first with items wins
    and the third decides otherwise. *)
Lemma first_items_outcome {S X : Type} (self : S) (r1 r2 r3 : result (list X) * W) :
  let has_items (r : result (list X) * W) : Prop :=
    exists item items, fst r = Ok (item :: items) in
  let run := match fst r1 with
             | Ok (item :: items) => (Ok (item :: items), (self, snd r1))
             | _ =>
                 match fst r2 with
                 | Ok (item :: items) => (Ok (item :: items), (self, snd r2))
                 | _ => (fst r3, (self, snd r3))
                 end
             end in
  (fst run = Ok [] <-> ~ has_items r1 /\ ~ has_items r2 /\ fst r3 = Ok [])
  /\ (forall e, fst run = Raise e <->
                ~ has_items r1 /\ ~ has_items r2 /\ fst r3 = Raise e).
Proof.
  cbv zeta.
  destruct r1 as [[[|i1 l1]|e1] w1], r2 as [[[|i2 l2]|e2] w2]; cbn [fst snd];
    (split; [|intros e]); split;
    try discriminate;
    try (intros Hr; split; [intros (i & l & [=])|]; split; [intros (i & l & [=])|]; exact Hr);
    try (intros (_ & _ & Hr); exact Hr);
    try (intros (Hno & _); exfalso; apply Hno; eauto; fail);
    try (intros (_ & Hno & _); exfalso; apply Hno; eauto; fail).
Qed.

End EmptyResults.

(** ** The workflow state during one invocation *)

Section MonadSteps.
Context {S W : Type}.

Lemma bind_in_world {A B} (m : M W A) (k : A -> M (S * W) B) (s : S) (w : W) :
  bind (in_world m) k (s, w) =
  match m w with
  | (Ok a, w') => k a (s, w')
  | (Raise e, w') => (Raise e, (s, w'))
  end.
Proof. unfold bind, in_world. cbn [fst snd]. destruct (m w) as [[a|e] w']; reflexivity. Qed.

Lemma run_in_world {A} (m : M W A) (s : S) (w : W) :
  in_world m (s, w) = (fst (m w), (s, snd (m w))).
Proof. unfold in_world. cbn [fst snd]. destruct (m w); reflexivity. Qed.

Lemma bind_put_self {B} (k : unit -> M (S * W) B) (s s' : S) (w : W) :
  bind (put_self s') k (s, w) = k tt (s', w).
Proof. reflexivity. Qed.

Lemma keeps_in_world {A} (m : M W A) : keeps_object (S := S) (in_world m).
Proof. intros s w. rewrite run_in_world. reflexivity. Qed.

Lemma keeps_get_self : keeps_object (@get_self S W).
Proof. intros s w. reflexivity. Qed.

Lemma keeps_ret {A} (a : A) : keeps_object (S := S) (W := W) (ret a).
Proof. intros s w. reflexivity. Qed.

Lemma keeps_bind {A B} (m : M (S * W) A) (k : A -> M (S * W) B) :
  keeps_object m -> (forall a, keeps_object (k a)) -> keeps_object (bind m k).
Proof.
  intros Hm Hk s w. unfold bind. specialize (Hm s w).
  destruct (m (s, w)) as [[a|e] [s1 w1]]; cbn [fst snd] in *; subst s1.
  - apply Hk.
  - reflexivity.
Qed.

Lemma keeps_try_except {A} (m : M (S * W) A) (h : exn -> M (S * W) A) :
  keeps_object m -> (forall e, keeps_object (h e)) -> keeps_object (try_except m h).
Proof.
  intros Hm Hh s w. unfold try_except. specialize (Hm s w).
  destruct (m (s, w)) as [[a|e] [s1 w1]]; cbn [fst snd] in *; subst s1.
  - reflexivity.
  - apply Hh.
Qed.

End MonadSteps.

Ltac keeps :=
  repeat first
    [ apply keeps_in_world | apply keeps_get_self | apply keeps_ret
    | apply keeps_bind | apply keeps_try_except | intro ].

Section WorkflowState.
Context {W : Type} `{Runtime W} `{LambdaHandler.Services W} `{PyLib}.

Import LambdaHandler.

Lemma bind_update_ws {B} (f : WorkflowState -> WorkflowState)
      (k : unit -> M (Frame * W) B) (fr : Frame) (w : W) :
  bind (update_ws f) k (fr, w) =
  k tt ({| workflow_state := f (workflow_state fr);
           history := workflow_state fr :: history fr |}, w).
Proof. reflexivity. Qed.

Lemma keeps_get_ws : keeps_object (@get_ws W).
Proof. unfold get_ws. keeps. Qed.

Lemma evolves_refl (ws : WorkflowState) : Spec.evolves ws ws.
Proof. unfold Spec.evolves. auto. Qed.

Lemma evolves_trans (a b c : WorkflowState) :
  Spec.evolves a b -> Spec.evolves b c -> Spec.evolves a c.
Proof.
  unfold Spec.evolves. intros (A1 & A2 & A3 & A4) (B1 & B2 & B3 & B4).
  repeat split; auto. now transitivity (errors b).
Qed.

Lemma evolves_append_error (entry : ErrorEntry) (ws : WorkflowState) :
  Spec.evolves ws (append_error entry ws).
Proof. unfold Spec.evolves. simpl. repeat split; auto. now apply prefix_app_r. Qed.

Lemma elapsed_returns (t : Float.float) (w : W) :
  exists x w', elapsed t w = (Ok x, w').
Proof.
  unfold elapsed, bind, eff, ret. destruct (time_time w) as [now w']. now eexists _, _.
Qed.

Lemma datetime_now_utc_returns (w : W) :
  exists t w', datetime_now_utc w = (Ok t, w').
Proof. unfold datetime_now_utc, eff. destruct (clock_us w) as [t w']. now eexists _, _. Qed.

(** [_handle_unexpected_error] appends one entry to the error log. *)
Lemma handle_unexpected_error_states (error : exn) (cid : PyVal.t) (t : Float.float)
      (fr : Frame) (w : W) :
  exists entry,
    states (fst (snd (_handle_unexpected_error error cid t (fr, w))))
    = append_error entry (workflow_state fr) :: states fr.
Proof.
  unfold _handle_unexpected_error.
  rewrite bind_in_world. destruct (elapsed_returns t w) as (x & w1 & ->).
  rewrite bind_in_world. destruct (datetime_now_utc_returns w1) as (now & w2 & ->).
  rewrite bind_update_ws. eexists.
  match goal with |- context [bind get_ws ?k (?fr', w2)] =>
    assert (keeps_object (bind get_ws k)) as Hk by (apply keeps_bind; [apply keeps_get_ws | keeps])
  end.
  rewrite Hk. reflexivity.
Qed.

(** [_handle_workflow_error] appends one entry to the error log. *)
Lemma handle_workflow_error_states (message : string) (error_type : ErrorType)
      (recoverable : bool) (timestamp : datetime) (cid : PyVal.t) (t : Float.float)
      (fr : Frame) (w : W) :
  exists entry,
    states (fst (snd (_handle_workflow_error message error_type recoverable timestamp
                                              cid t (fr, w))))
    = append_error entry (workflow_state fr) :: states fr.
Proof.
  unfold _handle_workflow_error.
  rewrite bind_in_world. destruct (elapsed_returns t w) as (x & w1 & ->).
  rewrite bind_update_ws. eexists.
  match goal with |- context [?m (?fr', w1)] =>
    assert (keeps_object m) as Hk
  end.
  { destruct (ErrorType_eqb error_type NEWS_FETCH_ERROR && negb recoverable).
    - apply keeps_try_except; intros;
        repeat (apply keeps_bind; intros); try apply keeps_get_ws; apply keeps_in_world.
    - repeat (apply keeps_bind; intros); try apply keeps_get_ws; apply keeps_in_world. }
  rewrite Hk. reflexivity.
Qed.

Ltac evolving_step :=
  split;
  [ cbn; repeat split; cbn; intros; try reflexivity; try assumption; try congruence
  | unfold states; cbn [workflow_state history fst snd];
    repeat first [ reflexivity | apply suffix_cons_r ] ].

(** The [try] block changes [workflow_state] by assignments that keep
    what the earlier values had set. *)
Lemma handler_body_states (self : t) (cid : PyVal.t) (t0 : Float.float)
      (fr : Frame) (w : W) :
  summary_published (workflow_state fr) = false ->
  Spec.evolving (states fr) ->
  Spec.evolving (states (fst (snd (handler_body self cid t0 (fr, w)))))
  /\ states fr `suffix_of` states (fst (snd (handler_body self cid t0 (fr, w)))).
Proof.
  intros Hpub Hev. unfold handler_body.
  rewrite bind_in_world.
  destruct (_fetch_news_articles_with_recovery self cid w) as [[articles|e] w1];
    [|split; [exact Hev | reflexivity]].
  rewrite !bind_update_ws.
  destruct articles as [|a l].
  - match goal with |- context [?m (?fr', w1)] => assert (keeps_object m) as Hk end.
    { repeat (apply keeps_bind; intros); try apply keeps_get_ws; apply keeps_in_world. }
    rewrite Hk. evolving_step.
  - rewrite bind_in_world.
    destruct (_generate_summary_with_recovery (a :: l) cid w1) as [[summary|e] w2].
    2:{ evolving_step. }
    rewrite !bind_update_ws. rewrite bind_in_world.
    destruct (_publish_summary_with_recovery summary cid w2) as [[published|e] w3].
    2:{ evolving_step. }
    rewrite bind_update_ws.
    destruct published; cbn [negb].
    + match goal with |- context [?m (?fr', w3)] => assert (keeps_object m) as Hk end.
      { repeat (apply keeps_bind; intros); try apply keeps_get_ws; apply keeps_in_world. }
      rewrite Hk. evolving_step.
    + rewrite bind_in_world.
      destruct (_attempt_fallback_publishing summary cid w3) as [[fallback|e] w4].
      2:{ evolving_step. }
      rewrite bind_update_ws.
      match goal with |- context [?m (?fr', w4)] => assert (keeps_object m) as Hk end.
      { destruct fallback; cbn [negb];
          repeat (apply keeps_bind; intros); try apply keeps_get_ws; apply keeps_in_world. }
      rewrite Hk. evolving_step.
Qed.

Lemma evolving_tail (ws : WorkflowState) (l : list WorkflowState) :
  Spec.evolving (ws :: l) -> Spec.evolving l.
Proof. destruct l as [|b l]; simpl; tauto. Qed.

Lemma evolving_head (l : list WorkflowState) :
  forall ws, Spec.evolving (ws :: l) ->
  forall i before, l !! i = Some before -> Spec.evolves before ws.
Proof.
  induction l as [|b l IH]; intros ws Hev i before Hi; [discriminate|].
  destruct Hev as [Hb Hl]. destruct i as [|i]; simpl in Hi.
  - injection Hi as <-. exact Hb.
  - apply (evolves_trans _ b); [|exact Hb]. apply (IH b Hl i). exact Hi.
Qed.

Lemma evolving_lookup (l : list WorkflowState) :
  Spec.evolving l ->
  forall i j before after,
    (j <= i)%nat -> l !! i = Some before -> l !! j = Some after ->
    Spec.evolves before after.
Proof.
  induction l as [|ws l IH]; intros Hev i j before after Hji Hi Hj; [discriminate|].
  destruct j as [|j]; simpl in Hj.
  - injection Hj as <-. destruct i as [|i]; simpl in Hi.
    + injection Hi as <-. apply evolves_refl.
    + apply (evolving_head l ws Hev i). exact Hi.
  - destruct i as [|i]; [lia|]. simpl in Hi.
    apply (IH (evolving_tail _ _ Hev) i j); [lia | exact Hi | exact Hj].
Qed.

(** C9.  During one invocation, every value of [workflow_state] keeps
    the completion flags that the value before it had set and extends
    its error log at the end: a flag that is true is true in every later
    value, and the entries of the log are neither removed nor changed.
    The first value has no flag set and no error. *)
Theorem workflow_state_evolves (self : t) (event : Event) (w : W) :
  let fr := fst (snd (invoke self event w)) in
  Spec.evolving (states fr)
  /\ last (states fr) = Some initial_workflow_state
  /\ (forall i j before after,
        (j <= i)%nat -> states fr !! i = Some before -> states fr !! j = Some after ->
        Spec.evolves before after).
Proof.
  cbv zeta.
  assert (Spec.evolving (states (fst (snd (invoke self event w))))
          /\ [initial_workflow_state] `suffix_of` states (fst (snd (invoke self event w))))
    as [Hev Hsuf].
  { unfold invoke, handler.
    rewrite bind_in_world.
    replace (eff time_time w) with (Ok (fst (time_time w)), snd (time_time w))
      by (unfold eff; destruct (time_time w); reflexivity).
    generalize (fst (time_time w)) (snd (time_time w)). intros t0 w0.
    rewrite bind_put_self. unfold try_except.
    set (fr0 := {| workflow_state := initial_workflow_state; history := [] |}).
    destruct (handler_body_states self
                (default (PyVal.VStr (execution_id self)) (event !! "correlation_id"))
                t0 fr0 w0 eq_refl I) as [Hev Hsuf].
    destruct (handler_body self _ t0 (fr0, w0)) as [[resp|e] [fr1 w1]];
      cbn [fst snd] in *; [split; [exact Hev | exact Hsuf]|].
    destruct e as [cls msg | msg ety rec orig ts].
    - destruct (handle_unexpected_error_states (PyException cls msg)
                  (default (PyVal.VStr (execution_id self)) (event !! "correlation_id"))
                  t0 fr1 w1) as [entry ->].
      split.
      + split; [apply evolves_append_error | exact Hev].
      + apply suffix_cons_r. exact Hsuf.
    - destruct (handle_workflow_error_states msg ety rec ts
                  (default (PyVal.VStr (execution_id self)) (event !! "correlation_id"))
                  t0 fr1 w1) as [entry ->].
      split.
      + split; [apply evolves_append_error | exact Hev].
      + apply suffix_cons_r. exact Hsuf. }
  split; [exact Hev|]. split.
  - destruct Hsuf as [k ->]. apply last_snoc.
  - now apply evolving_lookup.
Qed.

End WorkflowState.

(** ** The responses of the handler *)

Section Preserves.
Context {W X : Type} (f : W -> X).

Lemma preserves_ret {A} (a : A) : preserves f (ret a).
Proof. intros w. reflexivity. Qed.

Lemma preserves_raise {A} (e : exn) : preserves f (@raise W A e).
Proof. intros w. reflexivity. Qed.

Lemma preserves_of_result {A} (r : result A) : preserves f (of_result r).
Proof. intros w. reflexivity. Qed.

Lemma preserves_eff {A} (g : W -> A * W) :
  (forall w, f (snd (g w)) = f w) -> preserves f (eff g).
Proof. intros Hg w. unfold eff. specialize (Hg w). destruct (g w). exact Hg. Qed.

Lemma preserves_bind {A B} (m : M W A) (k : A -> M W B) :
  preserves f m -> (forall a, preserves f (k a)) -> preserves f (bind m k).
Proof.
  intros Hm Hk w. unfold bind. specialize (Hm w).
  destruct (m w) as [[a|e] w1]; cbn [snd] in *; [|exact Hm].
  rewrite Hk. exact Hm.
Qed.

Lemma preserves_try_except {A} (m : M W A) (h : exn -> M W A) :
  preserves f m -> (forall e, preserves f (h e)) -> preserves f (try_except m h).
Proof.
  intros Hm Hh w. unfold try_except. specialize (Hm w).
  destruct (m w) as [[a|e] w1]; cbn [snd] in *; [exact Hm|].
  rewrite Hh. exact Hm.
Qed.

Lemma preserves_catch {A} (m : M W A) : preserves f m -> preserves f (catch m).
Proof. intros Hm w. unfold catch. specialize (Hm w). destruct (m w). exact Hm. Qed.

End Preserves.

Section Responses.
Context {W : Type} `{Runtime W} `{LambdaHandler.Services W} `{PyLib}.

Import LambdaHandler.

Lemma dumps_VList (l : list PyVal.t) :
  PyVal.dumps (PyVal.VList l) =
  match PyVal.dumps_list l with
  | Ok js => Ok (PyVal.JArr js)
  | Raise e => Raise e
  end.
Proof.
  cbn [PyVal.dumps].
  match goal with |- match ?g l with _ => _ end = _ =>
    assert (forall l', g l' = PyVal.dumps_list l') as ->; [|reflexivity] end.
  induction l' as [|x r IH]; [reflexivity|].
  cbn [PyVal.dumps_list]. rewrite <- IH. reflexivity.
Qed.

Lemma dumps_VDict (d : list (string * PyVal.t)) :
  PyVal.dumps (PyVal.VDict d) =
  match PyVal.dumps_items d with
  | Ok js => Ok (PyVal.JObj js)
  | Raise e => Raise e
  end.
Proof.
  cbn [PyVal.dumps].
  match goal with |- match ?g d with _ => _ end = _ =>
    assert (forall d', g d' = PyVal.dumps_items d') as ->; [|reflexivity] end.
  induction d' as [|[k x] r IH]; [reflexivity|].
  cbn [PyVal.dumps_items]. rewrite <- IH. reflexivity.
Qed.

Lemma dumps_items_app (d1 d2 : list (string * PyVal.t)) :
  PyVal.dumps_items (d1 ++ d2) =
  match PyVal.dumps_items d1 with
  | Raise e => Raise e
  | Ok js1 => match PyVal.dumps_items d2 with
              | Raise e => Raise e
              | Ok js2 => Ok (js1 ++ js2)
              end
  end.
Proof.
  induction d1 as [|[k x] r IH]; simpl.
  - destruct (PyVal.dumps_items d2); reflexivity.
  - destruct (PyVal.dumps x) as [j|e]; [|reflexivity]. rewrite IH.
    destruct (PyVal.dumps_items r); [|reflexivity].
    destruct (PyVal.dumps_items d2); reflexivity.
Qed.

Lemma dumps_errors (errs : list ErrorEntry) :
  PyVal.dumps_list (map error_to_py errs) = Ok (map Spec.error_to_json errs).
Proof.
  induction errs as [|e errs IH]; [reflexivity|].
  cbn [map PyVal.dumps_list]. rewrite IH. reflexivity.
Qed.

(** A workflow state without articles and summary serializes. *)
Lemma dumps_state_empty (ws : WorkflowState) :
  articles ws = [] -> summary ws = None ->
  PyVal.dumps (state_to_py ws) = Ok (Spec.state_to_json ws).
Proof.
  intros Ha Hs. unfold state_to_py. rewrite Ha, Hs, dumps_VDict.
  cbn [PyVal.dumps_items]. rewrite !dumps_VList, dumps_errors. reflexivity.
Qed.

(** A workflow state that holds an article does not. *)
Lemma dumps_state_articles (ws : WorkflowState) (a : NewsArticle.t) (l : list NewsArticle.t) :
  articles ws = a :: l ->
  PyVal.dumps (state_to_py ws) = Raise (PyVal.TypeError "NewsArticle").
Proof. intros Ha. unfold state_to_py. rewrite Ha. reflexivity. Qed.

Lemma success_response_empty (self : t) (message : string) (cid : PyVal.t)
      (j : PyVal.json) (t0 : Float.float) (ws : WorkflowState) (w : W) :
  PyVal.dumps cid = Ok j -> articles ws = [] -> summary ws = None ->
  exists resp,
    _create_success_response self message cid t0 None None (Some ws) w
      = (Ok resp, snd (datetime_now_utc w))
    /\ statusCode resp = 200
    /\ PyVal.get "message" (body resp) = Some (PyVal.JStr message)
    /\ PyVal.get "workflow_state" (body resp) = Some (Spec.state_to_json ws).
Proof.
  intros Hcid Ha Hs. unfold _create_success_response.
  destruct (datetime_now_utc_returns w) as (now & w1 & Hnow).
  unfold bind at 1. rewrite Hnow. cbn [snd app].
  unfold bind, of_result, ret. rewrite dumps_VDict. cbn [PyVal.dumps_items].
  rewrite Hcid, (dumps_state_empty ws Ha Hs).
  eexists. split; [reflexivity|]. cbn. repeat split; reflexivity.
Qed.

(** The no-news notification is attempted and never raises. *)
Lemma no_news_returns (cid : PyVal.t) (w : W) :
  exists w', _handle_no_news_scenario_with_recovery cid w = (Ok tt, w').
Proof.
  unfold _handle_no_news_scenario_with_recovery, _log_no_news_event.
  unfold bind at 1. unfold bind at 1.
  destruct (datetime_now_utc_returns w) as (now & w1 & ->). unfold ret at 1.
  assert (forall n attempt w, exists w', _no_news_loop cid 2 attempt n w = (Ok tt, w')) as Hloop.
  { clear. induction n as [|n IH]; intros attempt w; simpl.
    - unfold _log_notification_failure, bind, ret.
      destruct (datetime_now_utc_returns w) as (now & w1 & ->). now eexists.
    - unfold bind at 1, catch at 1, bind at 1.
      destruct (send_no_news_notification w) as [[[|]|e] w1].
      + unfold _log_notification_success, bind, ret.
        destruct (datetime_now_utc_returns w1) as (now & w2 & ->). now eexists.
      + unfold ret at 1. apply IH.
      + unfold bind at 1. destruct (attempt <? 2 - 1).
        * unfold eff. destruct (asyncio_sleep 2 w1) as [u w2]. apply IH.
        * unfold ret at 1. apply IH. }
  apply Hloop.
Qed.

(** The no-news path: when the fetch stage returns no article, the
    invocation ends with the success response. *)
Lemma handler_no_news (self : t) (event : Event) (j : PyVal.json) (w w1 : W) :
  let cid := default (PyVal.VStr (execution_id self)) (event !! "correlation_id") in
  PyVal.dumps cid = Ok j ->
  _fetch_news_articles_with_recovery self cid (snd (time_time w)) = (Ok [], w1) ->
  exists resp fr,
    invoke self event w
    = (Ok resp,
       (fr, snd (datetime_now_utc
                   (snd (elapsed (fst (time_time w))
                           (snd (_handle_no_news_scenario_with_recovery cid w1)))))))
    /\ statusCode resp = 200
    /\ PyVal.get "message" (body resp)
       = Some (PyVal.JStr "No relevant news found - notification sent")
    /\ articles_fetched (workflow_state fr) = true
    /\ summary_generated (workflow_state fr) = false
    /\ summary_published (workflow_state fr) = false.
Proof.
  intros cid Hcid Hfetch. unfold invoke, handler. fold cid.
  rewrite bind_in_world.
  replace (eff time_time w) with (Ok (fst (time_time w)), snd (time_time w))
    by (unfold eff; destruct (time_time w); reflexivity).
  rewrite bind_put_self. unfold try_except, handler_body.
  rewrite bind_in_world, Hfetch, !bind_update_ws, bind_in_world.
  destruct (no_news_returns cid w1) as (w2 & Hnn). rewrite Hnn. cbn [snd].
  rewrite bind_in_world.
  destruct (elapsed_returns (fst (time_time w)) w2) as (x & w3 & Hel). rewrite Hel. cbn [snd].
  unfold bind at 1, get_ws at 1, bind at 1, get_self at 1, ret at 1. cbn [fst snd].
  rewrite run_in_world.
  match goal with |- context [_create_success_response self ?m cid x None None (Some ?ws) w3] =>
    destruct (success_response_empty self m cid j x ws w3 Hcid eq_refl eq_refl)
      as (resp & -> & Hst & Hmsg & _) end.
  cbn [fst snd]. eexists resp, _. split; [reflexivity|]. repeat split; assumption.
Qed.

End Responses.

Section FetchRecovery.
Context {W : Type} `{Runtime W} `{LambdaHandler.Services W}.

(** The orchestrator: a failed first attempt is followed, after a sleep
    of one second, by a second attempt, whose empty answer ends the
    fetch. *)
Lemma fetch_recovery_raise_then_empty (self : LambdaHandler.t) (cid : PyVal.t)
      (e : exn) (w w1 w3 : W) :
  let query := AgentConfig.search_query (LambdaHandler.config self) in
  let hours := AgentConfig.time_range_hours (LambdaHandler.config self) in
  LambdaHandler.fetch_news query hours w = (Raise e, w1) ->
  LambdaHandler.fetch_news query hours (snd (asyncio_sleep 1 w1)) = (Ok [], w3) ->
  LambdaHandler._fetch_news_articles_with_recovery self cid w = (Ok [], w3).
Proof.
  intros query hours H1 H2. unfold LambdaHandler._fetch_news_articles_with_recovery.
  simpl. run_step. fold query hours. rewrite H1. run_step.
  change (2 ^ 0) with 1. destruct (asyncio_sleep 1 w1) as [u w2]. cbn [snd] in H2.
  run_step. rewrite H2. reflexivity.
Qed.

End FetchRecovery.

(** With scripted collaborators, the no-news notification, the clock
    and the response builders make no call to the fetch stage or to the
    summarizer. *)
Lemma no_news_stage_calls (sc : Mock.Script) (cid : PyVal.t) :
  preserves Mock.stage_calls
    (@LambdaHandler._handle_no_news_scenario_with_recovery
       Mock.World Mock.runtime (Mock.services sc) cid).
Proof.
  unfold LambdaHandler._handle_no_news_scenario_with_recovery,
    LambdaHandler._log_no_news_event. simpl.
  unfold LambdaHandler._log_notification_success, LambdaHandler._log_notification_failure,
    datetime_now_utc.
  repeat first
    [ apply preserves_ret | apply preserves_bind | apply preserves_catch
    | apply preserves_eff; intros w; reflexivity
    | intros w; reflexivity
    | intros [[|]|] | intros [] | intro
    | match goal with |- preserves _ (if ?c then _ else _) => destruct c end ].
Qed.

(** The orchestrator against scripted collaborators: the first call of
    [fetch_news] raises and the second returns an empty list. *)
Lemma fetch_raises_then_empty_no_news (sc : Mock.Script) (event : LambdaHandler.Event)
      (e : exn) :
  Mock.on_fetch sc 0 = Raise e ->
  Mock.on_fetch sc 1 = Ok [] ->
  (forall v, event !! "correlation_id" = Some v -> exists j, PyVal.dumps v = Ok j) ->
  exists resp fr w',
    Mock.run sc event = (Ok resp, (fr, w'))
    /\ LambdaHandler.statusCode resp = 200
    /\ PyVal.get "message" (LambdaHandler.body resp)
       = Some (PyVal.JStr "No relevant news found - notification sent")
    /\ Mock.fetch_calls w' = 2%nat
    /\ Mock.filter_calls w' = 0%nat
    /\ Mock.summary_calls w' = 0%nat
    /\ LambdaHandler.summary_generated (LambdaHandler.workflow_state fr) = false.
Proof.
  intros H0 H1 Hcid.
  assert (exists j, PyVal.dumps (default (PyVal.VStr (LambdaHandler.execution_id Mock.test_handler))
                                         (event !! "correlation_id")) = Ok j) as [j Hj].
  { destruct (event !! "correlation_id") as [v|] eqn:Ev; [now apply Hcid|].
    eexists; reflexivity. }
  unfold Mock.run.
  edestruct (@handler_no_news Mock.World Mock.runtime (Mock.services sc) Mock.pylib
               Mock.test_handler event j Mock.world0) as (resp & fr & Hrun & Hst & Hmsg & _ & Hgen & _).
  { exact Hj. }
  { eapply fetch_recovery_raise_then_empty.
    - cbn. rewrite H0. reflexivity.
    - cbn. rewrite H1. reflexivity. }
  eexists resp, fr, _. split; [exact Hrun|].
  split; [exact Hst|]. split; [exact Hmsg|].
  match goal with |- Mock.fetch_calls ?w = _ /\ Mock.filter_calls ?w = _ /\ Mock.summary_calls ?w = _ /\ _ =>
    assert (Mock.stage_calls w = (2%nat, 0%nat, 0%nat)) as Hcalls end.
  { unfold datetime_now_utc, LambdaHandler.elapsed.
    match goal with |- Mock.stage_calls (snd (eff _ (snd (bind _ _ ?w)))) = _ =>
      transitivity (Mock.stage_calls w) end.
    - match goal with |- Mock.stage_calls (snd (eff _ (snd (bind ?a ?b ?w)))) = _ =>
        unfold eff, bind; cbn; reflexivity end.
    - etransitivity; [apply (no_news_stage_calls sc) | reflexivity]. }
  unfold Mock.stage_calls in Hcalls. injection Hcalls as Hfetch Hfilter Hsummary.
  split; [exact Hfetch|]. split; [exact Hfilter|]. split; [exact Hsummary | exact Hgen].
Qed.

(** ** Responses that hold articles *)

Section ArticlesInResponse.
Context {W : Type} `{Runtime W} `{LambdaHandler.Services W} `{PyLib}.

Import LambdaHandler.

(** [json.dumps] of a body whose last entry is a workflow state with
    articles raises. *)
Lemma dumps_body_raises (d : list (string * PyVal.t)) (ws : WorkflowState)
      (a : NewsArticle.t) (l : list NewsArticle.t) :
  articles ws = a :: l ->
  exists e, PyVal.dumps (PyVal.VDict (d ++ [("workflow_state", state_to_py ws)])) = Raise e.
Proof.
  intros Ha. rewrite dumps_VDict, dumps_items_app.
  destruct (PyVal.dumps_items d) as [js|e1] eqn:Hd.
  - cbn [PyVal.dumps_items]. rewrite (dumps_state_articles ws a l Ha). now eexists.
  - now eexists.
Qed.

Lemma success_response_raises (self : t) (message : string) (cid : PyVal.t)
      (t0 : Float.float) (sid : option string) (count : option Z) (ws : WorkflowState)
      (a : NewsArticle.t) (l : list NewsArticle.t) (w : W) :
  articles ws = a :: l ->
  exists e, fst (_create_success_response self message cid t0 sid count (Some ws) w) = Raise e.
Proof.
  intros Ha. unfold _create_success_response.
  destruct (datetime_now_utc_returns w) as (now & w1 & Hnow).
  unfold bind at 1. rewrite Hnow. unfold bind, of_result.
  rewrite !app_assoc.
  match goal with |- context [PyVal.dumps (PyVal.VDict (?d ++ [_]))] =>
    destruct (dumps_body_raises d ws a l Ha) as [e ->] end.
  now eexists.
Qed.

Lemma partial_response_raises (message : string) (cid : PyVal.t)
      (t0 : Float.float) (ws : WorkflowState)
      (a : NewsArticle.t) (l : list NewsArticle.t) (w : W) :
  articles ws = a :: l ->
  exists e, fst (_create_partial_success_response message cid t0 ws w) = Raise e.
Proof.
  intros Ha. unfold _create_partial_success_response.
  destruct (datetime_now_utc_returns w) as (now & w1 & Hnow).
  unfold bind at 1. rewrite Hnow. unfold bind, of_result.
  rewrite dumps_VDict. cbn [PyVal.dumps_items].
  rewrite (dumps_state_articles ws a l Ha).
  destruct (PyVal.dumps cid); now eexists.
Qed.

Lemma error_response_raises (message : string) (cid : PyVal.t)
      (t0 : Float.float) (ety : option string) (ws : WorkflowState)
      (a : NewsArticle.t) (l : list NewsArticle.t) (w : W) :
  articles ws = a :: l ->
  exists e, fst (_create_error_response message cid t0 ety (Some ws) w) = Raise e.
Proof.
  intros Ha. unfold _create_error_response.
  destruct (datetime_now_utc_returns w) as (now & w1 & Hnow).
  unfold bind at 1. rewrite Hnow. unfold bind, of_result.
  rewrite !app_assoc.
  match goal with |- context [PyVal.dumps (PyVal.VDict (?d ++ [_]))] =>
    destruct (dumps_body_raises d ws a l Ha) as [e ->] end.
  now eexists.
Qed.

(** Running a response builder from the frame. *)
Lemma respond_raises {A} (m : WorkflowState -> M W A) (fr : Frame) (w : W) :
  (forall w', exists e, fst (m (workflow_state fr) w') = Raise e) ->
  exists e w', bind get_ws (fun ws => in_world (m ws)) (fr, w) = (Raise e, (fr, w')).
Proof.
  intros Hm. unfold bind at 1, get_ws at 1, bind at 1, get_self at 1, ret at 1.
  cbn [fst snd]. rewrite run_in_world. destruct (Hm w) as [e ->]. now eexists _, _.
Qed.

(** With articles in the workflow state, both exception handlers of
    [handler] raise. *)
Lemma unexpected_error_raises (error : exn) (cid : PyVal.t) (t0 : Float.float)
      (fr : Frame) (w : W) (a : NewsArticle.t) (l : list NewsArticle.t) :
  articles (workflow_state fr) = a :: l ->
  exists e, fst (_handle_unexpected_error error cid t0 (fr, w)) = Raise e.
Proof.
  intros Ha. unfold _handle_unexpected_error.
  rewrite bind_in_world. destruct (elapsed_returns t0 w) as (x & w1 & ->).
  rewrite bind_in_world. destruct (datetime_now_utc_returns w1) as (now & w2 & ->).
  rewrite bind_update_ws.
  match goal with |- context [bind get_ws ?k (?fr', w2)] =>
    destruct (respond_raises
                (fun ws => _create_error_response ("Unexpected error: " +:+ exn_str error)
                             cid x (Some (ErrorType_value UNKNOWN_ERROR)) (Some ws))
                fr' w2) as (e & w' & Hr)
  end.
  { intros w'. eapply error_response_raises. cbn. exact Ha. }
  exists e. unfold states in *. rewrite Hr. reflexivity.
Qed.

Lemma workflow_error_raises (message : string) (ety : ErrorType) (recoverable : bool)
      (ts : datetime) (cid : PyVal.t) (t0 : Float.float)
      (fr : Frame) (w : W) (a : NewsArticle.t) (l : list NewsArticle.t) :
  articles (workflow_state fr) = a :: l ->
  exists e, fst (_handle_workflow_error message ety recoverable ts cid t0 (fr, w)) = Raise e.
Proof.
  intros Ha. unfold _handle_workflow_error.
  rewrite bind_in_world. destruct (elapsed_returns t0 w) as (x & w1 & ->).
  rewrite bind_update_ws.
  set (fr' := {| workflow_state := _; history := _ |}).
  assert (forall w', exists e w'',
             bind get_ws (fun ws => in_world (_create_error_response message cid x
                                       (Some (ErrorType_value ety)) (Some ws)))
                  (fr', w') = (Raise e, (fr', w''))) as Herr.
  { intros w'. apply respond_raises. intros w''. eapply error_response_raises. cbn. exact Ha. }
  destruct (ErrorType_eqb ety NEWS_FETCH_ERROR && negb recoverable).
  - unfold try_except. rewrite bind_in_world.
    destruct (no_news_returns cid w1) as (w2 & ->).
    destruct (respond_raises
                (fun ws => _create_partial_success_response
                             "News fetching failed, sent no-news notification" cid x ws)
                fr' w2) as (e & w3 & ->).
    { intros w'. eapply partial_response_raises. cbn. exact Ha. }
    destruct (Herr w3) as (e' & w4 & ->). now exists e'.
  - destruct (Herr w1) as (e' & w4 & ->). now exists e'.
Qed.

End ArticlesInResponse.

Section HandlerWithArticles.
Context {W : Type} `{Runtime W} `{LambdaHandler.Services W} `{PyLib}.

Import LambdaHandler.

(** Once the fetch stage has returned an article, the [try] block ends
    by raising, with the article in the workflow state. *)
Lemma handler_body_raises (self : t) (cid : PyVal.t) (t0 : Float.float)
      (fr : Frame) (w w1 : W) (a : NewsArticle.t) (l : list NewsArticle.t) :
  _fetch_news_articles_with_recovery self cid w = (Ok (a :: l), w1) ->
  exists e fr' w',
    handler_body self cid t0 (fr, w) = (Raise e, (fr', w'))
    /\ articles (workflow_state fr') = a :: l.
Proof.
  intros Hfetch. unfold handler_body.
  rewrite bind_in_world, Hfetch, !bind_update_ws, bind_in_world.
  destruct (_generate_summary_with_recovery (a :: l) cid w1) as [[summary|e] w2].
  2:{ eexists _, _, _. split; reflexivity. }
  rewrite !bind_update_ws, bind_in_world.
  destruct (_publish_summary_with_recovery summary cid w2) as [[published|e] w3].
  2:{ eexists _, _, _. split; reflexivity. }
  rewrite bind_update_ws.
  assert (forall fr1 w', articles (workflow_state fr1) = a :: l ->
          exists e fr' w'',
            bind (in_world (elapsed t0))
              (fun execution_time =>
                 bind get_ws (fun ws =>
                   in_world (_create_success_response self
                               "AI News Agent executed successfully" cid execution_time
                               (NewsSummary.id summary)
                               (Some (Z.of_nat (length (a :: l)))) (Some ws))))
              (fr1, w') = (Raise e, (fr', w''))
            /\ articles (workflow_state fr') = a :: l) as Hsuccess.
  { intros fr1 w' Ha. rewrite bind_in_world.
    destruct (elapsed_returns t0 w') as (x & w4 & ->).
    destruct (respond_raises
                (fun ws => _create_success_response self
                             "AI News Agent executed successfully" cid x
                             (NewsSummary.id summary)
                             (Some (Z.of_nat (length (a :: l)))) (Some ws))
                fr1 w4) as (e & w5 & ->).
    { intros w''. eapply success_response_raises. exact Ha. }
    eexists _, _, _. split; [reflexivity | exact Ha]. }
  destruct published; cbn [negb].
  - apply Hsuccess. reflexivity.
  - rewrite bind_in_world.
    destruct (_attempt_fallback_publishing summary cid w3) as [[fallback|e] w4].
    2:{ eexists _, _, _. split; reflexivity. }
    rewrite bind_update_ws. destruct fallback; cbn [negb].
    + apply Hsuccess. reflexivity.
    + rewrite bind_in_world. destruct (elapsed_returns t0 w4) as (x & w5 & ->).
      match goal with |- context [bind get_ws _ (?fr1, w5)] =>
        destruct (respond_raises
                    (fun ws => _create_partial_success_response
                                 "Summary generated but publishing failed" cid x ws)
                    fr1 w5) as (e & w6 & ->)
      end.
      { intros w''. eapply partial_response_raises. reflexivity. }
      eexists _, _, _. split; reflexivity.
Qed.

(** Whenever the fetch stage returns at least one article, the handler
    raises: no response can be serialized from a workflow state that
    holds articles. *)
Lemma handler_raises_with_articles (self : t) (event : Event) (w w1 : W)
      (a : NewsArticle.t) (l : list NewsArticle.t) :
  _fetch_news_articles_with_recovery self
    (default (PyVal.VStr (execution_id self)) (event !! "correlation_id"))
    (snd (time_time w)) = (Ok (a :: l), w1) ->
  exists e, fst (invoke self event w) = Raise e.
Proof.
  intros Hfetch. unfold invoke, handler.
  rewrite bind_in_world.
  replace (eff time_time w) with (Ok (fst (time_time w)), snd (time_time w))
    by (unfold eff; destruct (time_time w); reflexivity).
  rewrite bind_put_self. unfold try_except.
  destruct (handler_body_raises self _ (fst (time_time w))
              {| workflow_state := initial_workflow_state; history := [] |}
              _ _ a l Hfetch) as (e & fr' & w' & -> & Ha).
  destruct e as [cls msg | msg ety rec orig ts].
  - eapply unexpected_error_raises. exact Ha.
  - eapply workflow_error_raises. exact Ha.
Qed.

(** When the fetch stage fails for good, the handler answers with the
    partial-success response, whatever became of the no-news
    notification. *)
Lemma handler_fetch_error_partial (self : t) (event : Event) (j : PyVal.json) (w w1 : W)
      (message original : string) (ts : datetime) :
  let cid := default (PyVal.VStr (execution_id self)) (event !! "correlation_id") in
  PyVal.dumps cid = Ok j ->
  _fetch_news_articles_with_recovery self cid (snd (time_time w))
    = (Raise (WorkflowError message NEWS_FETCH_ERROR false original ts), w1) ->
  exists resp st,
    invoke self event w = (Ok resp, st)
    /\ statusCode resp = 206
    /\ PyVal.get "message" (body resp)
       = Some (PyVal.JStr "News fetching failed, sent no-news notification").
Proof.
  intros cid Hcid Hfetch. unfold invoke, handler. fold cid.
  rewrite bind_in_world.
  replace (eff time_time w) with (Ok (fst (time_time w)), snd (time_time w))
    by (unfold eff; destruct (time_time w); reflexivity).
  rewrite bind_put_self. unfold try_except at 1, handler_body.
  rewrite bind_in_world, Hfetch. unfold _handle_workflow_error.
  rewrite bind_in_world. destruct (elapsed_returns (fst (time_time w)) w1) as (x & w2 & ->).
  rewrite bind_update_ws.
  change (ErrorType_eqb NEWS_FETCH_ERROR NEWS_FETCH_ERROR && negb false) with true.
  cbv iota.
  unfold try_except. rewrite bind_in_world.
  destruct (no_news_returns cid w2) as (w3 & ->).
  unfold bind at 1, get_ws at 1, bind at 1, get_self at 1, ret at 1. cbn [fst snd].
  rewrite run_in_world. unfold _create_partial_success_response.
  destruct (datetime_now_utc_returns w3) as (now & w4 & Hnow).
  unfold bind at 1. rewrite Hnow. unfold bind, of_result, ret.
  rewrite dumps_VDict. cbn [PyVal.dumps_items]. rewrite Hcid.
  rewrite dumps_state_empty by reflexivity.
  cbn. eexists _, _. split; [reflexivity|]. split; reflexivity.
Qed.

End HandlerWithArticles.

(** ** The claims on concrete runs *)

(** C1.  The handler propagates an exception to its caller.  Every stage
    succeeds (one article is fetched, summarized and published), the
    success response cannot serialize the workflow state that holds the
    article, the [TypeError] is taken by [except Exception], and the error
    response built there raises the same [TypeError] outside of any
    [try]: the caller gets no response and no status code. *)
Theorem handler_propagates_type_error :
  fst (Mock.run Examples.success_script Mock.test_event)
  = Raise (PyException "TypeError" "Object of type NewsArticle is not JSON serializable")
  /\ Mock.fetch_calls (snd (snd (Mock.run Examples.success_script Mock.test_event))) = 1%nat
  /\ Mock.summary_calls (snd (snd (Mock.run Examples.success_script Mock.test_event))) = 1%nat
  /\ Mock.publish_calls (snd (snd (Mock.run Examples.success_script Mock.test_event))) = 1%nat
  /\ LambdaHandler.summary_published
       (LambdaHandler.workflow_state
          (fst (snd (Mock.run Examples.success_script Mock.test_event)))) = true.
Proof. vm_compute. repeat split. Qed.

(** C3.  The summary is generated and the publisher fails at the primary
    attempt and at both fallback attempts.  The handler does not answer
    with status 206: the partial-success response cannot serialize the
    workflow state that holds the article and the summary, and neither
    can the error response, so the handler raises [TypeError]. *)
Theorem publish_failure_propagates_type_error :
  fst (Mock.run Examples.publish_fails_script Mock.test_event)
  = Raise (PyException "TypeError" "Object of type NewsArticle is not JSON serializable")
  /\ Mock.publish_calls
       (snd (snd (Mock.run Examples.publish_fails_script Mock.test_event))) = 3%nat
  /\ LambdaHandler.summary_generated
       (LambdaHandler.workflow_state
          (fst (snd (Mock.run Examples.publish_fails_script Mock.test_event)))) = true
  /\ LambdaHandler.summary_published
       (LambdaHandler.workflow_state
          (fst (snd (Mock.run Examples.publish_fails_script Mock.test_event)))) = false.
Proof. vm_compute. repeat split. Qed.

(** C4.  The fetch fails at its three attempts and the no-news
    notification is delivered at neither of its two attempts.  The handler
    answers with the partial-success response, status 206, whose message
    says that the notification was sent, and not with the error
    response. *)
Theorem fetch_failure_partial_without_notification :
  (forall n, Mock.on_no_news Examples.fetch_fails_script n = Ok false)
  /\ match Mock.run Examples.fetch_fails_script Mock.test_event with
     | (Ok resp, (fr, w')) =>
         LambdaHandler.statusCode resp = 206
         /\ PyVal.get "message" (LambdaHandler.body resp)
            = Some (PyVal.JStr "News fetching failed, sent no-news notification")
         /\ Mock.fetch_calls w' = 3%nat
         /\ Mock.no_news_calls w' = 2%nat
         /\ map LambdaHandler.err_type (LambdaHandler.errors (LambdaHandler.workflow_state fr))
            = ["news_fetch_error"]
     | _ => False
     end.
Proof. split; [intros n; reflexivity|]. vm_compute. repeat split. Qed.

(** C2, as amended.  At the orchestrator, an empty answer of
    [fetch_news] ends the fetch stage at once with the empty list: no
    error and no further attempt.  When [fetch_news] raises at the first
    attempt and answers with the empty list at the second, the handler
    takes the no-news path, answers with status 200, and has called
    [fetch_news] exactly twice.  Inside the fetcher an empty answer of the
    search is not final: [_fetch_with_retry] searches again, up to three
    searches in all, sleeping one second after a first and two seconds
    after a second search that raised.  It returns the items of the first
    search that has any.  It returns the empty list, without an error,
    exactly when neither of the first two searches has items and the
    third search answers with the empty list, whether the first two were
    empty or raised; and it raises exactly when neither of the first two
    searches has items and the third one raises, with that exception. *)
Theorem empty_fetch_result_handling :
  (forall (W : Type) (R : Runtime W) (S : LambdaHandler.Services W)
          (self : LambdaHandler.t) (correlation_id : PyVal.t) (w w1 : W),
      LambdaHandler.fetch_news (AgentConfig.search_query (LambdaHandler.config self))
                               (AgentConfig.time_range_hours (LambdaHandler.config self)) w
        = (Ok [], w1) ->
      LambdaHandler._fetch_news_articles_with_recovery self correlation_id w = (Ok [], w1))
  /\ (forall (sc : Mock.Script) (event : LambdaHandler.Event) (e : exn),
        Mock.on_fetch sc 0 = Raise e ->
        Mock.on_fetch sc 1 = Ok [] ->
        (forall v, event !! "correlation_id" = Some v -> exists j, PyVal.dumps v = Ok j) ->
        exists resp fr w',
          Mock.run sc event = (Ok resp, (fr, w'))
          /\ LambdaHandler.statusCode resp = 200
          /\ PyVal.get "message" (LambdaHandler.body resp)
             = Some (PyVal.JStr "No relevant news found - notification sent")
          /\ Mock.fetch_calls w' = 2%nat
          /\ Mock.filter_calls w' = 0%nat
          /\ Mock.summary_calls w' = 0%nat)
  /\ (forall (W : Type) (R : Runtime W) (G : GoogleNewsFetcher.GNews W)
             (query : string) (self : GoogleNewsFetcher.t) (w : W),
        let search := GoogleNewsFetcher.get_news query (GoogleNewsFetcher.period self) in
        let next (attempt : Z) (r : result (list GoogleNewsFetcher.RawArticle) * W) : W :=
          match fst r with
          | Raise _ => snd (asyncio_sleep (2 ^ attempt) (snd r))
          | Ok _ => snd r
          end in
        let r1 := search w in
        let r2 := search (next 0 r1) in
        let r3 := search (next 1 r2) in
        let has_items (r : result (list GoogleNewsFetcher.RawArticle) * W) : Prop :=
          exists item items, fst r = Ok (item :: items) in
        let run := GoogleNewsFetcher._fetch_with_retry query 3 (self, w) in
        run = match fst r1 with
              | Ok (item :: items) => (Ok (item :: items), (self, snd r1))
              | _ =>
                  match fst r2 with
                  | Ok (item :: items) => (Ok (item :: items), (self, snd r2))
                  | _ => (fst r3, (self, snd r3))
                  end
              end
        /\ (fst run = Ok [] <-> ~ has_items r1 /\ ~ has_items r2 /\ fst r3 = Ok [])
        /\ (forall e, fst run = Raise e <->
                      ~ has_items r1 /\ ~ has_items r2 /\ fst r3 = Raise e)).
Proof.
  split; [|split].
  - intros W R S self cid w w1. apply fetch_recovery_empty_immediate.
  - intros sc event e H0 H1 Hcid.
    destruct (fetch_raises_then_empty_no_news sc event e H0 H1 Hcid)
      as (resp & fr & w' & Hrun & Hst & Hmsg & Hfetch & Hfilter & Hsummary & _).
    exists resp, fr, w'. repeat split; assumption.
  - intros W R G query self w search next r1 r2 r3 has_items run.
    assert (run = match fst r1 with
                  | Ok (item :: items) => (Ok (item :: items), (self, snd r1))
                  | _ =>
                      match fst r2 with
                      | Ok (item :: items) => (Ok (item :: items), (self, snd r2))
                      | _ => (fst r3, (self, snd r3))
                      end
                  end) as Hrun by exact (fetch_with_retry_unrolled query self w).
    split; [exact Hrun|]. rewrite Hrun.
    exact (first_items_outcome self r1 r2 r3).
Qed.

(** The amended C2 at the scripted run in which [fetch_news] raises once
    and then returns the empty list. *)
Lemma empty_fetch_result_handling_witness :
  exists resp fr w',
    Mock.run Examples.fetch_raises_then_empty Mock.test_event = (Ok resp, (fr, w'))
    /\ LambdaHandler.statusCode resp = 200
    /\ PyVal.get "message" (LambdaHandler.body resp)
       = Some (PyVal.JStr "No relevant news found - notification sent")
    /\ Mock.fetch_calls w' = 2%nat
    /\ Mock.filter_calls w' = 0%nat
    /\ Mock.summary_calls w' = 0%nat.
Proof.
  apply (proj1 (proj2 empty_fetch_result_handling)
           Examples.fetch_raises_then_empty Mock.test_event
           (PyException "Exception" "Network timeout")).
  - reflexivity.
  - reflexivity.
  - intros v Hv. vm_compute in Hv. injection Hv as <-. eexists. reflexivity.
Defined.

(** C2, counterexample: the search of the news client raises at its first
    call and returns the empty list afterwards.  The handler takes the
    no-news path with status 200, and the search was attempted three
    times, not twice: the empty answer of the second search was followed
    by a third search. *)
Lemma search_retried_after_empty_result :
  Mock.on_get_news Examples.search_raises_then_empty 1 = Ok []
  /\ match Mock.run_production Examples.search_raises_then_empty Mock.test_event with
     | (Ok resp, (_, (_, w'))) =>
         LambdaHandler.statusCode resp = 200
         /\ PyVal.get "message" (LambdaHandler.body resp)
            = Some (PyVal.JStr "No relevant news found - notification sent")
         /\ Mock.get_news_calls w' = 3%nat
         /\ Mock.get_news_calls w' <> 2%nat
     | _ => False
     end.
Proof. split; [reflexivity|]. vm_compute. repeat split. discriminate. Qed.

(** C6 at an article of the tests and the default vocabulary. *)
Lemma relevance_score_formula_range_witness :
  fst (NewsArticle.calculate_relevance_score Mock.article1 (Some NewsArticle.default_keywords))
  = Spec.score_formula NewsArticle.default_keywords Mock.article1
  /\ Float.leb Float.zero
       (fst (NewsArticle.calculate_relevance_score Mock.article1
               (Some NewsArticle.default_keywords))) = true
  /\ Float.leb
       (fst (NewsArticle.calculate_relevance_score Mock.article1
               (Some NewsArticle.default_keywords))) Float.one = true.
Proof.
  destruct (relevance_score_formula_range Mock.article1 NewsArticle.default_keywords)
    as (Hformula & Hlo & Hhi & _).
  - discriminate.
  - vm_compute. reflexivity.
  - split; [exact Hformula|]. split; [exact Hlo | exact Hhi].
Defined.

(** C10 at a summarizer whose agent raises at every call. *)
Lemma generate_summary_returns_witness :
  exists s w',
    @StrandsAISummarizer.generate_summary Mock.World Mock.runtime (Mock.agent Mock.failing)
      (StrandsAISummarizer.mk Mock.test_config true) [Mock.article1] Mock.world0
    = (Ok s, w').
Proof.
  apply (@generate_summary_returns Mock.World Mock.runtime (Mock.agent Mock.failing)
           (StrandsAISummarizer.mk Mock.test_config true) [Mock.article1] Mock.world0).
  - reflexivity.
  - discriminate.
Defined.

(** ** The embedding on inputs of the tests *)

Example lower_example : PyStr.lower "OpenAI Releases GPT-5" = "openai releases gpt-5".
Proof. reflexivity. Qed.

(** Three terms of the default vocabulary occur in the article (ai, gpt,
    openai), all three in its title. *)
Example matches_example :
  Spec.matches NewsArticle.default_keywords Mock.article1 = 3
  /\ Spec.title_matches NewsArticle.default_keywords Mock.article1 = 3
  /\ Z.of_nat (length NewsArticle.default_keywords) = 18.
Proof. vm_compute. repeat split. Qed.

(** The score 3/18 + (3/18) * 0.3 passes the threshold 0.1 of
    [is_relevant]. *)
Example is_relevant_example :
  fst (NewsArticle.is_relevant Mock.article1 Float.lit_0_1) = true.
Proof. vm_compute. reflexivity. Qed.

Example remove_duplicates_example :
  GoogleNewsFetcher._remove_duplicates [Mock.article1; Mock.article1] = [Mock.article1].
Proof. vm_compute. reflexivity. Qed.

(** A narrative of at most 1000 characters is kept as it is. *)
Example simplified_summary_example :
  match fst (@LambdaHandler._create_simplified_summary Mock.World Mock.runtime
               Mock.summary1 Mock.world0) with
  | Ok s' => NewsSummary.summary s' = NewsSummary.summary Mock.summary1
             /\ NewsSummary.id s' = Some "summary-1"
  | Raise _ => False
  end.
Proof. vm_compute. split; reflexivity. Qed.

(* ================================================================== *)
(** * Part III.  Further properties of the code                         *)
(* ================================================================== *)

(** ** Articles *)

Section ArticleFacts.
Context `{PyLib} {W : Type} `{Runtime W}.

Lemma validate_raises_value_error (a : NewsArticle.t) (e : exn) :
  NewsArticle.validate a = Raise e -> exists m, e = NewsArticle.ValueError m.
Proof.
  unfold NewsArticle.validate. intros Hv.
  repeat match type of Hv with
         | (if ?c then _ else _) = _ => destruct c
         | match ?s with Some _ => _ | None => _ end = _ => destruct s
         end;
    try discriminate; injection Hv as <-; eexists; reflexivity.
Qed.

Lemma validate_ok_fields (a : NewsArticle.t) :
  NewsArticle.validate a = Ok tt ->
  PyStr.strip (NewsArticle.title a) <> ""
  /\ PyStr.strip (NewsArticle.content a) <> ""
  /\ PyStr.strip (NewsArticle.url a) <> ""
  /\ NewsArticle._is_valid_url (NewsArticle.url a) = true
  /\ PyStr.strip (NewsArticle.source a) <> ""
  /\ (forall s, NewsArticle.relevance_score a = Some s ->
        Float.leb Float.zero s = true /\ Float.leb s Float.one = true).
Proof.
  unfold NewsArticle.validate.
  destruct (PyStr.is_empty (NewsArticle.title a)
            || PyStr.is_empty (PyStr.strip (NewsArticle.title a))) eqn:Ht; [discriminate|].
  destruct (PyStr.is_empty (NewsArticle.content a)
            || PyStr.is_empty (PyStr.strip (NewsArticle.content a))) eqn:Hc; [discriminate|].
  destruct (PyStr.is_empty (NewsArticle.url a)
            || PyStr.is_empty (PyStr.strip (NewsArticle.url a))) eqn:Hu; [discriminate|].
  destruct (NewsArticle._is_valid_url (NewsArticle.url a)) eqn:Hv; [|discriminate].
  destruct (PyStr.is_empty (NewsArticle.source a)
            || PyStr.is_empty (PyStr.strip (NewsArticle.source a))) eqn:Hs; [discriminate|].
  cbn [negb]. intros Hscore.
  apply orb_false_elim in Ht as [_ Ht], Hc as [_ Hc], Hu as [_ Hu], Hs as [_ Hs].
  assert (forall s, PyStr.is_empty s = false -> s <> "") as Hne
    by (intros [|c s] E; [discriminate | discriminate]).
  split; [now apply Hne|]. split; [now apply Hne|]. split; [now apply Hne|].
  split; [reflexivity|]. split; [now apply Hne|].
  intros s0 Es. rewrite Es in Hscore.
  destruct (Float.leb Float.zero s0); [|discriminate].
  destruct (Float.leb s0 Float.one); [split; reflexivity | discriminate].
Qed.

Lemma article_new_cases (a : NewsArticle.t) (w : W) :
  match NewsArticle.new a w with
  | (Ok a', w') =>
      NewsArticle.validate a' = Ok tt
      /\ (exists i, NewsArticle.id a' = Some i)
      /\ a' = NewsArticle.set_id a (NewsArticle.id a')
      /\ (forall i, NewsArticle.id a = Some i -> a' = a /\ w' = w)
  | (Raise e, _) => exists m, e = NewsArticle.ValueError m
  end.
Proof.
  unfold NewsArticle.new.
  destruct a as [t c u p s [i|] sc]; cbn [NewsArticle.id].
  - run_step.
    destruct (NewsArticle.validate _) as [[]|e] eqn:Hv;
      [|now apply (validate_raises_value_error _ _ Hv)].
    split; [exact Hv|]. split; [eexists; reflexivity|]. split; [reflexivity|].
    intros ? _; split; reflexivity.
  - run_step. destruct (uuid4 w) as [i w1]. run_step.
    destruct (NewsArticle.validate _) as [[]|e] eqn:Hv;
      [|now apply (validate_raises_value_error _ _ Hv)].
    split; [exact Hv|]. split; [eexists; reflexivity|]. split; [reflexivity|].
    intros ? [=].
Qed.

(** X1.  The constructor of [NewsArticle] either raises [ValueError] or
    returns an article that has an identifier, passes [validate] (title,
    content, URL and source are not blank, the URL has a scheme and a
    network location, a stored score lies in [[0.0, 1.0]]) and differs
    from the fields given at most by the identifier it drew; an
    identifier that is given is kept and no [uuid4] is drawn. *)
Theorem article_constructor_valid_or_value_error (a : NewsArticle.t) (w : W) :
  match NewsArticle.new a w with
  | (Ok a', w') =>
      NewsArticle.validate a' = Ok tt
      /\ (exists i, NewsArticle.id a' = Some i)
      /\ a' = NewsArticle.set_id a (NewsArticle.id a')
      /\ (forall i, NewsArticle.id a = Some i -> a' = a /\ w' = w)
      /\ PyStr.strip (NewsArticle.title a') <> ""
      /\ PyStr.strip (NewsArticle.content a') <> ""
      /\ PyStr.strip (NewsArticle.url a') <> ""
      /\ NewsArticle._is_valid_url (NewsArticle.url a') = true
      /\ PyStr.strip (NewsArticle.source a') <> ""
      /\ (forall s, NewsArticle.relevance_score a' = Some s ->
            Float.leb Float.zero s = true /\ Float.leb s Float.one = true)
  | (Raise e, _) => exists m, e = NewsArticle.ValueError m
  end.
Proof.
  pose proof (article_new_cases a w) as Hnew.
  destruct (NewsArticle.new a w) as [[a'|e] w']; [|exact Hnew].
  destruct Hnew as (Hv & Hid & Hset & Hkeep).
  pose proof (validate_ok_fields _ Hv) as (Ht & Hc & Hu & Hvu & Hs & Hsc).
  split; [exact Hv|]. split; [exact Hid|]. split; [exact Hset|]. split; [exact Hkeep|].
  repeat split; try assumption; apply Hsc; assumption.
Qed.

End ArticleFacts.

Section DuplicateFacts.

Lemma words_inter_comm (x y : gset string) : x ∩ y = y ∩ x.
Proof. apply (comm_L (∩)). Qed.

Lemma words_union_comm (x y : gset string) : x ∪ y = y ∪ x.
Proof. apply (comm_L (∪)). Qed.

Lemma similarity_symmetric (t1 t2 : string) :
  NewsArticle._calculate_similarity t1 t2 = NewsArticle._calculate_similarity t2 t1.
Proof.
  unfold NewsArticle._calculate_similarity.
  generalize (list_to_set (PyStr.findall_words (PyStr.lower t1)) : gset string).
  generalize (list_to_set (PyStr.findall_words (PyStr.lower t2)) : gset string).
  intros words2 words1. cbv zeta.
  rewrite (andb_comm (bool_decide (words1 = ∅))), (orb_comm (bool_decide (words1 = ∅))).
  rewrite (words_inter_comm words1 words2), (words_union_comm words1 words2).
  reflexivity.
Qed.

(** X2.  [is_duplicate] does not depend on the order of the two
    articles, holds between an article and itself, and holds whenever the
    URLs are equal, whatever the titles. *)
Theorem is_duplicate_symmetric_reflexive (a b : NewsArticle.t) :
  NewsArticle.is_duplicate a b = NewsArticle.is_duplicate b a
  /\ NewsArticle.is_duplicate a a = true
  /\ (NewsArticle.url a = NewsArticle.url b -> NewsArticle.is_duplicate a b = true).
Proof.
  split; [|split].
  - unfold NewsArticle.is_duplicate.
    rewrite (String.eqb_sym (NewsArticle.url a)), (similarity_symmetric (NewsArticle.title a)).
    reflexivity.
  - apply is_duplicate_same_url. reflexivity.
  - apply is_duplicate_same_url.
Qed.

End DuplicateFacts.

(** ** Filtering and sorting the articles *)

Section FilterFacts.

Lemma SFcompare_antisym (x y : spec_float) :
  SFcompare y x = match SFcompare x y with Some c => Some (CompOpp c) | None => None end.
Proof.
  destruct x as [sx|sx| |sx mx ex], y as [sy|sy| |sy my ey];
    try destruct sx; try destruct sy; simpl; try reflexivity;
    rewrite (Z.compare_antisym ex ey); destruct (ex ?= ey); simpl; try reflexivity;
    rewrite (Pos.compare_cont_antisym mx my Eq); simpl;
    try rewrite CompOpp_involutive; reflexivity.
Qed.

Lemma ltb_asym (x y : Float.float) : Float.ltb x y = true -> Float.ltb y x = false.
Proof.
  unfold Float.ltb, SFltb. rewrite (SFcompare_antisym x y).
  destruct (SFcompare x y) as [[]|]; simpl; intros E; try discriminate; reflexivity.
Qed.

Lemma insert_desc_perm (a : NewsArticle.t) (l : list NewsArticle.t) :
  GoogleNewsFetcher.insert_desc a l ≡ₚ a :: l.
Proof.
  induction l as [|b l IH]; simpl; [reflexivity|].
  destruct (Float.ltb _ _); [|reflexivity].
  rewrite IH. apply Permutation_swap.
Qed.

Lemma sort_by_score_desc_perm (l : list NewsArticle.t) :
  GoogleNewsFetcher.sort_by_score_desc l ≡ₚ l.
Proof.
  unfold GoogleNewsFetcher.sort_by_score_desc.
  induction l as [|a l IH]; simpl; [reflexivity|].
  rewrite insert_desc_perm. now rewrite IH.
Qed.

Lemma insert_desc_descending (a : NewsArticle.t) (l : list NewsArticle.t) :
  Props.descending l -> Props.descending (GoogleNewsFetcher.insert_desc a l).
Proof.
  induction l as [|b l IH]; intros Hl; [exact I|].
  cbn [GoogleNewsFetcher.insert_desc].
  destruct (Float.ltb (GoogleNewsFetcher.sort_key a) (GoogleNewsFetcher.sort_key b)) eqn:Hab.
  - destruct l as [|c l].
    + simpl. split; [now apply ltb_asym | exact I].
    + destruct Hl as [Hbc Hl]. specialize (IH Hl).
      cbn [GoogleNewsFetcher.insert_desc] in *.
      destruct (Float.ltb (GoogleNewsFetcher.sort_key a) (GoogleNewsFetcher.sort_key c)).
      * split; [exact Hbc | exact IH].
      * split; [now apply ltb_asym | exact IH].
  - split; [exact Hab | exact Hl].
Qed.

Lemma sort_by_score_desc_descending (l : list NewsArticle.t) :
  Props.descending (GoogleNewsFetcher.sort_by_score_desc l).
Proof.
  unfold GoogleNewsFetcher.sort_by_score_desc.
  induction l as [|a l IH]; simpl; [exact I|]. now apply insert_desc_descending.
Qed.

Lemma scored_if_relevant_some (a a' : NewsArticle.t) :
  Props.scored_if_relevant a = Some a' ->
  a' = snd (NewsArticle.calculate_relevance_score a None)
  /\ exists s, NewsArticle.relevance_score a' = Some s
               /\ s = fst (NewsArticle.calculate_relevance_score a None)
               /\ Float.leb Float.lit_0_1 s = true.
Proof.
  unfold Props.scored_if_relevant, NewsArticle.is_relevant,
    NewsArticle.calculate_relevance_score.
  cbn [snd fst NewsArticle.relevance_score NewsArticle.set_relevance_score].
  unfold Float.geb.
  destruct (Float.leb Float.lit_0_1 _) eqn:Hge; [|discriminate].
  intros [= <-]. split; [reflexivity|].
  eexists. split; [reflexivity|]. split; [reflexivity | exact Hge].
Qed.

Lemma omap_length_le {A B} (f : A -> option B) (l : list A) :
  (length (omap f l) <= length l)%nat.
Proof. induction l as [|x l IH]; cbn; [lia|]. destruct (f x); cbn; lia. Qed.

Lemma filter_articles_pure_eq (articles : list NewsArticle.t) :
  GoogleNewsFetcher.filter_articles_pure articles
  = GoogleNewsFetcher.sort_by_score_desc
      (omap Props.scored_if_relevant (GoogleNewsFetcher._remove_duplicates articles)).
Proof. destruct articles; reflexivity. Qed.

(** X3.  [filter_articles] returns, highest score first, exactly the
    articles that remain after [_remove_duplicates] and whose score under
    the default vocabulary is at least 0.1, each with that score stored:
    nothing is added, no article of the result is followed by one with a
    strictly higher score, the result is never longer than the input, and
    an empty input gives an empty result. *)
Theorem filter_articles_sorted_relevant (articles : list NewsArticle.t) :
  let result := GoogleNewsFetcher.filter_articles_pure articles in
  (articles = [] -> result = [])
  /\ (length result <= length articles)%nat
  /\ result ≡ₚ omap Props.scored_if_relevant (GoogleNewsFetcher._remove_duplicates articles)
  /\ Forall (fun a => exists b s,
                 b ∈ articles
                 /\ a = snd (NewsArticle.calculate_relevance_score b None)
                 /\ NewsArticle.relevance_score a = Some s
                 /\ s = fst (NewsArticle.calculate_relevance_score b None)
                 /\ Float.leb Float.lit_0_1 s = true) result
  /\ Props.descending result.
Proof.
  cbv zeta. rewrite filter_articles_pure_eq.
  pose proof (sort_by_score_desc_perm
                (omap Props.scored_if_relevant (GoogleNewsFetcher._remove_duplicates articles)))
    as Hperm.
  destruct (fold_dedupe_extends articles []) as (r & Hr & Hsub).
  rewrite <- remove_duplicates_fold in Hr. simpl in Hr.
  split; [intros ->; reflexivity|].
  split.
  { rewrite Hperm. etransitivity; [apply omap_length_le|].
    rewrite Hr. now apply sublist_length. }
  split; [exact Hperm|].
  split; [|apply sort_by_score_desc_descending].
  apply Forall_forall. intros a Ha. rewrite Hperm in Ha.
  apply list_elem_of_omap in Ha as (b & Hb & Hsome).
  apply scored_if_relevant_some in Hsome as (-> & s & Hs & -> & Hge).
  exists b, (fst (NewsArticle.calculate_relevance_score b None)).
  split; [|repeat split; assumption].
  rewrite Hr in Hb. eapply elem_of_sublist; eassumption.
Qed.

End FilterFacts.

(** ** Converting the raw items of the news client *)

Section ConvertFacts.
Context {W : Type} `{Runtime W} `{GoogleNewsFetcher.GNews W} `{PyLib}.

Import GoogleNewsFetcher.

Lemma get_article_content_returns (raw : RawArticle) (w : W) :
  exists c w', _get_article_content raw w = (Ok c, w').
Proof.
  unfold _get_article_content. run_step.
  destruct (get_full_article (default "" (raw_url raw)) w) as [[[text|]|e] w1];
    eexists _, _; reflexivity.
Qed.

Lemma parse_published_date_returns (raw : RawArticle) (w : W) :
  exists d w', _parse_published_date raw w = (Ok d, w').
Proof.
  unfold _parse_published_date, datetime_now, eff, ret.
  destruct (PyStr.is_empty _); [destruct (clock_us w); eexists _, _; reflexivity|].
  destruct (dateutil_parse _); [|destruct (clock_us w)]; eexists _, _; reflexivity.
Qed.

Lemma create_news_article_cases (raw : RawArticle) (w : W) :
  exists r w',
    _create_news_article raw w = (Ok r, w')
    /\ (get_stripped (raw_title raw) = "" \/ get_stripped (raw_url raw) = "" ->
        r = None /\ w' = w)
    /\ (forall a, r = Some a ->
          NewsArticle.title a = get_stripped (raw_title raw)
          /\ NewsArticle.url a = get_stripped (raw_url raw)
          /\ NewsArticle.source a = default "Unknown" (raw_publisher_title raw)
          /\ NewsArticle.relevance_score a = None
          /\ (exists i, NewsArticle.id a = Some i)
          /\ NewsArticle.validate a = Ok tt).
Proof.
  unfold _create_news_article.
  destruct (PyStr.is_empty (get_stripped (raw_title raw))
            || PyStr.is_empty (get_stripped (raw_url raw))) eqn:Hempty.
  - exists None, w. split; [reflexivity|]. split; [intros _; split; reflexivity|].
    intros a [=].
  - apply orb_false_elim in Hempty as [Ht Hu].
    assert (get_stripped (raw_title raw) <> "" /\ get_stripped (raw_url raw) <> "")
      as [Ht' Hu'].
    { split; intros E; [rewrite E in Ht | rewrite E in Hu]; discriminate. }
    destruct (get_article_content_returns raw w) as (c & w1 & Hc).
    destruct (parse_published_date_returns raw w1) as (d & w2 & Hd).
    unfold bind at 1, catch at 1, bind at 1. rewrite Hc. unfold bind at 1. rewrite Hd.
    match goal with |- context [NewsArticle.new ?x w2] =>
      pose proof (article_new_cases x w2) as Hnew;
      destruct (NewsArticle.new x w2) as [[a|e] w3] end.
    + destruct Hnew as (Hv & Hid & Hset & _).
      exists (Some a), w3. split; [reflexivity|].
      split; [intros [E|E]; contradiction|].
      intros a' [= <-]. rewrite Hset. cbn.
      split; [reflexivity|]. split; [reflexivity|]. split; [reflexivity|].
      split; [reflexivity|]. split; [|rewrite <- Hset; exact Hv].
      destruct Hid as [i Hi]. exists i. exact Hi.
    + exists None, w3. split; [reflexivity|].
      split; [intros [E|E]; contradiction|]. intros a [=].
Qed.

(** X4.  [_create_news_article] never raises.  It returns [None],
    without calling the news client, for an item whose title or URL is
    missing or blank; an article that it returns passes [validate], has an
    identifier and no score, carries the stripped title and URL of the
    item, and has the publisher's title as its source, or ["Unknown"]. *)
Theorem create_news_article_never_raises (raw : RawArticle) (w : W) :
  exists r w',
    _create_news_article raw w = (Ok r, w')
    /\ (get_stripped (raw_title raw) = "" \/ get_stripped (raw_url raw) = "" ->
        r = None /\ w' = w)
    /\ (forall a, r = Some a ->
          NewsArticle.title a = get_stripped (raw_title raw)
          /\ NewsArticle.url a = get_stripped (raw_url raw)
          /\ NewsArticle.source a = default "Unknown" (raw_publisher_title raw)
          /\ NewsArticle.relevance_score a = None
          /\ (exists i, NewsArticle.id a = Some i)
          /\ NewsArticle.validate a = Ok tt).
Proof. apply create_news_article_cases. Qed.

Lemma convert_one_cases (cutoff : datetime) (raw : RawArticle) (self : t) (w : W) :
  exists r self' w',
    convert_one cutoff raw (self, w) = (Ok r, (self', w'))
    /\ match r with
       | Some a => (NewsArticle.url a ∉ _processed_urls self)
                   /\ _processed_urls self' = {[ NewsArticle.url a ]} ∪ _processed_urls self
                   /\ NewsArticle.validate a = Ok tt
                   /\ datetime_le (NewsArticle.published_at a) cutoff = Ok false
       | None => self' = self
       end.
Proof.
  unfold convert_one. run_step.
  destruct (create_news_article_cases raw w) as (r & w1 & Hc & _ & Hvalid).
  rewrite Hc. destruct r as [a|]; run_step;
    try (eexists None, _, _; split; reflexivity).
  destruct (datetime_le (NewsArticle.published_at a) cutoff) as [[|]|e] eqn:Hle; run_step;
    try (eexists None, _, _; split; reflexivity).
  case_bool_decide as Hin; [eexists None, _, _; split; reflexivity|].
  eexists (Some a), _, _. split; [reflexivity|]. split; [exact Hin|].
  split; [reflexivity|]. split; [|exact Hle].
  now destruct (Hvalid a eq_refl) as (_ & _ & _ & _ & _ & Hv).
Qed.

Lemma convert_loop_cases (cutoff : datetime) (raws : list RawArticle) :
  forall (self : t) (w : W),
  exists articles self' w',
    convert_loop cutoff raws (self, w) = (Ok articles, (self', w'))
    /\ (length articles <= length raws)%nat
    /\ _processed_urls self' = Spec.urls_of articles ∪ _processed_urls self
    /\ NoDup (map NewsArticle.url articles)
    /\ Forall (fun a => (NewsArticle.url a ∉ _processed_urls self)
                        /\ NewsArticle.validate a = Ok tt
                        /\ datetime_le (NewsArticle.published_at a) cutoff = Ok false)
              articles.
Proof.
  induction raws as [|raw raws IH]; intros self w; simpl.
  - exists [], self, w. run_step. unfold Spec.urls_of. simpl.
    split; [reflexivity|]. split; [lia|]. split; [now rewrite (left_id_L ∅ (∪))|].
    split; constructor.
  - destruct (convert_one_cases cutoff raw self w) as (r & self1 & w1 & Hone & Hr).
    destruct (IH self1 w1) as (articles & self2 & w2 & Hloop & Hlen & Hurls & Hnd & Hall).
    unfold bind at 1. rewrite Hone. unfold bind at 1. rewrite Hloop. unfold ret.
    destruct r as [a|].
    + destruct Hr as (Hnew & Hadd & Hv & Hle).
      exists (a :: articles), self2, w2. split; [reflexivity|].
      split; [simpl; lia|]. split.
      { rewrite Hurls, Hadd. unfold Spec.urls_of. simpl.
        rewrite (assoc_L (∪)). f_equal. apply (comm_L (∪)). }
      split.
      { simpl. constructor; [|exact Hnd].
        intros Hin. apply list_elem_of_fmap in Hin as (b & Hb & Hin).
        rewrite Forall_forall in Hall. destruct (Hall b Hin) as (Hfresh & _).
        apply Hfresh. rewrite Hadd, <- Hb. apply elem_of_union_l, elem_of_singleton.
        reflexivity. }
      constructor; [split; [exact Hnew | split; assumption]|].
      eapply Forall_impl; [exact Hall|]. intros b (Hfresh & Hvb & Hleb).
      split; [|split; assumption].
      intros Hin. apply Hfresh. rewrite Hadd. apply elem_of_union_r. exact Hin.
    + subst self1. exists articles, self2, w2. split; [reflexivity|].
      split; [simpl; lia|]. split; [exact Hurls|]. split; assumption.
Qed.

(** The cutoff: an [OverflowError] or the reading of the clock moved
    back by the hours, and the latter whenever the hours are a time range
    that the configuration accepts and the clock is a week past the least
    [datetime]. *)
Lemma datetime_sub_hours_cases (now : datetime) (hours : Z) :
  match datetime_sub_hours now hours with
  | Ok cutoff =>
      wall_us cutoff = wall_us now - hours * 3600 * DateTime.us_per_sec
      /\ utcoffset cutoff = utcoffset now
      /\ - 999999999 <= hours / 24 <= 999999999
      /\ DateTime.min_wall_us <= wall_us cutoff <= DateTime.max_wall_us
  | Raise e =>
      (exists m, e = PyException "OverflowError" m)
      /\ ~ (1 <= hours <= 168
            /\ DateTime.min_wall_us + 168 * 3600 * DateTime.us_per_sec <= wall_us now
               <= DateTime.max_wall_us)
  end.
Proof.
  unfold datetime_sub_hours. cbv zeta.
  destruct ((hours / 24 <? - 2 ^ 31) || (2 ^ 31 - 1 <? hours / 24)) eqn:E1.
  { split; [now eexists|]. intros [Hh _].
    assert (0 <= hours / 24 <= 7) by (split; [apply Z.div_pos | apply Z.div_le_upper_bound]; lia).
    apply orb_prop in E1 as [E|E]; apply Z.ltb_lt in E; lia. }
  destruct ((hours / 24 <? - 999999999) || (999999999 <? hours / 24)) eqn:E2.
  { split; [now eexists|]. intros [Hh _].
    assert (0 <= hours / 24 <= 7) by (split; [apply Z.div_pos | apply Z.div_le_upper_bound]; lia).
    apply orb_prop in E2 as [E|E]; apply Z.ltb_lt in E; lia. }
  apply orb_false_elim in E2 as [E2a E2b].
  apply Z.ltb_ge in E2a. apply Z.ltb_ge in E2b.
  destruct ((wall_us now - hours * 3600 * DateTime.us_per_sec <? DateTime.min_wall_us)
            || (DateTime.max_wall_us <? wall_us now - hours * 3600 * DateTime.us_per_sec))
    eqn:E3.
  { split; [now eexists|]. intros [Hh Hnow].
    unfold DateTime.min_wall_us, DateTime.max_wall_us, DateTime.us_per_day,
      DateTime.us_per_sec in *.
    apply orb_prop in E3 as [E|E]; apply Z.ltb_lt in E; lia. }
  apply orb_false_elim in E3 as [E3a E3b].
  apply Z.ltb_ge in E3a. apply Z.ltb_ge in E3b.
  cbn [wall_us utcoffset]. repeat split; lia.
Qed.

(** X5.  [_convert_to_news_articles] reads the clock and computes the
    cutoff, the local time minus the time range, before it looks at any
    item.  When that computation overflows (a time range beyond what
    [timedelta] holds, or a cutoff outside the years 1 to 9999) it raises
    the [OverflowError] with the fetcher as it was; this does not happen
    for a time range from 1 to 168 hours and a clock at least a week
    after the least [datetime].  Otherwise it does not raise: an item
    that fails is skipped.  It then returns at most one article per raw
    item; the articles it returns have pairwise different URLs, none of
    them processed before the call, pass [validate], and were published
    strictly after the cutoff. *)
Theorem convert_to_news_articles_skips_or_overflows (raws : list RawArticle) (hours : Z)
        (self : t) (w : W) :
  let now := {| wall_us := fst (clock_us w) + local_utcoffset * DateTime.us_per_sec;
                utcoffset := None |} in
  match datetime_sub_hours now hours with
  | Ok cutoff =>
      wall_us cutoff = wall_us now - hours * 3600 * DateTime.us_per_sec
      /\ exists articles self' w',
          _convert_to_news_articles raws hours (self, w) = (Ok articles, (self', w'))
          /\ (length articles <= length raws)%nat
          /\ NoDup (map NewsArticle.url articles)
          /\ Forall (fun a => (NewsArticle.url a ∉ _processed_urls self)
                              /\ NewsArticle.validate a = Ok tt
                              /\ datetime_le (NewsArticle.published_at a) cutoff = Ok false)
                    articles
  | Raise e =>
      _convert_to_news_articles raws hours (self, w) = (Raise e, (self, snd (clock_us w)))
      /\ (exists m, e = PyException "OverflowError" m)
      /\ ~ (1 <= hours <= 168
            /\ DateTime.min_wall_us + 168 * 3600 * DateTime.us_per_sec <= wall_us now
               <= DateTime.max_wall_us)
  end.
Proof.
  cbv zeta. unfold _convert_to_news_articles, datetime_now. run_step.
  destruct (clock_us w) as [t0 w1]. cbn [fst snd].
  pose proof (datetime_sub_hours_cases
                {| wall_us := t0 + local_utcoffset * DateTime.us_per_sec; utcoffset := None |}
                hours) as Hcut.
  destruct (datetime_sub_hours _ hours) as [cutoff|e].
  - destruct Hcut as (Hwall & _).
    split; [exact Hwall|].
    destruct (convert_loop_cases cutoff raws self w1)
      as (articles & self' & w' & Hloop & Hlen & _ & Hnd & Hall).
    exists articles, self', w'. split; [exact Hloop|]. split; [exact Hlen|].
    split; [exact Hnd | exact Hall].
  - destruct Hcut as (Hm & Hout). split; [reflexivity|]. split; assumption.
Qed.

End ConvertFacts.

(** ** The retries of the search *)

(** X6.  Against a news client that answers its calls by a script,
    [_fetch_with_retry] searches at least once and at most three times
    and leaves the fetcher as it is.  It returns the items of the first
    search that has any; it returns the empty list only when the third
    search is empty, and raises only what the third search raises.  It
    sleeps one second after a first search that raised and two seconds
    after a second search that raised, and never after the third. *)
Theorem fetch_with_retry_attempts (sc : Mock.Script) (query : string)
        (self : GoogleNewsFetcher.t) (w : Mock.World) :
  let n := Mock.get_news_calls w in
  let run := @GoogleNewsFetcher._fetch_with_retry Mock.World Mock.runtime (Mock.gnews sc)
               query 3 (self, w) in
  let w' := snd (snd run) in
  fst (snd run) = self
  /\ (n < Mock.get_news_calls w' <= n + 3)%nat
  /\ (forall item items, fst run = Ok (item :: items) ->
        Mock.on_get_news sc (Mock.get_news_calls w' - 1) = Ok (item :: items)
        /\ forall k, (n <= k < Mock.get_news_calls w' - 1)%nat ->
                     forall i l, Mock.on_get_news sc k <> Ok (i :: l))
  /\ (fst run = Ok [] ->
        Mock.get_news_calls w' = (n + 3)%nat /\ Mock.on_get_news sc (n + 2) = Ok [])
  /\ (forall e, fst run = Raise e ->
        Mock.get_news_calls w' = (n + 3)%nat /\ Mock.on_get_news sc (n + 2) = Raise e)
  /\ Mock.sleeps w' =
       Mock.sleeps w
       ++ (match Mock.on_get_news sc n with
           | Raise _ => [1]
           | Ok _ => []
           end)
       ++ (match Mock.on_get_news sc n, Mock.on_get_news sc (n + 1) with
           | Ok (_ :: _), _ => []
           | _, Raise _ => [2]
           | _, _ => []
           end).
Proof.
  cbv zeta. destruct w as [clk uu fc flc smc pc nnc gnc ic sl].
  cbn [Mock.get_news_calls Mock.sleeps].
  replace (gnc + 1)%nat with (S gnc) by lia.
  replace (gnc + 2)%nat with (S (S gnc)) by lia.
  unfold GoogleNewsFetcher._fetch_with_retry.
  destruct (Mock.on_get_news sc gnc) as [[|i1 l1]|e1] eqn:E1;
    destruct (Mock.on_get_news sc (S gnc)) as [[|i2 l2]|e2] eqn:E2;
    destruct (Mock.on_get_news sc (S (S gnc))) as [[|i3 l3]|e3] eqn:E3;
    repeat (cbn; rewrite ?E1, ?E2, ?E3;
            change (Z.of_nat 3 - 1) with 2;
            change (0 + 1 + 1 =? 2) with true;
            change (0 + 1 =? 2) with false;
            change (0 =? 2) with false;
            change (2 ^ 0) with 1; change (2 ^ (0 + 1)) with 2);

    repeat split; try lia; rewrite ?app_nil_r; try reflexivity; try assumption;
    intros; try discriminate.
  all: try (rewrite <- app_assoc; reflexivity).
  all: try (rewrite Nat.sub_0_r; congruence).
  all: match goal with
       | Hk : (?a <= ?k < S ?a)%nat |- _ =>
           assert (k = a) as -> by lia; congruence
       | Hk : (?a <= ?k < S (S ?a))%nat |- _ =>
           assert (k = a \/ k = S a) as [->| ->] by lia; congruence
       end.
Qed.

(** ** Stripping *)

Section StripFacts.

Lemma lstrip_head (s : string) :
  match PyStr.lstrip s with
  | EmptyString => True
  | String c _ => PyStr.is_space c = false
  end.
Proof.
  induction s as [|c s IH]; simpl; [exact I|].
  destruct (PyStr.is_space c) eqn:E; [exact IH | exact E].
Qed.

Lemma lstrip_fixed (c : ascii) (s : string) :
  PyStr.is_space c = false -> PyStr.lstrip (String c s) = String c s.
Proof. intros E. simpl. now rewrite E. Qed.

Lemma rstrip_head (c : ascii) (s : string) :
  PyStr.is_space c = false ->
  exists r, PyStr.rstrip (String c s) = String c r.
Proof.
  intros E. simpl. destruct (PyStr.rstrip s); [rewrite E|]; eexists; reflexivity.
Qed.

Lemma rstrip_cons (c : ascii) (s : string) :
  PyStr.rstrip (String c s)
  = match PyStr.rstrip s with
    | EmptyString => if PyStr.is_space c then EmptyString else String c EmptyString
    | r => String c r
    end.
Proof. reflexivity. Qed.

Lemma rstrip_idempotent (s : string) : PyStr.rstrip (PyStr.rstrip s) = PyStr.rstrip s.
Proof.
  induction s as [|c s IH]; [reflexivity|].
  rewrite rstrip_cons. destruct (PyStr.rstrip s) as [|d r] eqn:Er.
  - destruct (PyStr.is_space c) eqn:E; [reflexivity|].
    rewrite rstrip_cons. simpl. now rewrite E.
  - rewrite rstrip_cons, IH. reflexivity.
Qed.

Lemma strip_idempotent (s : string) : PyStr.strip (PyStr.strip s) = PyStr.strip s.
Proof.
  unfold PyStr.strip. pose proof (lstrip_head s) as Hh.
  destruct (PyStr.lstrip s) as [|c t]; [reflexivity|].
  destruct (rstrip_head c t Hh) as [r Hr]. rewrite Hr.
  rewrite (lstrip_fixed c r Hh), <- Hr. apply rstrip_idempotent.
Qed.

End StripFacts.

(** ** The summarizer *)

Section KeyPointFacts.

Import StrandsAISummarizer.

Lemma parse_key_point_line_some (line k : string) :
  parse_key_point_line line = Some k -> k <> "" /\ Props.stripped k.
Proof.
  unfold parse_key_point_line, Props.stripped.
  assert (forall s, (if PyStr.is_empty (PyStr.strip s) then None else Some (PyStr.strip s))
                    = Some k ->
                    k <> "" /\ PyStr.strip k = k) as Hkeep.
  { intros s. destruct (PyStr.is_empty (PyStr.strip s)) eqn:E; [discriminate|].
    intros [= <-]. split; [|apply strip_idempotent].
    intros E'. rewrite E' in E. discriminate. }
  destruct (PyStr.startswith bullet (PyStr.strip line)); [apply Hkeep|].
  destruct (PyStr.startswith "-" (PyStr.strip line) || PyStr.startswith "*" (PyStr.strip line));
    [apply Hkeep|].
  destruct (PyStr.strip line) as [|c r]; [discriminate|].
  destruct (PyStr.is_digit c); [|discriminate].
  destruct (PyStr.after_first "." (String c r)); [apply Hkeep | discriminate].
Qed.

(** X7.  [_parse_key_points_response] returns at most eight key points;
    none of them is empty and none has white space at either end.  A
    blank response gives no key point, and so does a response none of
    whose lines starts, after stripping, with a bullet, a dash, a star or
    a digit. *)
Theorem parse_key_points_bounds (response_content : string) :
  let key_points := _parse_key_points_response response_content in
  (length key_points <= 8)%nat
  /\ Forall (fun k => k <> "" /\ Props.stripped k) key_points
  /\ (PyStr.strip response_content = "" -> key_points = [])
  /\ (Forall (fun line => match PyStr.strip line with
                          | EmptyString => True
                          | String c _ =>
                              PyStr.startswith bullet (PyStr.strip line) = false
                              /\ c <> "-"%char /\ c <> "*"%char
                              /\ PyStr.is_digit c = false
                          end)
             (PyStr.split (ascii_of_nat 10) (PyStr.strip response_content)) ->
      key_points = []).
Proof.
  cbv zeta. unfold _parse_key_points_response.
  split; [rewrite length_take; lia|].
  split.
  { apply Forall_take, Forall_forall. intros k Hk.
    apply list_elem_of_omap in Hk as (line & _ & Hline).
    now apply (parse_key_point_line_some line). }
  split; [intros ->; reflexivity|].
  intros Hlines.
  replace (omap parse_key_point_line
             (PyStr.split (ascii_of_nat 10) (PyStr.strip response_content)))
    with (@nil string); [reflexivity|].
  induction Hlines as [|line lines Hline _ IH]; [reflexivity|].
  cbn [omap list_omap]. rewrite <- IH.
  unfold parse_key_point_line.
  destruct (PyStr.strip line) as [|c r] eqn:Es; [reflexivity|].
  destruct Hline as (Hb & Hd & Hs & Hdig). rewrite Hb.
  unfold PyStr.startswith. cbn [String.prefix].
  destruct (Ascii.ascii_dec "-" c) as [<-|_]; [contradiction|].
  destruct (Ascii.ascii_dec "*" c) as [<-|_]; [contradiction|].
  rewrite Hdig. reflexivity.
Qed.

End KeyPointFacts.

(** ** Calling the agent *)

Section AgentRetryFacts.
Context {W : Type} `{Runtime W} `{StrandsAISummarizer.Agent W}.

Import StrandsAISummarizer.


Lemma execute_loop_failure (prompt : string) (max_retries : Z) (remaining : nat) :
  forall (attempt : Z) (last : option exn) (w w' : W) (e : exn),
    _execute_with_retry_loop prompt max_retries attempt remaining last w = (Raise e, w') ->
    exists m, e = Exception ("Failed after " +:+ pretty max_retries +:+ " attempts: " +:+ m).
Proof.
  induction remaining as [|n IH]; intros attempt last w w' e; simpl.
  - unfold raise. intros [= <- _]. eexists; reflexivity.
  - run_step. destruct (invoke_async prompt w) as [[r|e0] w1]; [intros [=]|].
    destruct (PyStr.contains "rate limit" _ || PyStr.contains "throttl" _).
    { destruct (attempt <? max_retries - 1); run_step;
        [destruct (asyncio_sleep _ w1)|]; apply IH. }
    destruct (PyStr.contains "model" _ || PyStr.contains "bedrock" _).
    { destruct (attempt <? max_retries - 1); run_step;
        [destruct (asyncio_sleep _ w1)|]; apply IH. }
    intros [= <- _]. eexists; reflexivity.
Qed.

(** X8.  [_execute_with_retry] returns the response of the first call
    when that call succeeds.  Whenever it fails it raises an [Exception]
    whose message starts with the number of attempts allowed, whatever was
    raised inside; an error that is not transient (its message names no
    rate limit, throttling, model or Bedrock) ends it after that one call,
    without a sleep; and with no attempt allowed it fails without calling
    the agent. *)
Theorem execute_with_retry_outcomes (prompt : string) (max_retries : nat) (w : W) :
  (forall e w', _execute_with_retry prompt max_retries w = (Raise e, w') ->
     exists m, e = Exception ("Failed after " +:+ pretty (Z.of_nat max_retries)
                              +:+ " attempts: " +:+ m))
  /\ (forall r w1, (0 < max_retries)%nat -> invoke_async prompt w = (Ok r, w1) ->
        _execute_with_retry prompt max_retries w = (Ok r, w1))
  /\ (forall e0 w1, (0 < max_retries)%nat -> invoke_async prompt w = (Raise e0, w1) ->
        Props.transient e0 = false ->
        _execute_with_retry prompt max_retries w
        = (Raise (Exception ("Failed after " +:+ pretty (Z.of_nat max_retries)
                             +:+ " attempts: " +:+ exn_str e0)), w1))
  /\ (max_retries = 0%nat ->
      _execute_with_retry prompt max_retries w
      = (Raise (Exception ("Failed after 0 attempts: None")), w)).
Proof.
  unfold _execute_with_retry. split; [|split; [|split]].
  - intros e w'. apply execute_loop_failure.
  - intros r w1 Hpos Hcall. destruct max_retries as [|n]; [lia|].
    cbn [_execute_with_retry_loop]. run_step. rewrite Hcall. reflexivity.
  - intros e0 w1 Hpos Hcall Htr. destruct max_retries as [|n]; [lia|].
    cbn [_execute_with_retry_loop]. run_step. rewrite Hcall.
    unfold Props.transient in Htr.
    apply orb_false_elim in Htr as [Htr Hb].
    apply orb_false_elim in Htr as [Htr Hm].
    rewrite Htr, Hm, Hb. reflexivity.
  - intros ->. reflexivity.
Qed.

End AgentRetryFacts.

Lemma execute_loop_calls (sc : Mock.Script) (prompt : string) (remaining : nat) :
  forall (attempt : Z) (last : option exn) (w : Mock.World),
    0 <= attempt ->
    let run := @StrandsAISummarizer._execute_with_retry_loop Mock.World Mock.runtime
                 (Mock.agent sc) prompt 3 attempt remaining last w in
    (Mock.invoke_calls w <= Mock.invoke_calls (snd run) <= Mock.invoke_calls w + remaining)%nat
    /\ ((0 < remaining)%nat -> (Mock.invoke_calls w < Mock.invoke_calls (snd run))%nat)
    /\ (forall r, fst run = Ok r ->
          (0 < Mock.invoke_calls (snd run))%nat
          /\ Mock.on_invoke sc (Mock.invoke_calls (snd run) - 1) prompt = Ok r)
    /\ exists s, Mock.sleeps (snd run) = Mock.sleeps w ++ s
                 /\ (length s <= Z.to_nat (2 - attempt))%nat
                 /\ Forall (fun d => d = 1 \/ d = 2) s.
Proof.
  induction remaining as [|n IH]; intros attempt last w Hatt.
  - cbn. split; [lia|]. split; [lia|]. split; [intros r [=]|].
    exists []. rewrite app_nil_r. split; [reflexivity|]. split; [simpl; lia | constructor].
  - cbn [StrandsAISummarizer._execute_with_retry_loop]. cbv zeta. run_step.
    destruct w as [clk uu fc flc smc pc nnc gnc ic sl]. cbn [StrandsAISummarizer.invoke_async Mock.agent Mock.invoke_calls fst snd].
    destruct (Mock.on_invoke sc ic prompt) as [r|e] eqn:Ecall.
    { cbn. split; [lia|]. split; [lia|].
      split; [intros r' [= <-]; split; [lia|]; now rewrite Nat.sub_0_r|].
      exists []. rewrite app_nil_r. split; [reflexivity|]. split; [simpl; lia | constructor]. }
    assert (forall (w1 : Mock.World) (s0 : list Z) (a1 : Z),
              Mock.invoke_calls w1 = S ic -> Mock.sleeps w1 = sl ++ s0 ->
              a1 = attempt + 1 ->
              (length s0 + Z.to_nat (2 - a1) <= Z.to_nat (2 - attempt))%nat ->
              Forall (fun d => d = 1 \/ d = 2) s0 ->
              let run := @StrandsAISummarizer._execute_with_retry_loop Mock.World Mock.runtime
                           (Mock.agent sc) prompt 3 a1 n (Some e) w1 in
              (ic <= Mock.invoke_calls (snd run) <= ic + S n)%nat
              /\ ((0 < S n)%nat -> (ic < Mock.invoke_calls (snd run))%nat)
              /\ (forall r, fst run = Ok r ->
                    (0 < Mock.invoke_calls (snd run))%nat
                    /\ Mock.on_invoke sc (Mock.invoke_calls (snd run) - 1) prompt = Ok r)
              /\ exists s, Mock.sleeps (snd run) = sl ++ s
                           /\ (length s <= Z.to_nat (2 - attempt))%nat
                           /\ Forall (fun d => d = 1 \/ d = 2) s) as Hnext.
    { intros w1 s0 a1 Hc Hs -> Hlen Hall. cbv zeta.
      destruct (IH (attempt + 1) (Some e) w1 ltac:(lia)) as (Hb & _ & Hok & s & Hsl & Hl & Hf).
      rewrite Hc in Hb. split; [lia|]. split; [intros _; lia|]. split; [exact Hok|].
      exists (s0 ++ s). rewrite Hsl, Hs, app_assoc. split; [reflexivity|].
      split; [rewrite length_app; lia | now apply Forall_app]. }
    cbn [Mock.invoke_calls Mock.sleeps].
    assert ((attempt <? 3 - 1) = true -> (attempt = 0 \/ attempt = 1)) as Hlt
      by (intros E; apply Z.ltb_lt in E; lia).
    assert (forall d, (attempt <? 3 - 1) = true -> d = 2 ^ attempt -> d = 1 \/ d = 2) as Hpow.
    { intros d E ->. destruct (Hlt E) as [-> | ->]; [left | right]; reflexivity. }
    destruct (PyStr.contains "rate limit" _ || PyStr.contains "throttl" _).
    { destruct (attempt <? 3 - 1) eqn:E; run_step; cbn [Mock.runtime asyncio_sleep fst snd].
      - apply (Hnext _ [2 ^ attempt]); try reflexivity.
        + destruct (Hlt eq_refl) as [-> | ->]; simpl; lia.
        + constructor; [now apply Hpow | constructor].
      - apply (Hnext _ []); try reflexivity; [now rewrite app_nil_r | | constructor].
        apply Z.ltb_ge in E. simpl. lia. }
    destruct (PyStr.contains "model" _ || PyStr.contains "bedrock" _).
    { destruct (attempt <? 3 - 1) eqn:E; run_step; cbn [Mock.runtime asyncio_sleep fst snd].
      - apply (Hnext _ [1]); try reflexivity.
        + destruct (Hlt eq_refl) as [-> | ->]; simpl; lia.
        + constructor; [now left | constructor].
      - apply (Hnext _ []); try reflexivity; [now rewrite app_nil_r | | constructor].
        apply Z.ltb_ge in E. simpl. lia. }
    cbn. split; [lia|]. split; [lia|]. split; [intros r [=]|].
    exists []. rewrite app_nil_r. split; [reflexivity|]. split; [simpl; lia | constructor].
Qed.

(** X9.  Against an agent that answers its calls by a script,
    [_execute_with_retry] with three attempts calls the agent at least
    once and at most three times; a response that it returns is the
    answer of the last call it made; and it sleeps at most twice, one or
    two seconds each time, never after the third call. *)
Theorem execute_with_retry_attempts (sc : Mock.Script) (prompt : string) (w : Mock.World) :
  let run := @StrandsAISummarizer._execute_with_retry Mock.World Mock.runtime
               (Mock.agent sc) prompt 3 w in
  (Mock.invoke_calls w < Mock.invoke_calls (snd run) <= Mock.invoke_calls w + 3)%nat
  /\ (forall r, fst run = Ok r ->
        Mock.on_invoke sc (Mock.invoke_calls (snd run) - 1) prompt = Ok r)
  /\ exists s, Mock.sleeps (snd run) = Mock.sleeps w ++ s
               /\ (length s <= 2)%nat
               /\ Forall (fun d => d = 1 \/ d = 2) s.
Proof.
  cbv zeta. unfold StrandsAISummarizer._execute_with_retry.
  destruct (execute_loop_calls sc prompt 3 0 None w ltac:(lia))
    as (Hb & Hpos & Hok & s & Hs & Hl & Hf).
  change (Z.of_nat 3) with 3.
  split; [split; [apply Hpos; lia | lia]|].
  split; [intros r Hr; now apply Hok|].
  exists s. split; [exact Hs|]. split; [exact Hl | exact Hf].
Qed.

Section SummaryFacts.
Context {W : Type} `{Runtime W} `{StrandsAISummarizer.Agent W}.

Import StrandsAISummarizer.

Lemma extract_key_points_cases (self : t) (articles : list NewsArticle.t) (w : W) :
  match extract_key_points self articles w with
  | (Ok key_points, w') =>
      (length key_points <= 8)%nat
      /\ (articles = [] -> key_points = [] /\ w' = w)
      /\ (articles <> [] -> agent self = true)
  | (Raise e, w') =>
      articles <> [] /\ agent self = false
      /\ e = Exception "Strands agent not initialized" /\ w' = w
  end.
Proof.
  unfold extract_key_points. destruct articles as [|a l].
  - cbn. split; [lia|]. split; [intros _; split; reflexivity | intros E; contradiction].
  - destruct (agent self); cbn [negb].
    + unfold try_except, bind.
      destruct (_execute_with_retry _ 3 w) as [[response|e] w1].
      * unfold response_content. destruct response as [content|]; unfold ret, raise.
        -- split; [unfold _parse_key_points_response; rewrite length_take; lia|].
           split; [intros [=] | reflexivity].
        -- unfold _generate_fallback_key_points.
           split; [rewrite length_map, length_take; lia|].
           split; [intros [=] | reflexivity].
      * cbn. unfold _generate_fallback_key_points.
        split; [rewrite length_map, length_take; lia|].
        split; [intros [=] | reflexivity].
    + cbn. repeat split. discriminate.
Qed.

(** X10.  [extract_key_points] returns at most eight key points.  For an
    empty list of articles it returns none and does not call the agent,
    even when the agent is not initialized; for articles it raises only
    when the agent is not initialized, which it reports before any call.
    With an agent, it asks for the key points with three attempts: the
    content of a response is parsed by [_parse_key_points_response], and
    a failure of the agent or a response without content is answered
    with the fallback key points of [_generate_fallback_key_points], the
    title and source of each of the first five articles. *)
Theorem extract_key_points_bounded (self : t) (articles : list NewsArticle.t) (w : W) :
  match extract_key_points self articles w with
  | (Ok key_points, w') =>
      (length key_points <= 8)%nat
      /\ (articles = [] -> key_points = [] /\ w' = w)
      /\ (articles <> [] -> agent self = true)
  | (Raise e, w') =>
      articles <> [] /\ agent self = false
      /\ e = Exception "Strands agent not initialized" /\ w' = w
  end
  /\ (articles <> [] -> agent self = true ->
      match _execute_with_retry
              (_create_key_points_prompt (_prepare_articles_for_summarization articles)
                                         articles) 3 w with
      | (Ok (Some content), w1) =>
          extract_key_points self articles w
          = (Ok (_parse_key_points_response content), w1)
      | (Ok None, w1) | (Raise _, w1) =>
          extract_key_points self articles w
          = (Ok (_generate_fallback_key_points articles), w1)
      end)
  /\ _generate_fallback_key_points articles
     = map (fun article => NewsArticle.title article +:+ " - " +:+ NewsArticle.source article)
           (take 5 articles)
  /\ length (_generate_fallback_key_points articles) = Nat.min 5 (length articles).
Proof.
  split; [apply extract_key_points_cases|]. split.
  - intros Hne Hagent. unfold extract_key_points.
    destruct articles as [|a l]; [contradiction|].
    rewrite Hagent. cbn [negb]. unfold try_except, bind.
    destruct (_execute_with_retry _ 3 w) as [[[content|]|e] w1]; reflexivity.
  - split; [reflexivity|].
    unfold _generate_fallback_key_points. now rewrite length_map, length_take.
Qed.

Lemma fallback_summary_fields (self : t) (articles : list NewsArticle.t) (w : W) :
  exists s w',
    _fallback_summary_generation self articles w = (Ok s, w')
    /\ NewsSummary.article_count s = Z.of_nat (length articles)
    /\ NewsSummary.sources s = _create_article_sources articles
    /\ length (NewsSummary.key_points s) = Nat.min 5 (length articles)
    /\ (exists i, NewsSummary.id s = Some i)
    /\ NewsSummary.summary s
       = "Recent Generative AI developments include: "
         +:+ PyStr.join "; "
               (map (fun article => NewsArticle.title article +:+ " ("
                                    +:+ NewsArticle.source article +:+ ")")
                    (take 5 articles)).
Proof.
  unfold _fallback_summary_generation, datetime_now_utc, bind, eff.
  destruct (clock_us w) as [t0 w1].
  unfold NewsSummary.new, bind, eff, ret. cbn [NewsSummary.id].
  destruct (uuid4 w1) as [i w2].
  eexists _, _. split; [reflexivity|]. cbn.
  split; [reflexivity|]. split; [reflexivity|].
  split; [now rewrite length_map, length_take|].
  split; [eexists; reflexivity | reflexivity].
Qed.

(** X11.  [generate_summary] checks the list of articles before the
    agent: an empty list raises [ValueError] and, for articles, a missing
    agent raises [Exception], in both cases before anything is called.
    A summary that it returns, from the agent or from the fallback,
    counts exactly the articles given, lists one source per article in
    the order given, holds at most eight key points and has an
    identifier. *)
Theorem generate_summary_result (self : t) (articles : list NewsArticle.t) (w : W) :
  match generate_summary self articles w with
  | (Ok s, w') =>
      articles <> [] /\ agent self = true
      /\ NewsSummary.article_count s = Z.of_nat (length articles)
      /\ NewsSummary.sources s = _create_article_sources articles
      /\ length (NewsSummary.sources s) = length articles
      /\ (length (NewsSummary.key_points s) <= 8)%nat
      /\ (exists i, NewsSummary.id s = Some i)
  | (Raise e, w') =>
      w' = w
      /\ ((articles = []
           /\ e = PyException "ValueError" "Cannot generate summary from empty article list")
          \/ (articles <> [] /\ agent self = false
              /\ e = Exception "Strands agent not initialized"))
  end.
Proof.
  unfold generate_summary, generate_summary_with.
  destruct articles as [|a l]; [cbn; split; [reflexivity | left; split; reflexivity]|].
  destruct (agent self) eqn:Hagent; cbn [negb];
    [|cbn; split; [reflexivity | right; repeat split; discriminate]].
  unfold try_except.
  destruct (primary_summary self (a :: l) w) as [[s|e] w1] eqn:Hprimary.
  - unfold primary_summary in Hprimary. unfold bind at 1 in Hprimary.
    destruct (_generate_summary_text self _ w) as [[text|e] w2]; [|discriminate].
    unfold bind at 1 in Hprimary.
    pose proof (extract_key_points_cases self (a :: l) w2) as Hkp.
    destruct (extract_key_points self (a :: l) w2) as [[kps|e] w3]; [|discriminate].
    destruct Hkp as (Hlen & _).
    unfold datetime_now_utc, bind, eff in Hprimary. destruct (clock_us w3) as [t0 w4].
    unfold NewsSummary.new, bind, eff, ret in Hprimary. cbn [NewsSummary.id] in Hprimary.
    destruct (uuid4 w4) as [i w5]. injection Hprimary as <- <-.
    cbn [NewsSummary.article_count NewsSummary.sources NewsSummary.key_points NewsSummary.id].
    split; [discriminate|]. split; [reflexivity|]. split; [reflexivity|].
    split; [reflexivity|].
    split; [unfold _create_article_sources; simpl; now rewrite length_map|].
    split; [exact Hlen | eexists; reflexivity].
  - destruct (fallback_summary_fields self (a :: l) w1)
      as (s & w2 & -> & Hcount & Hsrc & Hkp & Hid & _).
    split; [discriminate|]. split; [reflexivity|]. split; [exact Hcount|].
    split; [exact Hsrc|]. split; [rewrite Hsrc; apply length_map|].
    split; [rewrite Hkp; lia | exact Hid].
Qed.

End SummaryFacts.

(** ** The stages of the handler *)

Section StageFacts.
Context {W : Type} `{Runtime W} `{LambdaHandler.Services W} `{PyLib}.

Import LambdaHandler.



Lemma handler_fallback_summary_fields (articles : list NewsArticle.t) (w : W) :
  exists s w',
    _generate_fallback_summary articles w = (Ok s, w')
    /\ NewsSummary.article_count s = Z.of_nat (length articles)
    /\ length (NewsSummary.sources s) = Nat.min 10 (length articles)
    /\ length (NewsSummary.key_points s) = Nat.min 8 (length articles)
    /\ Forall (fun k => (String.length k <= 103)%nat) (NewsSummary.key_points s)
    /\ (exists i, NewsSummary.id s = Some i).
Proof.
  unfold _generate_fallback_summary, datetime_now_utc, bind, eff.
  destruct (clock_us w) as [t0 w1].
  unfold NewsSummary.new, bind, eff, ret. cbn [NewsSummary.id].
  destruct (uuid4 w1) as [i w2].
  eexists _, _. split; [reflexivity|].
  cbn [NewsSummary.article_count NewsSummary.sources NewsSummary.key_points NewsSummary.id].
  split; [reflexivity|].
  split; [now rewrite length_map, length_take|].
  split; [rewrite length_take, length_map, length_take; lia|].
  split; [|eexists; reflexivity].
  apply Forall_take, Forall_map, Forall_forall. intros a _.
  rewrite str_length_append, str_length_take.
  destruct (100 <? String.length (NewsArticle.title a))%nat;
    [change (String.length "...") with 3%nat | change (String.length "") with 0%nat]; lia.
Qed.

(** X13.  The summary stage of the handler never raises.  It returns the
    summary of the summarizer when there is one; when the summarizer
    raises, it returns the handler's own fallback summary, which counts
    all the articles given, lists the first ten as sources, and holds one
    key point for each of the first eight, of at most 103 characters. *)
Theorem summary_stage_never_raises (articles : list NewsArticle.t)
        (correlation_id : PyVal.t) (w : W) :
  exists s w',
    _generate_summary_with_recovery articles correlation_id w = (Ok s, w')
    /\ (forall s0 w1, generate_summary articles w = (Ok s0, w1) -> s = s0 /\ w' = w1)
    /\ (forall e w1, generate_summary articles w = (Raise e, w1) ->
          _generate_fallback_summary articles w1 = (Ok s, w')
          /\ NewsSummary.article_count s = Z.of_nat (length articles)
          /\ length (NewsSummary.sources s) = Nat.min 10 (length articles)
          /\ length (NewsSummary.key_points s) = Nat.min 8 (length articles)
          /\ Forall (fun k => (String.length k <= 103)%nat) (NewsSummary.key_points s)
          /\ (exists i, NewsSummary.id s = Some i)).
Proof.
  unfold _generate_summary_with_recovery, try_except.
  destruct (generate_summary articles w) as [[s0|e] w1].
  - exists s0, w1. split; [reflexivity|].
    split; [intros ? ? [= <- <-]; split; reflexivity | intros ? ? [=]].
  - destruct (handler_fallback_summary_fields articles w1)
      as (s & w' & Hrun & Hcount & Hsrc & Hkp & Hlen & Hid).
    rewrite Hrun. exists s, w'. split; [reflexivity|].
    split; [intros ? ? [=]|]. intros e' w1' [= <- <-].
    split; [exact Hrun|]. repeat split; assumption.
Qed.

(** X14.  The publishing stage never raises.  [_publish_summary_with_recovery]
    calls the publisher once and returns [True] exactly when that call
    returned [True]: a publisher that raises counts as a failed
    publication.  [_attempt_fallback_publishing] returns a boolean as
    well, whatever the publisher does. *)
Theorem publishing_never_raises (summary : NewsSummary.t) (correlation_id : PyVal.t) (w : W) :
  (exists b,
      _publish_summary_with_recovery summary correlation_id w
      = (Ok b, snd (publish_summary summary w))
      /\ (b = true <-> fst (publish_summary summary w) = Ok true))
  /\ (exists b w', _attempt_fallback_publishing summary correlation_id w = (Ok b, w')).
Proof.
  split.
  - unfold _publish_summary_with_recovery, try_except, bind, ret.
    destruct (publish_summary summary w) as [[[|]|e] w1]; cbn [fst snd];
      eexists; (split; [reflexivity|]); split; intros E; try reflexivity; discriminate.
  - unfold _attempt_fallback_publishing, _create_simplified_summary.
    destruct (NewsSummary_new_fields (simplified_fields summary) w) as (s1 & w1 & Hs1 & _).
    unfold bind at 1, try_except at 1, bind at 1. rewrite Hs1.
    destruct (publish_summary s1 w1) as [[[|]|e] w2]; unfold ret at 1;
      try (eexists _, _; reflexivity).
    + destruct (NewsSummary_new_fields (minimal_fields summary) w2) as (s2 & w3 & Hs2 & _).
      unfold bind at 1, try_except at 1, bind at 1. rewrite Hs2.
      destruct (publish_summary s2 w3) as [[[|]|e] w4]; eexists _, _; reflexivity.
    + destruct (NewsSummary_new_fields (minimal_fields summary) w2) as (s2 & w3 & Hs2 & _).
      unfold bind at 1, try_except at 1, bind at 1. rewrite Hs2.
      destruct (publish_summary s2 w3) as [[[|]|e'] w4]; eexists _, _; reflexivity.
Qed.

End StageFacts.

(** ** The fallbacks of the publication *)



(** X16.  Against a publisher that answers its calls by a script,
    [_handle_no_news_scenario_with_recovery] never raises and sends the
    no-news notification once when the first attempt returns [True], and
    twice otherwise, whether the first attempt returned [False] or
    raised; it sleeps two seconds only after a first attempt that raised.
    The outcome of the second attempt changes nothing: nothing is
    returned to the caller. *)
Theorem no_news_notification_attempts (sc : Mock.Script) (correlation_id : PyVal.t)
        (w : Mock.World) :
  let n := Mock.no_news_calls w in
  let run := @LambdaHandler._handle_no_news_scenario_with_recovery
               Mock.World Mock.runtime (Mock.services sc) correlation_id w in
  fst run = Ok tt
  /\ Mock.no_news_calls (snd run)
     = match Mock.on_no_news sc n with
       | Ok true => (n + 1)%nat
       | _ => (n + 2)%nat
       end
  /\ Mock.sleeps (snd run)
     = Mock.sleeps w ++ match Mock.on_no_news sc n with
                        | Raise _ => [2]
                        | Ok _ => []
                        end
  /\ Mock.stage_calls (snd run) = Mock.stage_calls w
  /\ Mock.publish_calls (snd run) = Mock.publish_calls w.
Proof.
  cbv zeta. destruct w as [clk uu fc flc smc pc nnc gnc ic sl].
  cbn [Mock.no_news_calls Mock.sleeps Mock.publish_calls].
  replace (nnc + 1)%nat with (S nnc) by lia. replace (nnc + 2)%nat with (S (S nnc)) by lia.
  unfold LambdaHandler._handle_no_news_scenario_with_recovery,
    LambdaHandler._log_no_news_event, LambdaHandler._log_notification_success,
    LambdaHandler._log_notification_failure, datetime_now_utc.
  destruct (Mock.on_no_news sc nnc) as [[|]|e1] eqn:E1;
    destruct (Mock.on_no_news sc (S nnc)) as [[|]|e2] eqn:E2;
    repeat (cbn;
            unfold LambdaHandler._log_notification_success,
              LambdaHandler._log_notification_failure, datetime_now_utc;
            run_step; rewrite ?E1, ?E2;
            change (0 <? 2 - 1) with true; change (0 + 1 <? 2 - 1) with false);
    rewrite ?app_nil_r; repeat split.
Qed.

(** ** Whole invocations *)

Section InvocationFacts.
Context {W : Type} `{Runtime W} `{LambdaHandler.Services W} `{PyLib}.

Import LambdaHandler.

(** X17.  When the fetch stage returns no article, the invocation ends
    with the success response, status 200, whatever became of the no-news
    notification (delivered, refused or raising): the workflow state of
    the response has [articles_fetched] set, the two other flags unset,
    and no error. *)
Theorem no_articles_success_response (self : t) (event : Event) (j : PyVal.json)
        (w w1 : W) :
  let cid := default (PyVal.VStr (execution_id self)) (event !! "correlation_id") in
  PyVal.dumps cid = Ok j ->
  _fetch_news_articles_with_recovery self cid (snd (time_time w)) = (Ok [], w1) ->
  exists resp st,
    invoke self event w = (Ok resp, st)
    /\ statusCode resp = 200
    /\ PyVal.get "message" (body resp)
       = Some (PyVal.JStr "No relevant news found - notification sent")
    /\ articles_fetched (workflow_state (fst st)) = true
    /\ summary_generated (workflow_state (fst st)) = false
    /\ summary_published (workflow_state (fst st)) = false.
Proof.
  intros cid Hcid Hfetch.
  destruct (handler_no_news self event j w w1 Hcid Hfetch)
    as (resp & fr & Hrun & Hst & Hmsg & Hf & Hg & Hp).
  eexists resp, _. split; [exact Hrun|]. cbn [fst].
  repeat split; assumption.
Qed.

(** X18.  When the fetch stage returns at least one article, the
    invocation returns no response: it raises, because every response it
    could build serializes a workflow state that holds the articles. *)
Theorem articles_make_handler_raise (self : t) (event : Event) (w w1 : W)
        (a : NewsArticle.t) (l : list NewsArticle.t) :
  _fetch_news_articles_with_recovery self
    (default (PyVal.VStr (execution_id self)) (event !! "correlation_id"))
    (snd (time_time w)) = (Ok (a :: l), w1) ->
  exists e, fst (invoke self event w) = Raise e.
Proof. apply handler_raises_with_articles. Qed.

(** X19.  When the fetch stage fails with its [NEWS_FETCH_ERROR], the
    invocation ends with the partial-success response, status 206 and
    the message ["News fetching failed, sent no-news notification"],
    whatever became of the notification. *)
Theorem fetch_error_partial_response (self : t) (event : Event) (j : PyVal.json)
        (w w1 : W) (message original : string) (ts : datetime) :
  let cid := default (PyVal.VStr (execution_id self)) (event !! "correlation_id") in
  PyVal.dumps cid = Ok j ->
  _fetch_news_articles_with_recovery self cid (snd (time_time w))
    = (Raise (WorkflowError message NEWS_FETCH_ERROR false original ts), w1) ->
  exists resp st,
    invoke self event w = (Ok resp, st)
    /\ statusCode resp = 206
    /\ PyVal.get "message" (body resp)
       = Some (PyVal.JStr "News fetching failed, sent no-news notification").
Proof. apply handler_fetch_error_partial. Qed.

End InvocationFacts.

Lemma no_articles_success_response_witness :
  exists resp st,
    Mock.run MoreExamples.no_articles_script Mock.test_event = (Ok resp, st)
    /\ LambdaHandler.statusCode resp = 200
    /\ PyVal.get "message" (LambdaHandler.body resp)
       = Some (PyVal.JStr "No relevant news found - notification sent")
    /\ LambdaHandler.articles_fetched (LambdaHandler.workflow_state (fst st)) = true
    /\ LambdaHandler.summary_generated (LambdaHandler.workflow_state (fst st)) = false
    /\ LambdaHandler.summary_published (LambdaHandler.workflow_state (fst st)) = false.
Proof.
  eapply (@no_articles_success_response Mock.World Mock.runtime
            (Mock.services MoreExamples.no_articles_script) Mock.pylib
            Mock.test_handler Mock.test_event).
  - reflexivity.
  - reflexivity.
Defined.

Lemma articles_make_handler_raise_witness :
  exists e, fst (Mock.run Examples.success_script Mock.test_event) = Raise e.
Proof.
  eapply (@articles_make_handler_raise Mock.World Mock.runtime
            (Mock.services Examples.success_script) Mock.pylib
            Mock.test_handler Mock.test_event).
  reflexivity.
Defined.

Lemma fetch_error_partial_response_witness :
  exists resp st,
    Mock.run Examples.fetch_fails_script Mock.test_event = (Ok resp, st)
    /\ LambdaHandler.statusCode resp = 206
    /\ PyVal.get "message" (LambdaHandler.body resp)
       = Some (PyVal.JStr "News fetching failed, sent no-news notification").
Proof.
  eapply (@fetch_error_partial_response Mock.World Mock.runtime
            (Mock.services Examples.fetch_fails_script) Mock.pylib
            Mock.test_handler Mock.test_event).
  - reflexivity.
  - vm_compute. reflexivity.
Defined.

(** ** The error log of an invocation *)

Section ErrorLogFacts.
Context {W : Type} `{Runtime W} `{LambdaHandler.Services W} `{PyLib}.

Import LambdaHandler.

Ltac keeps_rest :=
  match goal with |- context [?m (?fr', ?w')] =>
    let Hk := fresh "Hk" in
    assert (keeps_object m) as Hk
      by (repeat (apply keeps_bind; intros); try apply keeps_get_ws; apply keeps_in_world);
    rewrite Hk
  end.

(** The [try] block assigns flags, articles and summary, and never
    touches the error log. *)
Lemma handler_body_errors (self : t) (cid : PyVal.t) (t0 : Float.float)
      (fr : Frame) (w : W) :
  errors (workflow_state (fst (snd (handler_body self cid t0 (fr, w)))))
  = errors (workflow_state fr).
Proof.
  unfold handler_body. rewrite bind_in_world.
  destruct (_fetch_news_articles_with_recovery self cid w) as [[articles|e] w1];
    [|reflexivity].
  rewrite !bind_update_ws.
  destruct articles as [|a l].
  - keeps_rest. reflexivity.
  - rewrite bind_in_world.
    destruct (_generate_summary_with_recovery (a :: l) cid w1) as [[summary|e] w2];
      [|reflexivity].
    rewrite !bind_update_ws. rewrite bind_in_world.
    destruct (_publish_summary_with_recovery summary cid w2) as [[published|e] w3];
      [|reflexivity].
    rewrite bind_update_ws.
    destruct published; cbn [negb].
    + keeps_rest. reflexivity.
    + rewrite bind_in_world.
      destruct (_attempt_fallback_publishing summary cid w3) as [[fallback|e] w4];
        [|reflexivity].
      rewrite bind_update_ws.
      destruct fallback; cbn [negb]; keeps_rest; reflexivity.
Qed.

Lemma handle_unexpected_error_entry (error : exn) (cid : PyVal.t) (t : Float.float)
      (fr : Frame) (w : W) :
  exists ts,
    workflow_state (fst (snd (_handle_unexpected_error error cid t (fr, w))))
    = append_error {| err_type := "unknown_error"; err_message := exn_str error;
                      err_recoverable := false; err_timestamp := ts |}
                   (workflow_state fr).
Proof.
  unfold _handle_unexpected_error.
  rewrite bind_in_world. destruct (elapsed_returns t w) as (x & w1 & ->).
  rewrite bind_in_world. destruct (datetime_now_utc_returns w1) as (now & w2 & ->).
  rewrite bind_update_ws. eexists.
  match goal with |- context [bind get_ws ?k (?fr', w2)] =>
    assert (keeps_object (bind get_ws k)) as Hk by (apply keeps_bind; [apply keeps_get_ws | keeps])
  end.
  rewrite Hk. reflexivity.
Qed.

Lemma handle_workflow_error_entry (message : string) (error_type : ErrorType)
      (recoverable : bool) (timestamp : datetime) (cid : PyVal.t) (t : Float.float)
      (fr : Frame) (w : W) :
  workflow_state (fst (snd (_handle_workflow_error message error_type recoverable timestamp
                                                    cid t (fr, w))))
  = append_error {| err_type := ErrorType_value error_type; err_message := message;
                    err_recoverable := recoverable;
                    err_timestamp := DateTime.isoformat timestamp |}
                 (workflow_state fr).
Proof.
  unfold _handle_workflow_error.
  rewrite bind_in_world. destruct (elapsed_returns t w) as (x & w1 & ->).
  rewrite bind_update_ws.
  match goal with |- context [?m (?fr', w1)] =>
    assert (keeps_object m) as Hk
  end.
  { destruct (ErrorType_eqb error_type NEWS_FETCH_ERROR && negb recoverable).
    - apply keeps_try_except; intros;
        repeat (apply keeps_bind; intros); try apply keeps_get_ws; apply keeps_in_world.
    - repeat (apply keeps_bind; intros); try apply keeps_get_ws; apply keeps_in_world. }
  rewrite Hk. reflexivity.
Qed.

(** X20.  An invocation logs at most one error.  When the [try] block
    of the handler completes, its response is the response of the
    invocation and the error log is empty.  When it raises a
    [WorkflowError], the log holds one entry with the value of its error
    type, its message, its recoverable flag and its timestamp; when it
    raises anything else, the log holds one entry of type
    ["unknown_error"], not recoverable, with the message of the
    exception. *)
Theorem error_log_one_entry_per_failure (self : t) (event : Event) (w : W) :
  let cid := default (PyVal.VStr (execution_id self)) (event !! "correlation_id") in
  let fr0 := {| workflow_state := initial_workflow_state; history := [] |} in
  let final := workflow_state (fst (snd (invoke self event w))) in
  (length (errors final) <= 1)%nat
  /\ match handler_body self cid (fst (time_time w)) (fr0, snd (time_time w)) with
     | (Ok resp, st) => invoke self event w = (Ok resp, st) /\ errors final = []
     | (Raise (WorkflowError message error_type recoverable _ timestamp), _) =>
         errors final = [ {| err_type := ErrorType_value error_type;
                             err_message := message;
                             err_recoverable := recoverable;
                             err_timestamp := DateTime.isoformat timestamp |} ]
     | (Raise (PyException _ message), _) =>
         exists ts, errors final = [ {| err_type := "unknown_error";
                                        err_message := message;
                                        err_recoverable := false;
                                        err_timestamp := ts |} ]
     end.
Proof.
  cbv zeta. unfold invoke, handler.
  set (cid := default (PyVal.VStr (execution_id self)) (event !! "correlation_id")).
  rewrite bind_in_world.
  replace (eff time_time w) with (Ok (fst (time_time w)), snd (time_time w))
    by (unfold eff; destruct (time_time w); reflexivity).
  rewrite bind_put_self. unfold try_except.
  pose proof (handler_body_errors self cid (fst (time_time w))
                {| workflow_state := initial_workflow_state; history := [] |}
                (snd (time_time w))) as Herr.
  destruct (handler_body self cid (fst (time_time w)) _) as [[resp|e] [fr1 w1]];
    cbn [fst snd workflow_state errors initial_workflow_state] in Herr.
  - cbn [fst snd]. rewrite Herr. split; [simpl; lia|]. split; reflexivity.
  - destruct e as [cls msg | msg ety rec orig ts].
    + destruct (handle_unexpected_error_entry (PyException cls msg) cid (fst (time_time w))
                  fr1 w1) as (ts & Hentry).
      rewrite Hentry. cbn [errors append_error]. rewrite Herr. cbn [app exn_str].
      split; [simpl; lia|]. exists ts. reflexivity.
    + rewrite handle_workflow_error_entry. cbn [errors append_error]. rewrite Herr.
      cbn [app]. split; [simpl; lia | reflexivity].
Qed.

End ErrorLogFacts.

(** ** Publishing to SNS *)

Section DelayFacts.
Context {W : Type} `{Runtime W} `{AWSNSPublisher.Env W}.

Import AWSNSPublisher.

Lemma py_max_0_nonneg (x : Float.float) : Float.leb Float.zero (py_max_0 x) = true.
Proof.
  unfold py_max_0. destruct (Float.ltb Float.zero x) eqn:E; [|reflexivity].
  unfold Float.ltb, SFltb in E. unfold Float.leb, SFleb.
  destruct (SFcompare Float.zero x) as [[]|]; try discriminate. reflexivity.
Qed.

(** X21.  For an attempt number from 0 to 1023, [_calculate_retry_delay]
    returns a delay that is not negative and is a number, whatever
    [random.uniform] returns.  Without jitter no random number is drawn,
    the delays of the attempts 0, 1 and 2 are exactly 1.0, 2.0 and 4.0
    seconds, the delay doubles up to the attempt 5, and from the attempt
    6 on it is the maximal delay of 60 seconds. *)
Theorem retry_delay_nonnegative (self : t) (attempt : Z) (w : W) :
  0 <= attempt < 1024 ->
  (exists delay w',
      _calculate_retry_delay self attempt w = (Ok delay, w')
      /\ Float.leb Float.zero delay = true)
  /\ (jitter self = false ->
      _calculate_retry_delay self attempt w
      = (Ok (if attempt <? 6 then Float.of_int (2 ^ attempt) else Float.of_int 60), w)).
Proof.
  intros Hrange. split.
  - unfold _calculate_retry_delay. destruct (jitter self); run_step.
    + destruct (random_uniform _ _ w) as [u w1]. cbn [fst snd].
      eexists _, _. split; [reflexivity | apply py_max_0_nonneg].
    + eexists _, _. split; [reflexivity | apply py_max_0_nonneg].
  - intros Hj. unfold _calculate_retry_delay. rewrite Hj. run_step.
    f_equal. f_equal.
    assert (forallb (fun a : nat =>
                       match py_max_0 (Float.py_min
                                         (Float.mul base_delay (backoff_power (Z.of_nat a)))
                                         max_delay),
                             (if Z.of_nat a <? 6 then Float.of_int (2 ^ Z.of_nat a)
                              else Float.of_int 60) with
                       | S754_finite false m1 e1, S754_finite false m2 e2 =>
                           (m1 =? m2)%positive && (e1 =? e2)
                       | _, _ => false
                       end) (seq 0 1024) = true) as Hall
      by (vm_compute; reflexivity).
    rewrite forallb_forall in Hall.
    specialize (Hall (Z.to_nat attempt)).
    rewrite Z2Nat.id in Hall by lia.
    assert (In (Z.to_nat attempt) (seq 0 1024)) as Hin by (apply in_seq; lia).
    specialize (Hall Hin).
    destruct (py_max_0 _) as [| | |[] m1 e1]; try discriminate.
    destruct (if attempt <? 6 then _ else _) as [| | |[] m2 e2]; try discriminate.
    apply andb_prop in Hall as [Hm He].
    apply Pos.eqb_eq in Hm. apply Z.eqb_eq in He. now subst.
Qed.

End DelayFacts.

Ltac publish_done Ecall :=
  eexists; (split; [reflexivity|]); (split; [lia|]);
  (split; [intros i Hi; lia|]);
  (split; [intros _; split; [lia|];
           cbn [Nat.sub]; rewrite Nat.sub_0_r, Ecall;
           first [ reflexivity
                 | split; [reflexivity|]; cbn [Props.retryable_failure];
                   try match goal with
                       | Hcode : (_ || _ || _) = true |- _ => rewrite Hcode
                       end;
                   discriminate ]|]);
  exists []; rewrite app_nil_r; (split; [reflexivity|]); split; [simpl; lia | constructor].

Lemma publish_loop_calls (sc : SNSMock.Script) (self : AWSNSPublisher.t)
      (message subject : string) (remaining : nat) :
  forall (attempt : Z) (w : SNSMock.World),
    attempt + Z.of_nat remaining = AWSNSPublisher.max_retries self + 1 ->
    let run := @AWSNSPublisher._publish_loop SNSMock.World SNSMock.runtime (SNSMock.env sc)
                 self message subject attempt remaining w in
    exists b,
      fst run = Ok b
      /\ (SNSMock.publish_calls w <= SNSMock.publish_calls (snd run)
          <= SNSMock.publish_calls w + remaining)%nat
      /\ (forall i,
             (i < SNSMock.publish_calls (snd run) - SNSMock.publish_calls w - 1)%nat ->
             Props.retryable_failure (SNSMock.on_publish sc (SNSMock.publish_calls w + i))
             = true)
      /\ ((0 < remaining)%nat ->
          (SNSMock.publish_calls w < SNSMock.publish_calls (snd run))%nat
          /\ match SNSMock.on_publish sc (SNSMock.publish_calls (snd run) - 1) with
             | AWSNSPublisher.Returned _ =>
                 b = negb (Props.tracking_raises
                             (SNSMock.on_attributes sc (SNSMock.attribute_calls w)))
             | o => b = false
                    /\ (Props.retryable_failure o = true ->
                        SNSMock.publish_calls (snd run)
                        = (SNSMock.publish_calls w + remaining)%nat)
             end)
      /\ exists s, SNSMock.sleeps (snd run) = SNSMock.sleeps w ++ s
                   /\ length s
                      = (SNSMock.publish_calls (snd run) - SNSMock.publish_calls w - 1)%nat
                   /\ Forall (fun d => Float.leb Float.zero d = true) s.
Proof.
  induction remaining as [|n IH]; intros attempt w Hsum.
  - cbn. exists false. split; [reflexivity|]. split; [lia|]. split; [intros i Hi; lia|].
    split; [lia|]. exists []. rewrite app_nil_r.
    split; [reflexivity|]. split; [simpl; lia | constructor].
  - cbn [AWSNSPublisher._publish_loop]. cbv zeta.
    destruct w as [clk pc ac uc sl].
    cbn [AWSNSPublisher.sns_publish SNSMock.env SNSMock.publish_calls SNSMock.sleeps
         SNSMock.attribute_calls].
    destruct (SNSMock.on_publish sc pc) as [message_id|code msg|e] eqn:Ecall.
    + unfold AWSNSPublisher.track_delivery_status, AWSNSPublisher.log_delivery_attempt,
        datetime_now_utc.
      run_step. cbn [AWSNSPublisher.get_topic_attributes SNSMock.env].
      cbn [SNSMock.attribute_calls].
      destruct (SNSMock.on_attributes sc ac) as [[[http email sms|]|]|code msg|e]; cbn;
        publish_done Ecall.
    + unfold AWSNSPublisher.log_delivery_attempt, datetime_now_utc. run_step.
      cbn [clock_us SNSMock.runtime fst snd SNSMock.clock].
      destruct (String.eqb code "InvalidParameter" || String.eqb code "AuthorizationError"
                || String.eqb code "NotFound") eqn:Ecode;
        [cbn; publish_done Ecall|].
      assert (forall (w1 : SNSMock.World) (s0 : list Float.float),
                SNSMock.publish_calls w1 = S pc -> SNSMock.attribute_calls w1 = ac ->
                SNSMock.sleeps w1 = sl ++ s0 ->
                (length s0 = 1%nat /\ (1 <= n)%nat) \/ (s0 = [] /\ n = 0%nat) ->
                Forall (fun d => Float.leb Float.zero d = true) s0 ->
                let run := @AWSNSPublisher._publish_loop SNSMock.World SNSMock.runtime
                             (SNSMock.env sc) self message subject (attempt + 1) n w1 in
                exists b,
                  fst run = Ok b
                  /\ (pc <= SNSMock.publish_calls (snd run) <= pc + S n)%nat
                  /\ (forall i,
                         (i < SNSMock.publish_calls (snd run) - pc - 1)%nat ->
                         Props.retryable_failure (SNSMock.on_publish sc (pc + i)) = true)
                  /\ ((0 < S n)%nat ->
                      (pc < SNSMock.publish_calls (snd run))%nat
                      /\ match SNSMock.on_publish sc
                                 (SNSMock.publish_calls (snd run) - 1) with
                         | AWSNSPublisher.Returned _ =>
                             b = negb (Props.tracking_raises (SNSMock.on_attributes sc ac))
                         | o => b = false
                                /\ (Props.retryable_failure o = true ->
                                    SNSMock.publish_calls (snd run) = (pc + S n)%nat)
                         end)
                  /\ exists s, SNSMock.sleeps (snd run) = sl ++ s
                               /\ length s = (SNSMock.publish_calls (snd run) - pc - 1)%nat
                               /\ Forall (fun d => Float.leb Float.zero d = true) s) as Hnext.
      { intros w1 s0 Hc Ha Hs Hcase Hall. cbv zeta.
        destruct (IH (attempt + 1) w1 ltac:(lia))
          as (b & Hb & Hcalls & Hbefore & Hlast & s & Hsl & Hl & Hf).
        rewrite Hc in Hcalls, Hbefore, Hl. rewrite Ha in Hlast.
        exists b. split; [exact Hb|]. split; [lia|].
        split.
        { intros [|j] Hj.
          - rewrite Nat.add_0_r, Ecall. cbn [Props.retryable_failure].
            rewrite Ecode. reflexivity.
          - rewrite Nat.add_succ_r. apply (Hbefore j). lia. }
        split.
        { intros _. destruct Hcase as [[_ Hn]|[_ Hn]].
          - destruct (Hlast ltac:(lia)) as [Hlt Hm]. split; [lia|].
            destruct (SNSMock.on_publish sc (SNSMock.publish_calls _ - 1));
              [exact Hm | |];
              (split; [apply Hm | intros Hr; rewrite (proj2 Hm Hr); lia]).
          - subst n. cbn in Hb. injection Hb as <-. cbn. rewrite Hc. split; [lia|].
            cbn [Nat.sub]. rewrite Nat.sub_0_r, Ecall. split; [reflexivity|].
            intros _. lia. }
        exists (s0 ++ s). rewrite Hsl, Hs, app_assoc. split; [reflexivity|].
        split; [|now apply Forall_app].
        rewrite length_app, Hl. destruct Hcase as [[H1 Hn]|[H1 Hn]].
        - destruct (Hlast ltac:(lia)) as [Hlt _]. rewrite Hc in Hlt. lia.
        - subst. cbn in *. lia. }
      destruct (attempt <? AWSNSPublisher.max_retries self) eqn:Elt.
      * apply Z.ltb_lt in Elt.
        unfold AWSNSPublisher._calculate_retry_delay.
        destruct (AWSNSPublisher.jitter self); run_step; cbn;
          match goal with
          | |- context [AWSNSPublisher._publish_loop _ _ _ _ _ ?w1] =>
              match w1 with
              | {| SNSMock.sleeps := sl ++ [?d] |} =>
                  apply (Hnext w1 [d]);
                  [reflexivity | reflexivity | reflexivity | left; split; [reflexivity | lia]
                  | constructor; [apply py_max_0_nonneg | constructor]]
              end
          end.
      * apply Z.ltb_ge in Elt. cbn. apply (Hnext _ []);
          [reflexivity | reflexivity | cbn; now rewrite app_nil_r
          | right; split; [reflexivity | lia] | constructor].
    + unfold AWSNSPublisher.log_delivery_attempt, datetime_now_utc. run_step. cbn.
      publish_done Ecall.
Qed.

(** X22.  [_publish_with_retry] of a publisher as [__init__] makes it,
    against any scripted SNS client: it never raises; it calls [publish]
    between one and four times; every call but the last one was answered
    with a client error that is retried, and it sleeps once, for a delay
    that is not negative, between two calls; it returns [True] only when
    the last call returned, and then unless tracking the delivery raised;
    a call answered with a client error that is retried is the last one
    only when it is the fourth. *)
Theorem publish_with_retry_attempts (sc : SNSMock.Script) (w : SNSMock.World) :
  let run := SNSMock.publish sc w in
  let calls := (SNSMock.publish_calls (snd run) - SNSMock.publish_calls w)%nat in
  exists b,
    fst run = Ok b
    /\ (1 <= calls <= 4)%nat
    /\ (forall i, (i < calls - 1)%nat ->
                  Props.retryable_failure
                    (SNSMock.on_publish sc (SNSMock.publish_calls w + i)) = true)
    /\ match SNSMock.on_publish sc (SNSMock.publish_calls w + (calls - 1)) with
       | AWSNSPublisher.Returned _ =>
           b = negb (Props.tracking_raises
                       (SNSMock.on_attributes sc (SNSMock.attribute_calls w)))
       | o => b = false /\ (Props.retryable_failure o = true -> calls = 4%nat)
       end
    /\ exists s, SNSMock.sleeps (snd run) = SNSMock.sleeps w ++ s
                 /\ length s = (calls - 1)%nat
                 /\ Forall (fun delay => Float.leb Float.zero delay = true) s.
Proof.
  cbv zeta.
  pose proof (publish_loop_calls sc
                (AWSNSPublisher.init "arn:aws:sns:us-east-1:123456789012:test-topic")
                "message" "subject" 4 0 w eq_refl) as Hloop.
  cbv zeta in Hloop.
  change (SNSMock.publish sc w)
    with (@AWSNSPublisher._publish_loop SNSMock.World SNSMock.runtime (SNSMock.env sc)
            (AWSNSPublisher.init "arn:aws:sns:us-east-1:123456789012:test-topic")
            "message" "subject" 0 4 w).
  destruct (AWSNSPublisher._publish_loop _ _ _ _ _ w) as [r w'].
  cbn [fst snd] in *.
  destruct Hloop as (b & Hb & Hcalls & Hbefore & Hlast & s & Hs & Hlen & Hall).
  destruct (Hlast ltac:(lia)) as [Hlt Hm].
  exists b. split; [exact Hb|]. split; [lia|]. split.
  { intros i Hi. apply Hbefore. lia. }
  split.
  { replace (SNSMock.publish_calls w
             + (SNSMock.publish_calls w' - SNSMock.publish_calls w - 1))%nat
      with (SNSMock.publish_calls w' - 1)%nat by lia.
    destruct (SNSMock.on_publish sc (SNSMock.publish_calls w' - 1));
      [exact Hm | |];
      (split; [apply Hm | intros Hr; rewrite (proj2 Hm Hr); lia]). }
  exists s. split; [exact Hs|]. split; [lia | exact Hall].
Qed.

Section SubscriptionFacts.
Context {W : Type} `{Runtime W} `{AWSNSPublisher.Env W}.

Import AWSNSPublisher.

Lemma count_subscriptions_counts (subs : list Subscription) :
  forall (confirmed_count pending_count : Z) (infos : list SubscriptionInfo),
    let pending_of (sub : Subscription) :=
      bool_decide (SubscriptionArn sub = Some "PendingConfirmation") in
    exists more,
      count_subscriptions subs confirmed_count pending_count infos
      = (confirmed_count + Z.of_nat (length (List.filter (fun sub => negb (pending_of sub)) subs)),
         pending_count + Z.of_nat (length (List.filter pending_of subs)),
         infos ++ more)
      /\ map subscription_arn more = map SubscriptionArn subs
      /\ map protocol more = map Protocol subs
      /\ map endpoint more = map Endpoint subs
      /\ map confirmed more = map (fun sub => negb (pending_of sub)) subs.
Proof.
  cbv zeta. induction subs as [|sub rest IH]; intros c p infos.
  - exists []. cbn. rewrite !Z.add_0_r, app_nil_r. repeat split.
  - cbn [count_subscriptions confirmed List.filter].
    destruct (bool_decide (SubscriptionArn sub = Some "PendingConfirmation")) eqn:E;
      cbn [negb].
    + destruct (IH c (p + 1) (infos ++ [ {| subscription_arn := SubscriptionArn sub;
                                             protocol := Protocol sub;
                                             endpoint := Endpoint sub;
                                             confirmed := false |} ]))
        as (more & Hcount & Harn & Hproto & Hend & Hconf).
      eexists (_ :: more). rewrite Hcount, <- app_assoc.
      cbn [app map length subscription_arn protocol endpoint confirmed].
      rewrite Harn, Hproto, Hend, Hconf, E. cbn [negb].
      split; [f_equal; f_equal; lia | repeat split; reflexivity].
    + destruct (IH (c + 1) p (infos ++ [ {| subscription_arn := SubscriptionArn sub;
                                             protocol := Protocol sub;
                                             endpoint := Endpoint sub;
                                             confirmed := true |} ]))
        as (more & Hcount & Harn & Hproto & Hend & Hconf).
      eexists (_ :: more). rewrite Hcount, <- app_assoc.
      cbn [app map length subscription_arn protocol endpoint confirmed].
      rewrite Harn, Hproto, Hend, Hconf, E. cbn [negb].
      split; [f_equal; f_equal; lia | repeat split; reflexivity].
Qed.

Lemma filter_partition_length {A} (f : A -> bool) (l : list A) :
  (length (List.filter (fun x => negb (f x)) l) + length (List.filter f l))%nat = length l.
Proof.
  induction l as [|x r IH]; [reflexivity|].
  cbn [List.filter]. destruct (f x); cbn [negb length]; lia.
Qed.

(** X23.  [get_subscription_status] answers a client error with its
    message and lets any other exception through.  Of the subscriptions
    that the client lists it counts as pending those whose ARN is
    ["PendingConfirmation"] and as confirmed all the others, also one
    without an ARN: the two counts add up to the total, which is the
    number of subscriptions listed, and the entries are those of the
    subscriptions, in their order. *)
Theorem subscription_status_counts (self : t) (w : W) :
  match list_subscriptions_by_topic w with
  | (Returned subs, w1) =>
      exists confirmed_count pending_count infos,
        get_subscription_status self w
        = (Ok (Status (Z.of_nat (length subs)) confirmed_count pending_count infos), w1)
        /\ confirmed_count + pending_count = Z.of_nat (length subs)
        /\ pending_count
           = Z.of_nat (length (List.filter
                                 (fun sub => bool_decide
                                               (SubscriptionArn sub = Some "PendingConfirmation"))
                                 subs))
        /\ map subscription_arn infos = map SubscriptionArn subs
        /\ map protocol infos = map Protocol subs
        /\ map endpoint infos = map Endpoint subs
        /\ Forall (fun info =>
                     confirmed info
                     = negb (bool_decide (subscription_arn info = Some "PendingConfirmation")))
                  infos
  | (BotoError _ message, w1) =>
      get_subscription_status self w = (Ok (StatusFailed message), w1)
  | (OtherError e, w1) =>
      get_subscription_status self w = (Raise e, w1)
  end.
Proof.
  unfold get_subscription_status.
  destruct (list_subscriptions_by_topic w) as [[subs|code message|e] w1]; try reflexivity.
  destruct (count_subscriptions_counts subs 0 0 [])
    as (more & Hcount & Harn & Hproto & Hend & Hconf).
  rewrite Hcount. cbn [app]. eexists _, _, more. split; [reflexivity|].
  split.
  { pose proof (filter_partition_length
                  (fun sub => bool_decide (SubscriptionArn sub = Some "PendingConfirmation"))
                  subs). lia. }
  split; [lia|]. repeat split; try assumption.
  clear Hcount Hproto Hend. revert subs Harn Hconf.
  induction more as [|info more IH]; intros subs Harn Hconf; [constructor|].
  destruct subs as [|sub subs]; [discriminate|].
  cbn [map] in Harn, Hconf. injection Harn as Harn1 Harn. injection Hconf as Hconf1 Hconf.
  constructor; [|exact (IH subs Harn Hconf)].
  rewrite Hconf1, Harn1. reflexivity.
Qed.

End SubscriptionFacts.

(** Two throttling errors, then a success: three calls of [publish], two
    sleeps, and [True]. *)
Example publish_throttled_twice :
  fst (SNSMock.publish SNSMock.throttled_twice SNSMock.world0) = Ok true
  /\ SNSMock.publish_calls (snd (SNSMock.publish SNSMock.throttled_twice SNSMock.world0))
     = 3%nat
  /\ length (SNSMock.sleeps (snd (SNSMock.publish SNSMock.throttled_twice SNSMock.world0)))
     = 2%nat.
Proof. vm_compute. repeat split. Qed.

(** X21 at the third attempt of a publisher without jitter: four
    seconds. *)
Lemma retry_delay_nonnegative_witness :
  @AWSNSPublisher._calculate_retry_delay SNSMock.World (SNSMock.env SNSMock.throttled_twice)
    (AWSNSPublisher.mk "arn:aws:sns:us-east-1:123456789012:test-topic" 3 false)
    2 SNSMock.world0
  = (Ok (Float.of_int 4), SNSMock.world0).
Proof.
  apply (proj2 (@retry_delay_nonnegative SNSMock.World (SNSMock.env SNSMock.throttled_twice)
                  (AWSNSPublisher.mk "arn:aws:sns:us-east-1:123456789012:test-topic" 3 false)
                  2 SNSMock.world0 ltac:(lia))).
  reflexivity.
Defined.

(** ** The responses and the workflow state *)

Section ResponseFacts.
Context {W : Type} `{Runtime W} `{LambdaHandler.Services W} `{PyLib}.

Import LambdaHandler.

Lemma dumps_state_cases (ws : WorkflowState) :
  PyVal.dumps (state_to_py ws)
  = if Props.state_serializable ws then Ok (Spec.state_to_json ws)
    else Raise (Props.state_type_error ws).
Proof.
  unfold Props.state_serializable, Props.state_type_error.
  destruct (articles ws) as [|a l] eqn:Ha.
  - destruct (summary ws) as [s|] eqn:Hs.
    + unfold state_to_py. rewrite Ha, Hs. reflexivity.
    + apply dumps_state_empty; assumption.
  - apply (dumps_state_articles ws a l Ha).
Qed.

(** X24.  The three responses of the handler that carry the workflow
    state are built exactly when the state holds no article and no
    summary: then they have the status codes 206, 500 and 200, the
    message given, and the state under [workflow_state].  Otherwise each
    of them raises the [TypeError] of [json.dumps], for [NewsArticle]
    when the state holds an article and for [NewsSummary] when it holds
    only a summary. *)
Theorem responses_built_iff_state_serializable (self : t) (message : string)
        (correlation_id : PyVal.t) (j : PyVal.json) (execution_time : Float.float)
        (error_type summary_id : option string) (article_count : option Z)
        (ws : WorkflowState) (w : W) :
  PyVal.dumps correlation_id = Ok j ->
  let partial :=
    fst (_create_partial_success_response message correlation_id execution_time ws w) in
  let failure :=
    fst (_create_error_response message correlation_id execution_time error_type
           (Some ws) w) in
  let success :=
    fst (_create_success_response self message correlation_id execution_time summary_id
           article_count (Some ws) w) in
  let built (r : result Response) (status : Z) :=
    exists resp,
      r = Ok resp
      /\ statusCode resp = status
      /\ PyVal.get "message" (body resp) = Some (PyVal.JStr message)
      /\ PyVal.get "correlation_id" (body resp) = Some j
      /\ PyVal.get "workflow_state" (body resp) = Some (Spec.state_to_json ws) in
  if Props.state_serializable ws
  then built partial 206 /\ built failure 500 /\ built success 200
  else partial = Raise (Props.state_type_error ws)
       /\ failure = Raise (Props.state_type_error ws)
       /\ success = Raise (Props.state_type_error ws).
Proof.
  intros Hcid. cbv zeta.
  unfold _create_partial_success_response, _create_error_response,
    _create_success_response.
  destruct (datetime_now_utc_returns w) as (now & w1 & Hnow).
  unfold bind, of_result, ret. rewrite !Hnow.
  rewrite !dumps_VDict.
  assert (forall (ty : option string) (key : string),
             exists d, match ty with
                       | Some i => if PyStr.is_empty i then [] else [(key, PyVal.VStr i)]
                       | None => []
                       end = d
                       /\ (d = [] \/ exists i, d = [(key, PyVal.VStr i)])) as Hopt.
  { intros [i|] key; [destruct (PyStr.is_empty i)|]; eexists; split; try reflexivity;
      (now left) || (right; now eexists). }
  destruct (Hopt error_type "error_type") as (d1 & -> & Hd1).
  destruct (Hopt summary_id "summary_id") as (d2 & -> & Hd2).
  clear Hopt.
  destruct Hd1 as [->|[i1 ->]]; destruct Hd2 as [->|[i2 ->]];
    destruct article_count as [n|];
    cbn [app PyVal.dumps_items PyVal.dumps];
    rewrite Hcid, !dumps_state_cases;
    cbn [PyVal.dumps_items PyVal.dumps];
    destruct (Props.state_serializable ws); cbn;
    repeat split; eexists; repeat split; reflexivity.
Qed.

End ResponseFacts.

(** X24 at the initial workflow state and the correlation id of the
    tests. *)
Lemma responses_built_iff_state_serializable_witness :
  exists resp,
    fst (@LambdaHandler._create_partial_success_response Mock.World Mock.runtime Mock.pylib
           "No news" (PyVal.VStr "test-correlation-id") Float.one
           LambdaHandler.initial_workflow_state Mock.world0) = Ok resp
    /\ LambdaHandler.statusCode resp = 206
    /\ PyVal.get "workflow_state" (LambdaHandler.body resp)
       = Some (Spec.state_to_json LambdaHandler.initial_workflow_state).
Proof.
  destruct (@responses_built_iff_state_serializable Mock.World Mock.runtime
              Mock.pylib Mock.test_handler "No news"
              (PyVal.VStr "test-correlation-id") (PyVal.JStr "test-correlation-id")
              Float.one None None None LambdaHandler.initial_workflow_state Mock.world0
              eq_refl)
    as ((resp & Hr & Hst & _ & _ & Hws) & _).
  exists resp. split; [exact Hr|]. split; [exact Hst | exact Hws].
Defined.

(** ** [fetch_news] as a whole *)

Section FetchNewsFacts.
Context {W : Type} `{Runtime W} `{GoogleNewsFetcher.GNews W} `{PyLib}.

Import GoogleNewsFetcher.

Lemma convert_one_period (cutoff : datetime) (raw : RawArticle) (self : t) (w : W) :
  period (fst (snd (convert_one cutoff raw (self, w)))) = period self.
Proof.
  unfold convert_one. run_step.
  destruct (_create_news_article raw w) as [[[a|]|e] w1]; run_step; try reflexivity.
  destruct (datetime_le (NewsArticle.published_at a) cutoff) as [[|]|e]; run_step;
    try reflexivity.
  case_bool_decide; reflexivity.
Qed.

Lemma convert_loop_period (cutoff : datetime) (raws : list RawArticle) :
  forall (self : t) (w : W),
    period (fst (snd (convert_loop cutoff raws (self, w)))) = period self.
Proof.
  induction raws as [|raw raws IH]; intros self w; [reflexivity|].
  cbn [convert_loop]. unfold bind at 1.
  pose proof (convert_one_period cutoff raw self w) as Hone.
  destruct (convert_one_cases cutoff raw self w) as (r & self1 & w1 & Hrun & _).
  rewrite Hrun in Hone |- *. cbn [fst snd] in Hone. unfold bind at 1.
  pose proof (IH self1 w1) as Hloop.
  destruct (convert_loop cutoff raws (self1, w1)) as [[articles|e] [self2 w2]];
    cbn [fst snd] in Hloop |- *; unfold ret; cbn [fst snd]; congruence.
Qed.

Lemma convert_to_news_articles_cases (raws : list RawArticle) (hours : Z)
      (self : t) (w : W) :
  let now := {| wall_us := fst (clock_us w) + local_utcoffset * DateTime.us_per_sec;
                utcoffset := None |} in
  period (fst (snd (_convert_to_news_articles raws hours (self, w)))) = period self
  /\ match datetime_sub_hours now hours with
     | Ok _ =>
         exists articles,
           fst (_convert_to_news_articles raws hours (self, w)) = Ok articles
           /\ (length articles <= length raws)%nat
           /\ NoDup (map NewsArticle.url articles)
     | Raise e => fst (_convert_to_news_articles raws hours (self, w)) = Raise e
     end.
Proof.
  cbv zeta. unfold _convert_to_news_articles, datetime_now. run_step.
  destruct (clock_us w) as [t0 w1]. cbn [fst snd].
  destruct (datetime_sub_hours _ hours) as [cutoff|e]; [|split; reflexivity].
  pose proof (convert_loop_period cutoff raws self w1) as Hperiod.
  destruct (convert_loop_cases cutoff raws self w1)
    as (articles & self' & w' & Hloop & Hlen & _ & Hnd & _).
  rewrite Hloop in Hperiod |- *. cbn [fst snd] in Hperiod |- *.
  split; [exact Hperiod|]. exists articles. split; [reflexivity|]. split; assumption.
Qed.

(** X25.  [fetch_news] searches with the period that the time range
    selects, ["1d"] up to 24 hours, ["7d"] up to 168 hours and ["30d"]
    above, and leaves that period on the fetcher, whatever the outcome.
    When the search with its retries raises, it raises the same
    exception; when the search finds nothing, it returns the empty list
    and computes no cutoff.  When the search has items, it raises only
    the [OverflowError] of the cutoff computation, for a time range or a
    clock out of range (never for 1 to 168 hours and a clock at least a
    week after the least [datetime]): no raw item makes it fail.
    Otherwise it returns at most one article per raw item of the search,
    with pairwise different URLs. *)
Theorem fetch_news_period_and_errors (query : string) (hours : Z) (self : t) (w : W) :
  let selected :=
    if hours <=? 24 then "1d" else if hours <=? 168 then "7d" else "30d" in
  let searched := _fetch_with_retry query 3 (set_period self selected, w) in
  let run := fetch_news query hours (self, w) in
  let now := {| wall_us := fst (clock_us (snd (snd searched)))
                           + local_utcoffset * DateTime.us_per_sec;
                utcoffset := None |} in
  period (fst (snd run)) = selected
  /\ match fst searched with
     | Raise e => fst run = Raise e
     | Ok [] => fst run = Ok []
     | Ok ((_ :: _) as raw_articles) =>
         match datetime_sub_hours now hours with
         | Ok _ =>
             exists articles,
               fst run = Ok articles
               /\ (length articles <= length raw_articles)%nat
               /\ NoDup (map NewsArticle.url articles)
         | Raise e =>
             fst run = Raise e
             /\ (exists m, e = PyException "OverflowError" m)
             /\ ~ (1 <= hours <= 168
                   /\ DateTime.min_wall_us + 168 * 3600 * DateTime.us_per_sec
                      <= wall_us now <= DateTime.max_wall_us)
         end
     end.
Proof.
  cbv zeta. unfold fetch_news, _set_time_period. run_step.
  set (self1 := set_period self _).
  pose proof (fetch_with_retry_loop_frame query 3 3 0 self1 w) as Hframe.
  unfold _fetch_with_retry. change (Z.of_nat 3) with 3.
  destruct (_fetch_with_retry_loop query 3 0 3 (self1, w)) as [[raws|e] [self2 w2]];
    cbn [fst snd] in Hframe |- *; subst self2; [|split; reflexivity].
  destruct raws as [|raw raws]; [split; reflexivity|].
  destruct (convert_to_news_articles_cases (raw :: raws) hours self1 w2)
    as (Hperiod & Hconv).
  split; [exact Hperiod|].
  pose proof (datetime_sub_hours_cases
                {| wall_us := fst (clock_us w2) + local_utcoffset * DateTime.us_per_sec;
                   utcoffset := None |} hours) as Hcut.
  destruct (datetime_sub_hours _ hours) as [cutoff|e].
  - destruct Hconv as (articles & Hrun & Hlen & Hnd).
    exists articles. rewrite Hrun. split; [reflexivity|]. split; assumption.
  - rewrite Hconv. destruct Hcut as (Hm & Hout). split; [reflexivity|]. split; assumption.
Qed.

End FetchNewsFacts.

(** ** The stage methods without recovery *)

Section LegacyFacts.
Context {W : Type} `{Runtime W} `{LambdaHandler.Services W}.

Import LambdaHandler LambdaHandlerLegacy.

Lemma slice_to_take {A} (n : Z) (l : list A) :
  0 <= n -> slice_to n l = take (Z.to_nat n) l.
Proof. intros Hn. unfold slice_to. destruct (0 <=? n) eqn:E; [reflexivity | lia]. Qed.

(** X26.  The stage methods without recovery agree with the stage
    methods that the handler calls.  What [_fetch_news_articles] and
    [_generate_summary] return, the methods with recovery return as
    well, at their first attempt (the fetch for a limit of articles that
    is not negative); what they raise is an [Exception] whose message
    starts with ["News fetching failed: "] or with
    ["Summary generation failed: "].  [_publish_summary] is
    [_publish_summary_with_recovery], and it never raises;
    [_handle_no_news_scenario] never raises. *)
Theorem legacy_stages_agree_with_recovery (self : t) (correlation_id : PyVal.t)
        (articles : list NewsArticle.t) (summary : NewsSummary.t) (w : W) :
  match _fetch_news_articles self w with
  | (Ok l, w1) =>
      0 <= AgentConfig.max_articles (config self) ->
      _fetch_news_articles_with_recovery self correlation_id w = (Ok l, w1)
      /\ Z.of_nat (length l) <= AgentConfig.max_articles (config self)
  | (Raise e, _) =>
      exists original,
        e = PyException "Exception" ("News fetching failed: " +:+ original)
  end
  /\ match _generate_summary articles w with
     | (Ok s, w1) => _generate_summary_with_recovery articles correlation_id w = (Ok s, w1)
     | (Raise e, _) =>
         exists original,
           e = PyException "Exception" ("Summary generation failed: " +:+ original)
     end
  /\ _publish_summary summary w = _publish_summary_with_recovery summary correlation_id w
  /\ (exists b w1, _publish_summary summary w = (Ok b, w1))
  /\ (exists w1, _handle_no_news_scenario w = (Ok tt, w1)).
Proof.
  split; [|split; [|split; [|split]]].
  - unfold _fetch_news_articles, _fetch_news_articles_with_recovery.
    cbn [_fetch_news_articles_loop]. run_step.
    destruct (fetch_news _ _ w) as [[[|a raw]|e] w1]; cbn [fst snd];
      [intros Hmax; split; [reflexivity | simpl; lia] | | now eexists].
    destruct (filter_articles (a :: raw) w1) as [[filtered|e] w2]; cbn [fst snd];
      [|now eexists].
    intros Hmax. rewrite (slice_to_take _ _ Hmax).
    split; [reflexivity|].
    destruct (AgentConfig.max_articles (config self) <? Z.of_nat (length filtered)) eqn:E.
    + rewrite length_take. lia.
    + lia.
  - unfold _generate_summary, _generate_summary_with_recovery. run_step.
    destruct (generate_summary articles w) as [[s|e] w1]; [reflexivity | now eexists].
  - unfold _publish_summary, _publish_summary_with_recovery. run_step.
    destruct (publish_summary summary w) as [[[|]|e] w1]; reflexivity.
  - unfold _publish_summary. run_step.
    destruct (publish_summary summary w) as [[b|e] w1]; now eexists _, _.
  - unfold _handle_no_news_scenario. run_step.
    destruct (send_no_news_notification w) as [[b|e] w1]; now eexists.
Qed.

End LegacyFacts.

Section NoNewsScenario.

Import LambdaHandlerLegacy.

(** The score of [m] matches, [t] of them in the title, under the 18
    terms of the default vocabulary. *)
Lemma default_score_above_threshold (a : NewsArticle.t) :
  let score := fst (NewsArticle.calculate_relevance_score a None) in
  Float.leb Float.lit_0_1 score = true ->
  negb (Float.is_zero score) && Float.gtb score Float.lit_0_1 = true.
Proof.
  cbv zeta. unfold NewsArticle.calculate_relevance_score. cbn [fst].
  change (Z.of_nat (length NewsArticle.default_keywords)) with 18.
  change (0 <? 18) with true. cbv iota.
  rewrite !count_matches_filter.
  set (m := length (List.filter _ NewsArticle.default_keywords)).
  set (t := length (List.filter _ NewsArticle.default_keywords)).
  assert (m <= 18)%nat as Hm by apply (filter_length_le _ NewsArticle.default_keywords).
  assert (t <= 18)%nat as Ht by apply (filter_length_le _ NewsArticle.default_keywords).
  clearbody m t.
  assert (forallb
            (fun m : nat =>
               forallb
                 (fun t : nat =>
                    let score :=
                      Float.py_min
                        (Float.add (Float.truediv (Z.of_nat m) 18)
                                   (Float.mul (Float.truediv (Z.of_nat t) 18) Float.lit_0_3))
                        Float.one in
                    implb (Float.leb Float.lit_0_1 score)
                          (negb (Float.is_zero score) && Float.gtb score Float.lit_0_1))
                 (seq 0 19))
            (seq 0 19) = true) as Hall by (vm_compute; reflexivity).
  rewrite forallb_forall in Hall.
  specialize (Hall m ltac:(apply in_seq; lia)).
  rewrite forallb_forall in Hall.
  specialize (Hall t ltac:(apply in_seq; lia)). cbv zeta in Hall.
  intros Hge. rewrite Hge in Hall. exact Hall.
Qed.

(** X27.  [_is_no_news_scenario] on a list that [filter_articles]
    returned holds only for the empty list: every article that passed the
    threshold 0.1 has a score strictly above it.  On articles that were
    never scored it holds whatever they say. *)
Theorem no_news_scenario_after_filter (articles : list NewsArticle.t) :
  (_is_no_news_scenario (GoogleNewsFetcher.filter_articles_pure articles) = true
   <-> GoogleNewsFetcher.filter_articles_pure articles = [])
  /\ (Forall (fun a => NewsArticle.relevance_score a = None) articles ->
      _is_no_news_scenario articles = true).
Proof.
  split.
  - rewrite filter_articles_pure_eq.
    pose proof (sort_by_score_desc_perm
                  (omap Props.scored_if_relevant
                        (GoogleNewsFetcher._remove_duplicates articles))) as Hperm.
    destruct (GoogleNewsFetcher.sort_by_score_desc _) as [|a l] eqn:Hsort;
      [split; reflexivity|].
    split; [|discriminate]. intros Hno. exfalso.
    assert (a ∈ omap Props.scored_if_relevant
                     (GoogleNewsFetcher._remove_duplicates articles)) as Ha
      by (rewrite <- Hperm; apply elem_of_cons; now left).
    apply list_elem_of_omap in Ha as (b & _ & Hsome).
    apply scored_if_relevant_some in Hsome as (_ & s & Hs & -> & Hge).
    apply default_score_above_threshold in Hge.
    unfold _is_no_news_scenario in Hno. cbn [List.filter] in Hno.
    rewrite Hs, Hge in Hno. discriminate.
  - intros Hall. destruct articles as [|a l]; [reflexivity|].
    unfold _is_no_news_scenario.
    assert (forall l' : list NewsArticle.t,
               Forall (fun a => NewsArticle.relevance_score a = None) l' ->
               List.filter
                 (fun article =>
                    match NewsArticle.relevance_score article with
                    | Some score => negb (Float.is_zero score) && Float.gtb score Float.lit_0_1
                    | None => false
                    end) l' = []) as Hnone.
    { induction 1 as [|x r Hx _ IH]; [reflexivity|].
      cbn [List.filter]. rewrite Hx. exact IH. }
    rewrite (Hnone _ Hall). reflexivity.
Qed.

End NoNewsScenario.
